(** * Sage Accounting MCP server: a shallow embedding of [src/index.ts]

    The development follows the source file top to bottom:
    - [JS]: the fragment of the JavaScript runtime the server relies on
      (values, truthiness, string conversion, [JSON.stringify],
      [URLSearchParams], [Date.prototype.toISOString]);
    - [Sage]: the module-level bindings, [sageRequest], [refreshAccessToken],
      the tool list and the [CallToolRequestSchema] handler;
    - the theorems about them.

    Strings are byte strings (UTF-8); numbers are exact rationals. *)

From Stdlib Require Import String Ascii List ZArith QArith Bool Lia DecimalString.
Import ListNotations.

Set Warnings "-register-all".

Local Open Scope list_scope.
Local Open Scope Z_scope.
Local Open Scope string_scope.

(* ================================================================== *)
(** ** The JavaScript runtime fragment *)
(* ================================================================== *)

Module JS.

(** A JavaScript value as the server meets them: what [JSON.parse] produces,
    plus [undefined] (the result of reading a property that is not there). *)
Inductive Value : Type :=
| VUndefined
| VNull
| VBool (b : bool)
| VNum (n : Q)
| VStr (s : string)
| VArr (items : list Value)
| VObj (props : list (string * Value)).

(** Values thrown by the code.  Every one is an [Error] instance; the handler
    only reads its [message]. *)
Inductive Exn : Type :=
| Error (message : string)
| TypeError (message : string)
| SyntaxError (message : string).

Definition message (e : Exn) : string :=
  match e with
  | Error m | TypeError m | SyntaxError m => m
  end.

(** Normal completion or a throw. *)
Inductive Completion (A : Type) : Type :=
| Ok (a : A)
| Throw (e : Exn).
Arguments Ok {A} a.
Arguments Throw {A} e.

Definition bindC {A B} (c : Completion A) (k : A -> Completion B) : Completion B :=
  match c with
  | Ok a => k a
  | Throw e => Throw e
  end.

Declare Scope completion_scope.
Delimit Scope completion_scope with completion.
Notation "x <- c ;; k" := (bindC c (fun x => k))
  (at level 61, c at next level, right associativity) : completion_scope.
Local Open Scope completion_scope.

Fixpoint mapC {A B} (f : A -> Completion B) (l : list A) : Completion (list B) :=
  match l with
  | [] => Ok []
  | x :: r => y <- f x ;; ys <- mapC f r ;; Ok (y :: ys)
  end.

(** *** Numbers *)

Definition Q_is_zero (q : Q) : bool := (Qnum q =? 0)%Z.

Definition digit (d : Z) : ascii := ascii_of_nat (48 + Z.to_nat d).

(** Digits after the decimal point of [r / d], for [0 <= r < d]. *)
Fixpoint fraction_digits (fuel : nat) (r d : Z) : string :=
  match fuel with
  | O => ""
  | S fuel' =>
      if (r =? 0)%Z then ""
      else String (digit (r * 10 / d)) (fraction_digits fuel' (r * 10 mod d) d)
  end.

Definition Z_toString (z : Z) : string := NilZero.string_of_int (Z.to_int z).

(** [Number.prototype.toString]: positional decimal notation.  It agrees with
    the runtime on the finite decimals a JSON document carries, of at most 15
    significant digits and of magnitude between 1e-6 and 1e21. *)
Definition Number_toString (q : Q) : string :=
  let n := Qnum q in
  let d := Z.pos (Qden q) in
  let a := Z.abs n in
  let int_part := Z_toString (a / d) in
  let frac := fraction_digits 20 (a mod d) d in
  (if (n <? 0)%Z then "-" else "") ++ int_part ++
  (if (frac =? "")%string then "" else "." ++ frac).

(** *** Conversions *)

(** [ToBoolean]. *)
Definition truthy (v : Value) : bool :=
  match v with
  | VUndefined | VNull => false
  | VBool b => b
  | VNum n => negb (Q_is_zero n)
  | VStr s => negb (s =? "")%string
  | VArr _ | VObj _ => true
  end.

(** [ToString], as applied by template literals, [String(...)] and
    [URLSearchParams.append].  Array elements [null] and [undefined] print as
    the empty string inside [Array.prototype.join], which is [String.concat]. *)
Fixpoint ToString (v : Value) : string :=
  match v with
  | VUndefined => "undefined"
  | VNull => "null"
  | VBool true => "true"
  | VBool false => "false"
  | VNum n => Number_toString n
  | VStr s => s
  | VArr items =>
      String.concat ","
        (map (fun x => match x with
                       | VUndefined | VNull => ""
                       | _ => ToString x
                       end) items)
  | VObj _ => "[object Object]"
  end.

(** Strict equality with a string literal: [v === lit]. *)
Definition strict_eq_str (v : Value) (lit : string) : bool :=
  match v with
  | VStr s => (s =? lit)%string
  | _ => false
  end.

(** *** Property access *)

Fixpoint assoc {A} (k : string) (l : list (string * A)) : option A :=
  match l with
  | [] => None
  | (k', v) :: r => if (k' =? k)%string then Some v else assoc k r
  end.

Definition own (props : list (string * Value)) (k : string) : Value :=
  match assoc k props with
  | Some v => v
  | None => VUndefined
  end.

(** [base.k] for the property names the server reads (none of them is a
    built-in property of a primitive, an array or [Object.prototype]).
    Reading a property of [undefined] or [null] throws. *)
Definition get (base : Value) (k : string) : Completion Value :=
  match base with
  | VUndefined =>
      Throw (TypeError ("Cannot read properties of undefined (reading '" ++ k ++ "')"))
  | VNull =>
      Throw (TypeError ("Cannot read properties of null (reading '" ++ k ++ "')"))
  | VObj props => Ok (own props k)
  | _ => Ok VUndefined
  end.

(** [(base as Array<...>).map(f)]: the method exists on arrays only.  [what] is
    the source text of [base], which the runtime quotes in its message. *)
Definition array_map (what : string) (base : Value)
    (f : Value -> Completion Value) : Completion Value :=
  match base with
  | VUndefined =>
      Throw (TypeError "Cannot read properties of undefined (reading 'map')")
  | VNull =>
      Throw (TypeError "Cannot read properties of null (reading 'map')")
  | VArr items => ys <- mapC f items ;; Ok (VArr ys)
  | _ => Throw (TypeError (what ++ ".map is not a function"))
  end.

(** *** [JSON.stringify] *)

Definition newline : string := String (ascii_of_nat 10) "".
Definition dquote : string := String (ascii_of_nat 34) "".
Definition backslash : string := String (ascii_of_nat 92) "".

Definition hex_digit (upper : bool) (n : nat) : ascii :=
  if (n <? 10)%nat then ascii_of_nat (48 + n)
  else ascii_of_nat ((if upper then 55 else 87) + n).

(** One code unit inside [QuoteJSONString]. *)
Definition json_escape (c : ascii) : string :=
  let n := nat_of_ascii c in
  if (n =? 34)%nat then backslash ++ dquote
  else if (n =? 92)%nat then backslash ++ backslash
  else if (n =? 8)%nat then backslash ++ "b"
  else if (n =? 9)%nat then backslash ++ "t"
  else if (n =? 10)%nat then backslash ++ "n"
  else if (n =? 12)%nat then backslash ++ "f"
  else if (n =? 13)%nat then backslash ++ "r"
  else if (n <? 32)%nat then
    backslash ++ "u00" ++
    String (hex_digit false (n / 16)) (String (hex_digit false (n mod 16)) "")
  else String c "".

Fixpoint json_escape_all (s : string) : string :=
  match s with
  | EmptyString => ""
  | String c r => json_escape c ++ json_escape_all r
  end.

Definition QuoteJSONString (s : string) : string :=
  dquote ++ json_escape_all s ++ dquote.

(** [JSON.stringify(v, null, gap)] below the indentation [indent]; [None] is
    the result [undefined].  A property whose value is [undefined] is left
    out of its object; an [undefined] array element prints as [null]. *)
Fixpoint SerializeJSONProperty (gap indent : string) (v : Value) : option string :=
  let inner := indent ++ gap in
  let wrap (l r : string) (parts : list string) :=
    match parts with
    | [] => l ++ r
    | _ =>
        if (gap =? "")%string then l ++ String.concat "," parts ++ r
        else l ++ newline ++ inner ++
             String.concat ("," ++ newline ++ inner) parts ++
             newline ++ indent ++ r
    end in
  match v with
  | VUndefined => None
  | VNull => Some "null"
  | VBool true => Some "true"
  | VBool false => Some "false"
  | VNum n => Some (Number_toString n)
  | VStr s => Some (QuoteJSONString s)
  | VArr items =>
      Some (wrap "[" "]"
        (map (fun x => match SerializeJSONProperty gap inner x with
                       | Some t => t
                       | None => "null"
                       end) items))
  | VObj props =>
      Some (wrap "{" "}"
        ((fix members (l : list (string * Value)) : list string :=
            match l with
            | [] => []
            | (k, x) :: r =>
                match SerializeJSONProperty gap inner x with
                | Some t =>
                    (QuoteJSONString k ++ ":" ++
                     (if (gap =? "")%string then "" else " ") ++ t) :: members r
                | None => members r
                end
            end) props))
  end.

Definition JSON_stringify (v : Value) : option string :=
  SerializeJSONProperty "" "" v.

(** [JSON.stringify(v, null, 2)]. *)
Definition JSON_stringify_2 (v : Value) : option string :=
  SerializeJSONProperty "  " "" v.

Definition is_undefined (v : Value) : bool :=
  match v with
  | VUndefined => true
  | _ => false
  end.

(** The JSON document [JSON.stringify] writes, as a tree: what the receiver
    parses back.  Properties holding [undefined] are gone and [undefined]
    array elements have become [null]. *)
Fixpoint json_tree (v : Value) : Value :=
  match v with
  | VArr items =>
      VArr (map (fun x => if is_undefined x then VNull else json_tree x) items)
  | VObj props =>
      VObj ((fix members (l : list (string * Value)) : list (string * Value) :=
               match l with
               | [] => []
               | (k, x) :: r =>
                   if is_undefined x then members r
                   else (k, json_tree x) :: members r
               end) props)
  | _ => v
  end.

(** *** [URLSearchParams] *)

Definition URLSearchParams : Type := list (string * string).

Definition append (q : URLSearchParams) (name value : string) : URLSearchParams :=
  (q ++ [(name, value)])%list.

(** The application/x-www-form-urlencoded byte serializer. *)
Definition urlencode_byte (c : ascii) : string :=
  let n := nat_of_ascii c in
  if ((n =? 42) || (n =? 45) || (n =? 46) || (n =? 95)
      || ((48 <=? n) && (n <=? 57))
      || ((65 <=? n) && (n <=? 90))
      || ((97 <=? n) && (n <=? 122)))%nat
  then String c ""
  else if (n =? 32)%nat then "+"
  else String "%" (String (hex_digit true (n / 16))
                     (String (hex_digit true (n mod 16)) "")).

Fixpoint urlencode (s : string) : string :=
  match s with
  | EmptyString => ""
  | String c r => urlencode_byte c ++ urlencode r
  end.

Definition URLSearchParams_toString (q : URLSearchParams) : string :=
  String.concat "&" (map (fun '(k, v) => urlencode k ++ "=" ++ urlencode v) q).

(** *** [Date] *)

Definition msPerDay : Z := 86400000.

(** The civil date (year, month, day) of a day number counted from
    1970-01-01, in the proleptic Gregorian calendar. *)
Definition civil_from_days (day : Z) : Z * Z * Z :=
  let z := day + 719468 in
  let era := z / 146097 in
  let doe := z - era * 146097 in
  let yoe := (doe - doe / 1460 + doe / 36524 - doe / 146096) / 365 in
  let doy := doe - (365 * yoe + yoe / 4 - yoe / 100) in
  let mp := (5 * doy + 2) / 153 in
  let d := doy - (153 * mp + 2) / 5 + 1 in
  let m := if (mp <? 10)%Z then mp + 3 else mp - 9 in
  let y := yoe + era * 400 + (if (m <=? 2)%Z then 1 else 0) in
  (y, m, d).

(** Decimal digits of [z >= 0], left-padded with zeros to [width]. *)
Fixpoint pad_digits (width : nat) (z : Z) (acc : string) : string :=
  match width with
  | O => acc
  | S w => pad_digits w (z / 10) (String (digit (z mod 10)) acc)
  end.

Definition pad (width : nat) (z : Z) : string := pad_digits width z "".

(** [new Date(t).toISOString()] for a time value [t] in milliseconds since
    the epoch (UTC).  Years outside 0..9999 use the expanded form. *)
Definition toISOString (t : Z) : string :=
  let '(y, m, d) := civil_from_days (t / msPerDay) in
  let ms := t mod msPerDay in
  let year :=
    if ((0 <=? y) && (y <=? 9999))%Z then pad 4 y
    else (if (y <? 0)%Z then "-" else "+") ++ pad 6 (Z.abs y) in
  year ++ "-" ++ pad 2 m ++ "-" ++ pad 2 d ++ "T" ++
  pad 2 (ms / 3600000) ++ ":" ++ pad 2 (ms / 60000 mod 60) ++ ":" ++
  pad 2 (ms / 1000 mod 60) ++ "." ++ pad 3 (ms mod 1000) ++ "Z".

(** [s.split(sep)[0]] for a one-character separator. *)
Fixpoint split_first (sep : ascii) (s : string) : string :=
  match s with
  | EmptyString => ""
  | String c r => if Ascii.eqb c sep then "" else String c (split_first sep r)
  end.

End JS.

(* ================================================================== *)
(** ** The server *)
(* ================================================================== *)

Module Sage.
Import JS.

(** *** Configuration and token state *)

(** [process.env]: a variable is set to a string or is not there. *)
Record ProcessEnv : Type := {
  env_SAGE_CLIENT_ID : option string;
  env_SAGE_CLIENT_SECRET : option string;
  env_SAGE_ACCESS_TOKEN : option string;
  env_SAGE_REFRESH_TOKEN : option string;
  env_SAGE_REGION : option string;
  env_SAGE_API_VERSION : option string
}.

(** [process.env.X || fallback]. *)
Definition or_else (x : option string) (fallback : string) : string :=
  match x with
  | Some s => if (s =? "")%string then fallback else s
  | None => fallback
  end.

(** The module-level bindings.  All are [const] but [currentAccessToken],
    which holds whatever the last refresh read from the token response. *)
Record Bindings : Type := {
  SAGE_CLIENT_ID : string;
  SAGE_CLIENT_SECRET : string;
  SAGE_ACCESS_TOKEN : string;
  SAGE_REFRESH_TOKEN : string;
  SAGE_REGION : string;
  SAGE_API_VERSION : string;
  currentAccessToken : Value
}.

Definition load (e : ProcessEnv) : Bindings := {|
  SAGE_CLIENT_ID := or_else (env_SAGE_CLIENT_ID e) "";
  SAGE_CLIENT_SECRET := or_else (env_SAGE_CLIENT_SECRET e) "";
  SAGE_ACCESS_TOKEN := or_else (env_SAGE_ACCESS_TOKEN e) "";
  SAGE_REFRESH_TOKEN := or_else (env_SAGE_REFRESH_TOKEN e) "";
  SAGE_REGION := or_else (env_SAGE_REGION e) "uk";
  SAGE_API_VERSION := or_else (env_SAGE_API_VERSION e) "v3.1";
  currentAccessToken := VStr (or_else (env_SAGE_ACCESS_TOKEN e) "")
|}.

Definition set_currentAccessToken (b : Bindings) (v : Value) : Bindings := {|
  SAGE_CLIENT_ID := SAGE_CLIENT_ID b;
  SAGE_CLIENT_SECRET := SAGE_CLIENT_SECRET b;
  SAGE_ACCESS_TOKEN := SAGE_ACCESS_TOKEN b;
  SAGE_REFRESH_TOKEN := SAGE_REFRESH_TOKEN b;
  SAGE_REGION := SAGE_REGION b;
  SAGE_API_VERSION := SAGE_API_VERSION b;
  currentAccessToken := v
|}.

Definition API_BASE_URLS : list (string * Value) := [
  ("uk", VStr "https://api.accounting.sage.com");
  ("us", VStr "https://api.accounting.sage.com");
  ("ca", VStr "https://api.accounting.sage.com");
  ("de", VStr "https://api.accounting.sage.com");
  ("es", VStr "https://api.accounting.sage.com");
  ("fr", VStr "https://api.accounting.sage.com");
  ("ie", VStr "https://api.accounting.sage.com")
].

(** The constant [BASE_URL], a function of two constants. *)
Definition BASE_URL (b : Bindings) : string :=
  ToString (own API_BASE_URLS (SAGE_REGION b)) ++ "/" ++ SAGE_API_VERSION b.

(** *** The network *)

Inductive Method : Type := GET | POST | PUT | DELETE.

(** What [fetch] is called with; [body] is the text that goes on the wire. *)
Record Request : Type := {
  url : string;
  method : Method;
  headers : list (string * string);
  body : option string
}.

(** What [fetch] resolves to.  [text] is the result of [response.text()] and
    [json] the completion of [response.json()], which rejects with a
    [SyntaxError] when the body is not JSON. *)
Record Response : Type := {
  status : Z;
  statusText : string;
  text : string;
  json : Completion Value
}.

Definition ok (r : Response) : bool := ((200 <=? status r) && (status r <=? 299))%Z.

(** The outside world: the answer to a request given the requests of the
    process so far, oldest first.  [fetch] rejects when [Throw] is returned. *)
Definition Network : Type := list Request -> Request -> Completion Response.

(** The state a call runs in: the bindings, and two observations of the run
    that the source does not store, the requests handed to [fetch] so far
    (oldest first) and the number of times [refreshAccessToken] was entered. *)
Record State : Type := {
  bindings : Bindings;
  sent : list Request;
  refreshes : nat
}.

(** Computations over [State] that may throw. *)
Definition M (A : Type) : Type := State -> Completion A * State.

Definition ret {A} (a : A) : M A := fun st => (Ok a, st).
Definition throw {A} (e : Exn) : M A := fun st => (Throw e, st).
Definition bind {A B} (m : M A) (k : A -> M B) : M B :=
  fun st =>
    match m st with
    | (Ok a, st') => k a st'
    | (Throw e, st') => (Throw e, st')
    end.
Definition lift {A} (c : Completion A) : M A := fun st => (c, st).
Definition read {A} (f : Bindings -> A) : M A := fun st => (Ok (f (bindings st)), st).
Definition assign_currentAccessToken (v : Value) : M unit :=
  fun st =>
    (Ok tt, {| bindings := set_currentAccessToken (bindings st) v;
               sent := sent st;
               refreshes := refreshes st |}).

(** The state once [r] has been handed to [fetch]. *)
Definition push (st : State) (r : Request) : State :=
  {| bindings := bindings st;
     sent := (sent st ++ [r])%list;
     refreshes := refreshes st |}.

(** Entering [refreshAccessToken]. *)
Definition enter_refresh : M unit :=
  fun st =>
    (Ok tt, {| bindings := bindings st;
               sent := sent st;
               refreshes := S (refreshes st) |}).

Declare Scope sage_scope.
Delimit Scope sage_scope with sage.
Notation "x <- c ;; k" := (bind c (fun x => k))
  (at level 61, c at next level, right associativity) : sage_scope.
Notation "c ;; k" := (bind c (fun _ => k))
  (at level 61, right associativity) : sage_scope.

Section WithNetwork.

Variable net : Network.

Definition fetch (r : Request) : M Response :=
  fun st => (net (sent st) r, push st r).

Local Open Scope sage_scope.

(** *** [refreshAccessToken] *)

Definition token_url : string := "https://oauth.accounting.sage.com/token".

Definition token_request (b : Bindings) : Request := {|
  url := token_url;
  method := POST;
  headers := [("Content-Type", "application/x-www-form-urlencoded")];
  body := Some (URLSearchParams_toString
                  [("grant_type", "refresh_token");
                   ("refresh_token", SAGE_REFRESH_TOKEN b);
                   ("client_id", SAGE_CLIENT_ID b);
                   ("client_secret", SAGE_CLIENT_SECRET b)])
|}.

Definition refreshAccessToken : M unit :=
  enter_refresh ;;
  b <- read (fun b => b) ;;
  if (SAGE_REFRESH_TOKEN b =? "")%string || (SAGE_CLIENT_ID b =? "")%string
     || (SAGE_CLIENT_SECRET b =? "")%string
  then throw (Error "Cannot refresh token: missing SAGE_REFRESH_TOKEN, SAGE_CLIENT_ID, or SAGE_CLIENT_SECRET")
  else
    response <- fetch (token_request b) ;;
    if negb (ok response)
    then throw (Error ("Token refresh failed: " ++ Z_toString (status response)
                       ++ " " ++ statusText response))
    else
      data <- lift (json response) ;;
      access_token <- lift (get data "access_token") ;;
      assign_currentAccessToken access_token.

(** *** [sageRequest] *)

Definition request_headers (token : Value) : list (string * string) := [
  ("Authorization", "Bearer " ++ ToString token);
  ("Content-Type", "application/json");
  ("Accept", "application/json")
].

Definition resource_request (b : Bindings) (endpoint : string) (m : Method)
    (payload : Value) : Request := {|
  url := BASE_URL b ++ endpoint;
  method := m;
  headers := request_headers (currentAccessToken b);
  body := if truthy payload
             && match m with POST | PUT => true | _ => false end
          then JSON_stringify payload
          else None
|}.

(** [payload] is [VUndefined] when the caller leaves the third argument out. *)
Definition sageRequest (endpoint : string) (m : Method) (payload : Value) : M Value :=
  b <- read (fun b => b) ;;
  if negb (truthy (currentAccessToken b))
  then throw (Error "No access token configured. Please set SAGE_ACCESS_TOKEN in environment.")
  else
    response <- fetch (resource_request b endpoint m payload) ;;
    if (status response =? 401)%Z then
      refreshAccessToken ;;
      b' <- read (fun b => b) ;;
      retryResponse <- fetch (resource_request b' endpoint m payload) ;;
      if negb (ok retryResponse)
      then throw (Error ("Sage API error: " ++ Z_toString (status retryResponse)
                         ++ " " ++ statusText retryResponse))
      else lift (json retryResponse)
    else if negb (ok response) then
      let errorText := text response in
      throw (Error ("Sage API error: " ++ Z_toString (status response)
                    ++ " " ++ statusText response ++ " - " ++ errorText))
    else lift (json response).

End WithNetwork.

(** *** The tool list ([ListToolsRequestSchema]) *)

(** An input schema, without its [description] texts. *)
Inductive Schema : Type :=
| SString
| SNumber
| SBoolean
| SEnum (values : list string)
| SArray (items : Schema)
| SObject (properties : list (string * Schema)) (required : list string).

Record Tool : Type := {
  name : string;
  inputSchema : Schema
}.

Definition line_item_schema : Schema :=
  SObject [("description", SString); ("quantity", SNumber);
           ("unit_price", SNumber); ("tax_rate_id", SString);
           ("ledger_account_id", SString)]
          ["description"; "quantity"; "unit_price"].

Definition other_payment_schema : Schema :=
  SObject [("bank_account_id", SString); ("date", SString);
           ("total_amount", SNumber); ("tax_rate_id", SString);
           ("ledger_account_id", SString); ("contact_id", SString);
           ("reference", SString); ("net_amount", SNumber)]
          ["bank_account_id"; "date"; "total_amount"; "tax_rate_id";
           "ledger_account_id"].

Definition create_invoice_schema : Schema :=
  SObject [("contact_id", SString); ("date", SString); ("due_date", SString);
           ("reference", SString); ("notes", SString);
           ("line_items", SArray line_item_schema)]
          ["contact_id"; "line_items"].

Definition tools : list Tool := [
  {| name := "sage_list_contacts";
     inputSchema :=
       SObject [("contact_type", SEnum ["customer"; "supplier"; "all"]);
                ("search", SString); ("page", SNumber);
                ("items_per_page", SNumber)] [] |};
  {| name := "sage_get_contact";
     inputSchema := SObject [("contact_id", SString)] ["contact_id"] |};
  {| name := "sage_create_contact";
     inputSchema :=
       SObject [("name", SString); ("contact_type_ids", SArray SString);
                ("reference", SString); ("email", SString);
                ("telephone", SString); ("address_line_1", SString);
                ("city", SString); ("postal_code", SString);
                ("country_id", SString)] ["name"] |};
  {| name := "sage_list_sales_invoices";
     inputSchema :=
       SObject [("status", SEnum ["draft"; "sent"; "paid"; "part_paid";
                                  "overdue"; "void"]);
                ("contact_id", SString); ("from_date", SString);
                ("to_date", SString); ("page", SNumber);
                ("items_per_page", SNumber)] [] |};
  {| name := "sage_get_sales_invoice";
     inputSchema := SObject [("invoice_id", SString)] ["invoice_id"] |};
  {| name := "sage_create_sales_invoice";
     inputSchema := create_invoice_schema |};
  {| name := "sage_list_purchase_invoices";
     inputSchema :=
       SObject [("status", SEnum ["draft"; "registered"; "paid"; "part_paid";
                                  "overdue"; "void"]);
                ("contact_id", SString); ("from_date", SString);
                ("to_date", SString); ("page", SNumber)] [] |};
  {| name := "sage_list_bank_accounts"; inputSchema := SObject [] [] |};
  {| name := "sage_get_bank_account";
     inputSchema := SObject [("bank_account_id", SString)] ["bank_account_id"] |};
  {| name := "sage_list_products";
     inputSchema :=
       SObject [("search", SString); ("active", SBoolean); ("page", SNumber)] [] |};
  {| name := "sage_create_product";
     inputSchema :=
       SObject [("description", SString); ("sales_ledger_account_id", SString);
                ("purchase_ledger_account_id", SString);
                ("sales_tax_rate_id", SString);
                ("purchase_tax_rate_id", SString); ("item_code", SString);
                ("sales_price", SNumber); ("purchase_price", SNumber)]
               ["description"] |};
  {| name := "sage_list_payments";
     inputSchema :=
       SObject [("contact_id", SString); ("from_date", SString);
                ("to_date", SString); ("page", SNumber)] [] |};
  {| name := "sage_list_ledger_accounts";
     inputSchema :=
       SObject [("ledger_account_type_id", SString);
                ("visible_in", SEnum ["sales"; "purchases"; "banking";
                                      "journals"; "other_payments";
                                      "other_receipts"])] [] |};
  {| name := "sage_list_tax_rates"; inputSchema := SObject [] [] |};
  {| name := "sage_get_business"; inputSchema := SObject [] [] |};
  {| name := "sage_create_other_payment"; inputSchema := other_payment_schema |};
  {| name := "sage_create_other_receipt"; inputSchema := other_payment_schema |};
  {| name := "sage_create_purchase_invoice";
     inputSchema := create_invoice_schema |};
  {| name := "sage_create_purchase_invoice_payment";
     inputSchema :=
       SObject [("contact_id", SString); ("bank_account_id", SString);
                ("date", SString); ("total_amount", SNumber);
                ("invoice_allocations",
                 SArray (SObject [("invoice_id", SString); ("amount", SNumber)]
                                 ["invoice_id"; "amount"]));
                ("reference", SString)]
               ["contact_id"; "bank_account_id"; "date"; "total_amount";
                "invoice_allocations"] |}
].

(** *** The tool calls ([CallToolRequestSchema]) *)

Local Open Scope completion_scope.

(** The arguments of the one [sageRequest] call a case of the [switch] makes. *)
Record Call : Type := {
  endpoint : string;
  verb : Method;
  payload : Value
}.

Definition call_get (e : string) : Call :=
  {| endpoint := e; verb := GET; payload := VUndefined |}.
Definition call_post (e : string) (b : Value) : Call :=
  {| endpoint := e; verb := POST; payload := b |}.

(** [if (params.field) queryParams.append(key, String(params.field))]. *)
Definition append_if (params : Value) (field key : string)
    (q : URLSearchParams) : Completion URLSearchParams :=
  v <- get params field ;;
  Ok (if truthy v then append q key (ToString v) else q).

(** [`${path}${query ? `?${query}` : ""}`]. *)
Definition with_query (path : string) (q : URLSearchParams) : string :=
  let query := URLSearchParams_toString q in
  path ++ (if truthy (VStr query) then "?" ++ query else "").

(** The current date as the create-invoice cases compute it. *)
Definition today (now : Z) : string := split_first "T" (toISOString now).

(** The arrow function mapped over [params.line_items]. *)
Definition invoice_line (item : Value) : Completion Value :=
  description <- get item "description" ;;
  quantity <- get item "quantity" ;;
  unit_price <- get item "unit_price" ;;
  tax_rate_id <- get item "tax_rate_id" ;;
  ledger_account_id <- get item "ledger_account_id" ;;
  Ok (VObj [("description", description); ("quantity", quantity);
            ("unit_price", unit_price); ("tax_rate_id", tax_rate_id);
            ("ledger_account_id", ledger_account_id)]).

(** The arrow function mapped over [params.invoice_allocations]. *)
Definition allocated_artefact (alloc : Value) : Completion Value :=
  invoice_id <- get alloc "invoice_id" ;;
  amount <- get alloc "amount" ;;
  Ok (VObj [("artefact_id", invoice_id); ("amount", amount)]).

(** The body of [sage_create_sales_invoice] and [sage_create_purchase_invoice]
    under its envelope key. *)
Definition invoice_body (now : Z) (envelope : string) (params : Value)
    : Completion Value :=
  contact_id <- get params "contact_id" ;;
  date <- get params "date" ;;
  due_date <- get params "due_date" ;;
  reference <- get params "reference" ;;
  notes <- get params "notes" ;;
  line_items <- get params "line_items" ;;
  invoice_lines <- array_map "params.line_items" line_items invoice_line ;;
  Ok (VObj [(envelope,
       VObj [("contact_id", contact_id);
             ("date", if truthy date then date else VStr (today now));
             ("due_date", due_date);
             ("reference", reference);
             ("notes", notes);
             ("invoice_lines", invoice_lines)])]).

(** The body of [sage_create_other_payment] and [sage_create_other_receipt]. *)
Definition other_payment_body (envelope : string) (params : Value)
    : Completion Value :=
  bank_account_id <- get params "bank_account_id" ;;
  date <- get params "date" ;;
  reference <- get params "reference" ;;
  contact_id <- get params "contact_id" ;;
  ledger_account_id <- get params "ledger_account_id" ;;
  total_amount <- get params "total_amount" ;;
  net_amount <- get params "net_amount" ;;
  tax_rate_id <- get params "tax_rate_id" ;;
  Ok (VObj [(envelope,
       VObj [("bank_account_id", bank_account_id);
             ("date", date);
             ("reference", reference);
             ("contact_id", contact_id);
             ("payment_lines",
              VArr [VObj [("ledger_account_id", ledger_account_id);
                          ("total_amount", total_amount);
                          ("net_amount", net_amount);
                          ("tax_rate_id", tax_rate_id)]])])]).

(** The [switch (name)] of the handler, up to the call of [sageRequest]:
    each case yields the arguments of that call, the default case throws.
    [now] is the reading of the clock, in milliseconds since the epoch. *)
Definition tool_call (now : Z) (name : string) (params : Value) : Completion Call :=
  if (name =? "sage_list_contacts")%string then
    contact_type <- get params "contact_type" ;;
    let q : URLSearchParams := [] in
    let q := if truthy contact_type && negb (strict_eq_str contact_type "all")
             then append q "contact_type_id" (ToString contact_type) else q in
    q <- append_if params "search" "search" q ;;
    q <- append_if params "page" "page" q ;;
    q <- append_if params "items_per_page" "items_per_page" q ;;
    Ok (call_get (with_query "/contacts" q))
  else if (name =? "sage_get_contact")%string then
    contact_id <- get params "contact_id" ;;
    Ok (call_get ("/contacts/" ++ ToString contact_id))
  else if (name =? "sage_create_contact")%string then
    name_ <- get params "name" ;;
    contact_type_ids <- get params "contact_type_ids" ;;
    reference <- get params "reference" ;;
    address_line_1 <- get params "address_line_1" ;;
    city <- get params "city" ;;
    postal_code <- get params "postal_code" ;;
    country_id <- get params "country_id" ;;
    email <- get params "email" ;;
    telephone <- get params "telephone" ;;
    Ok (call_post "/contacts"
      (VObj [("contact",
        VObj [("name", name_);
              ("contact_type_ids",
               if truthy contact_type_ids then contact_type_ids else VArr []);
              ("reference", reference);
              ("main_address",
               VObj [("address_line_1", address_line_1);
                     ("city", city);
                     ("postal_code", postal_code);
                     ("country_id", country_id)]);
              ("email", email);
              ("telephone", telephone)])]))
  else if (name =? "sage_list_sales_invoices")%string then
    q <- append_if params "status" "status_id" [] ;;
    q <- append_if params "contact_id" "contact_id" q ;;
    q <- append_if params "from_date" "from_date" q ;;
    q <- append_if params "to_date" "to_date" q ;;
    q <- append_if params "page" "page" q ;;
    q <- append_if params "items_per_page" "items_per_page" q ;;
    Ok (call_get (with_query "/sales_invoices" q))
  else if (name =? "sage_get_sales_invoice")%string then
    invoice_id <- get params "invoice_id" ;;
    Ok (call_get ("/sales_invoices/" ++ ToString invoice_id))
  else if (name =? "sage_create_sales_invoice")%string then
    invoiceBody <- invoice_body now "sales_invoice" params ;;
    Ok (call_post "/sales_invoices" invoiceBody)
  else if (name =? "sage_list_purchase_invoices")%string then
    q <- append_if params "status" "status_id" [] ;;
    q <- append_if params "contact_id" "contact_id" q ;;
    q <- append_if params "from_date" "from_date" q ;;
    q <- append_if params "to_date" "to_date" q ;;
    q <- append_if params "page" "page" q ;;
    Ok (call_get (with_query "/purchase_invoices" q))
  else if (name =? "sage_list_bank_accounts")%string then
    Ok (call_get "/bank_accounts")
  else if (name =? "sage_get_bank_account")%string then
    bank_account_id <- get params "bank_account_id" ;;
    Ok (call_get ("/bank_accounts/" ++ ToString bank_account_id))
  else if (name =? "sage_list_products")%string then
    q <- append_if params "search" "search" [] ;;
    active <- get params "active" ;;
    let q := match active with
             | VUndefined => q
             | _ => append q "active" (ToString active)
             end in
    q <- append_if params "page" "page" q ;;
    Ok (call_get (with_query "/products" q))
  else if (name =? "sage_create_product")%string then
    description <- get params "description" ;;
    item_code <- get params "item_code" ;;
    sales_ledger_account_id <- get params "sales_ledger_account_id" ;;
    purchase_ledger_account_id <- get params "purchase_ledger_account_id" ;;
    sales_tax_rate_id <- get params "sales_tax_rate_id" ;;
    purchase_tax_rate_id <- get params "purchase_tax_rate_id" ;;
    sales_price <- get params "sales_price" ;;
    purchase_price <- get params "purchase_price" ;;
    Ok (call_post "/products"
      (VObj [("product",
        VObj [("description", description);
              ("item_code", item_code);
              ("sales_ledger_account_id", sales_ledger_account_id);
              ("purchase_ledger_account_id", purchase_ledger_account_id);
              ("sales_tax_rate_id", sales_tax_rate_id);
              ("purchase_tax_rate_id", purchase_tax_rate_id);
              ("sales_prices",
               if truthy sales_price
               then VArr [VObj [("price", sales_price)]]
               else VUndefined);
              ("purchase_price", purchase_price)])]))
  else if (name =? "sage_list_payments")%string then
    q <- append_if params "contact_id" "contact_id" [] ;;
    q <- append_if params "from_date" "from_date" q ;;
    q <- append_if params "to_date" "to_date" q ;;
    q <- append_if params "page" "page" q ;;
    Ok (call_get (with_query "/contact_payments" q))
  else if (name =? "sage_list_ledger_accounts")%string then
    q <- append_if params "ledger_account_type_id" "ledger_account_type_id" [] ;;
    q <- append_if params "visible_in" "visible_in" q ;;
    Ok (call_get (with_query "/ledger_accounts" q))
  else if (name =? "sage_list_tax_rates")%string then
    Ok (call_get "/tax_rates")
  else if (name =? "sage_create_other_payment")%string then
    paymentBody <- other_payment_body "other_payment" params ;;
    Ok (call_post "/other_payments" paymentBody)
  else if (name =? "sage_create_other_receipt")%string then
    receiptBody <- other_payment_body "other_receipt" params ;;
    Ok (call_post "/other_receipts" receiptBody)
  else if (name =? "sage_create_purchase_invoice")%string then
    purchaseInvoiceBody <- invoice_body now "purchase_invoice" params ;;
    Ok (call_post "/purchase_invoices" purchaseInvoiceBody)
  else if (name =? "sage_create_purchase_invoice_payment")%string then
    contact_id <- get params "contact_id" ;;
    bank_account_id <- get params "bank_account_id" ;;
    date <- get params "date" ;;
    total_amount <- get params "total_amount" ;;
    reference <- get params "reference" ;;
    invoice_allocations <- get params "invoice_allocations" ;;
    allocated_artefacts <-
      array_map "params.invoice_allocations" invoice_allocations
        allocated_artefact ;;
    Ok (call_post "/contact_payments"
      (VObj [("contact_payment",
        VObj [("contact_id", contact_id);
              ("bank_account_id", bank_account_id);
              ("date", date);
              ("total_amount", total_amount);
              ("reference", reference);
              ("allocated_artefacts", allocated_artefacts)])]))
  else if (name =? "sage_get_business")%string then
    Ok (call_get "/business")
  else
    Throw (Error ("Unknown tool: " ++ name)).

(** What the handler returns: one text item and the error flag. *)
Record CallToolResult : Type := {
  content_text : option string;
  isError : bool
}.

Section Handler.

Variable net : Network.

(** The handler of [CallToolRequestSchema]: the [try] block runs the case of
    the tool and prints its result, the [catch] block turns whatever was
    thrown into an error-flagged result. *)
Definition CallTool (now : Z) (name : string) (args : Value)
    : State -> CallToolResult * State :=
  fun st =>
    let params := args in
    match bind (lift (tool_call now name params))
               (fun c => sageRequest net (endpoint c) (verb c) (payload c)) st with
    | (Ok result, st') =>
        ({| content_text := JSON_stringify_2 result; isError := false |}, st')
    | (Throw error, st') =>
        let errorMessage := message error in
        ({| content_text := Some ("Error: " ++ errorMessage); isError := true |}, st')
    end.

End Handler.

End Sage.

(* ================================================================== *)
(** ** Vocabulary of the specification *)
(* ================================================================== *)

Module Spec.
Import JS Sage.

(** The requests handed to [fetch] between two states of one run. *)
Definition issued (st st' : State) : list Request :=
  skipn (length (sent st)) (sent st').

(** A request goes to the token endpoint, or to the resource endpoint under
    the base URL of the process. *)
Definition to_token_endpoint (r : Request) : bool :=
  (url r =? token_url)%string.

Definition to_resource_endpoint (b : Bindings) (r : Request) : bool :=
  String.prefix (BASE_URL b) (url r).

Definition count {A} (f : A -> bool) (l : list A) : nat := length (filter f l).

(** [sub] occurs in [s]. *)
Definition contains (sub s : string) : bool :=
  match String.index 0 sub s with
  | Some _ => true
  | None => false
  end.

(** The failures of the specification, as the messages the code throws. *)
Definition AuthError : string :=
  "No access token configured. Please set SAGE_ACCESS_TOKEN in environment.".

Definition RefreshError_not_attempted : string :=
  "Cannot refresh token: missing SAGE_REFRESH_TOKEN, SAGE_CLIENT_ID, or SAGE_CLIENT_SECRET".

Definition RefreshError_rejected (r : Response) : string :=
  "Token refresh failed: " ++ Z_toString (status r) ++ " " ++ statusText r.

Definition ApiError_on_retry (r : Response) : string :=
  "Sage API error: " ++ Z_toString (status r) ++ " " ++ statusText r.

Definition ApiError_on_first (r : Response) : string :=
  "Sage API error: " ++ Z_toString (status r) ++ " " ++ statusText r
  ++ " - " ++ text r.

(** The error-flagged result of the handler for a message. *)
Definition error_result (msg : string) : CallToolResult :=
  {| content_text := Some ("Error: " ++ msg); isError := true |}.

(** Two states of the bindings that differ in [currentAccessToken] at most. *)
Definition same_constants (b b' : Bindings) : Prop :=
  SAGE_CLIENT_ID b' = SAGE_CLIENT_ID b /\
  SAGE_CLIENT_SECRET b' = SAGE_CLIENT_SECRET b /\
  SAGE_ACCESS_TOKEN b' = SAGE_ACCESS_TOKEN b /\
  SAGE_REFRESH_TOKEN b' = SAGE_REFRESH_TOKEN b /\
  SAGE_REGION b' = SAGE_REGION b /\
  SAGE_API_VERSION b' = SAGE_API_VERSION b.

(** The refresh cannot be attempted: a credential is missing. *)
Definition credentials_missing (b : Bindings) : bool :=
  (SAGE_REFRESH_TOKEN b =? "")%string || (SAGE_CLIENT_ID b =? "")%string
  || (SAGE_CLIENT_SECRET b =? "")%string.

(** Where a request of the process can come from: the one [fetch] of
    [refreshAccessToken] or one of the two of [sageRequest], under bindings
    with the constants of [b]. *)
Inductive origin (b : Bindings) : Request -> Prop :=
| from_refresh : origin b (token_request b)
| from_gateway b' endpoint m payload :
    same_constants b b' ->
    origin b (resource_request b' endpoint m payload).

(** *** The projection of an argument bag *)

(** The value of [base.k] when reading it does not throw. *)
Definition prop (base : Value) (k : string) : Value :=
  match base with
  | VObj props => own props k
  | _ => VUndefined
  end.

(** The bag without the property [k]. *)
Definition without (k : string) (props : list (string * Value))
    : list (string * Value) :=
  filter (fun kv => negb (fst kv =? k)%string) props.

(** The character [c] occurs in [s]. *)
Fixpoint mentions (c : ascii) (s : string) : bool :=
  match s with
  | EmptyString => false
  | String a r => Ascii.eqb a c || mentions c r
  end.

(** The characters that structure a query string. *)
Definition delimiter (c : ascii) : Prop :=
  c = "&"%char \/ c = "="%char \/ c = "?"%char.

(** One parameter as [URLSearchParams.toString] writes it. *)
Definition encoded (kv : string * string) : string :=
  urlencode (fst kv) ++ "=" ++ urlencode (snd kv).

(** What follows the first [sep] of [s]. *)
Fixpoint after_first (sep : ascii) (s : string) : option string :=
  match s with
  | EmptyString => None
  | String c r => if Ascii.eqb c sep then Some r else after_first sep r
  end.

(** [s.split(sep)] for a one-character separator. *)
Fixpoint split_on (sep : ascii) (s : string) : list string :=
  match s with
  | EmptyString => [EmptyString]
  | String c r =>
      if Ascii.eqb c sep then EmptyString :: split_on sep r
      else match split_on sep r with
           | [] => [String c EmptyString]
           | x :: xs => String c x :: xs
           end
  end.

(** The query string of an endpoint as the receiver reads it: the
    [name=value] pairs after the question mark, still percent-encoded. *)
Definition query_pairs (endpoint : string) : list (string * string) :=
  match after_first "?" endpoint with
  | None => []
  | Some query =>
      map (fun pair => (split_first "=" pair,
                        match after_first "=" pair with
                        | Some v => v
                        | None => EmptyString
                        end))
          (split_on "&" query)
  end.

Definition query_names (endpoint : string) : list string :=
  map fst (query_pairs endpoint).

(** A position inside a JSON document. *)
Inductive Step : Type :=
| Key (k : string)
| Index (i : nat).

Fixpoint at_path (p : list Step) (v : Value) : option Value :=
  match p with
  | [] => Some v
  | Key k :: rest =>
      match v with
      | VObj props =>
          match assoc k props with
          | Some x => at_path rest x
          | None => None
          end
      | _ => None
      end
  | Index i :: rest =>
      match v with
      | VArr items =>
          match nth_error items i with
          | Some x => at_path rest x
          | None => None
          end
      | _ => None
      end
  end.

(** Where the case of a tool puts an argument: a query parameter, or a
    position in the JSON body. *)
Inductive Place : Type :=
| Query (name : string)
| Body (path : list Step).

Definition one_of (names : list string) (s : string) : bool :=
  existsb (String.eqb s) names.

Definition place_of (tool field : string) : Place :=
  if one_of ["sage_list_contacts"] tool then
    Query (if (field =? "contact_type")%string then "contact_type_id" else field)
  else if one_of ["sage_list_sales_invoices"; "sage_list_purchase_invoices"] tool then
    Query (if (field =? "status")%string then "status_id" else field)
  else if one_of ["sage_list_products"; "sage_list_payments";
                  "sage_list_ledger_accounts"] tool then
    Query field
  else if one_of ["sage_create_contact"] tool then
    if one_of ["address_line_1"; "city"; "postal_code"; "country_id"] field
    then Body [Key "contact"; Key "main_address"; Key field]
    else Body [Key "contact"; Key field]
  else if one_of ["sage_create_sales_invoice"] tool then
    Body [Key "sales_invoice"; Key field]
  else if one_of ["sage_create_purchase_invoice"] tool then
    Body [Key "purchase_invoice"; Key field]
  else if one_of ["sage_create_product"] tool then
    Body [Key "product";
          Key (if (field =? "sales_price")%string then "sales_prices" else field)]
  else if one_of ["sage_create_other_payment"; "sage_create_other_receipt"] tool then
    let envelope := if (tool =? "sage_create_other_payment")%string
                    then "other_payment" else "other_receipt" in
    if one_of ["ledger_account_id"; "total_amount"; "net_amount"; "tax_rate_id"] field
    then Body [Key envelope; Key "payment_lines"; Index 0; Key field]
    else Body [Key envelope; Key field]
  else if one_of ["sage_create_purchase_invoice_payment"] tool then
    Body [Key "contact_payment"; Key field]
  else Body [].

(** No name occurs twice. *)
Fixpoint distinct (names : list string) : bool :=
  match names with
  | [] => true
  | x :: r => negb (one_of r x) && distinct r
  end.

(** Nothing is sent at a place. *)
Definition vacant (p : Place) (c : Call) : Prop :=
  match p with
  | Query name => ~ In name (query_names (endpoint c))
  | Body path => at_path path (json_tree (payload c)) = None
  end.

Definition occupied (p : Place) (c : Completion Call) : bool :=
  match c with
  | Throw _ => false
  | Ok c =>
      match p with
      | Query name => one_of (query_names (endpoint c)) name
      | Body path =>
          match at_path path (json_tree (payload c)) with
          | Some _ => true
          | None => false
          end
      end
  end.

(** The optional fields of an input schema. *)
Definition optional_fields (s : Schema) : list string :=
  match s with
  | SObject properties required =>
      filter (fun k => negb (one_of required k)) (map fst properties)
  | _ => []
  end.

Definition fields (s : Schema) : list string :=
  match s with
  | SObject properties _ => map fst properties
  | _ => []
  end.

(** The optional fields the code fills in when the caller leaves them out. *)
Definition defaulted (tool field : string) : bool :=
  ((tool =? "sage_create_contact") && (field =? "contact_type_ids"))%string
  || ((tool =? "sage_create_sales_invoice") && (field =? "date"))%string
  || ((tool =? "sage_create_purchase_invoice") && (field =? "date"))%string.

(** The tools that list a collection. *)
Definition is_list_tool (tool : string) : bool := String.prefix "sage_list_" tool.

(** A bag that gives every property of a schema a truthy value of its type. *)
Fixpoint sample (s : Schema) : Value :=
  match s with
  | SString => VStr "x"
  | SNumber => VNum 1
  | SBoolean => VBool true
  | SEnum values => VStr (hd "x" values)
  | SArray items => VArr [sample items]
  | SObject properties _ =>
      VObj ((fix each (l : list (string * Schema)) : list (string * Value) :=
               match l with
               | [] => []
               | (k, t) :: r => (k, sample t) :: each r
               end) properties)
  end.

(** Each optional field of each tool has a place that the sample bag fills. *)
Definition places_filled : bool :=
  forallb
    (fun t =>
       forallb
         (fun field =>
            occupied (place_of (name t) field)
                     (tool_call 0 (name t) (sample (inputSchema t))))
         (optional_fields (inputSchema t)))
    tools.

(** *** The calendar *)

(** The proleptic Gregorian calendar as ECMAScript counts it: the day number
    of the first day of a year, and from it the day number of a date. *)
Definition is_leap (y : Z) : bool :=
  ((y mod 4 =? 0) && (negb (y mod 100 =? 0) || (y mod 400 =? 0)))%Z.

Definition days_in_month (y m : Z) : Z :=
  if (m =? 2)%Z then (if is_leap y then 29 else 28)
  else if ((m =? 4) || (m =? 6) || (m =? 9) || (m =? 11))%Z then 30
  else 31.

Definition DayFromYear (y : Z) : Z :=
  365 * (y - 1970) + (y - 1969) / 4 - (y - 1901) / 100 + (y - 1601) / 400.

Fixpoint days_before (y : Z) (months : nat) : Z :=
  match months with
  | O => 0
  | S k => days_before y k + days_in_month y (Z.of_nat (S k))
  end.

(** The day number of the date [y]-[m]-[d], counted from 1970-01-01. *)
Definition day_number (y m d : Z) : Z :=
  DayFromYear y + days_before y (Z.to_nat (m - 1)) + (d - 1).

Definition valid_date (y m d : Z) : bool :=
  ((1 <=? m) && (m <=? 12) && (1 <=? d) && (d <=? days_in_month y m))%Z.

(** The UTC date of a reading of the clock, and its [YYYY-MM-DD] form. *)
Definition utc_date (now : Z) : Z * Z * Z := civil_from_days (now / msPerDay).

Definition YYYY_MM_DD (date : Z * Z * Z) : string :=
  let '(y, m, d) := date in
  pad 4 y ++ "-" ++ pad 2 m ++ "-" ++ pad 2 d.

Definition digits : list ascii :=
  ["0"; "1"; "2"; "3"; "4"; "5"; "6"; "7"; "8"; "9"]%char.

Definition is_digit (c : ascii) : bool := existsb (Ascii.eqb c) digits.

(** Four digits, a dash, two digits, a dash, two digits. *)
Definition date_form (s : string) : bool :=
  match s with
  | String y1 (String y2 (String y3 (String y4 (String dash1
      (String m1 (String m2 (String dash2
        (String d1 (String d2 EmptyString))))))))) =>
      forallb is_digit [y1; y2; y3; y4; m1; m2; d1; d2]
      && Ascii.eqb dash1 "-" && Ascii.eqb dash2 "-"
  | _ => false
  end.

(** The first instants of the years 0 and 10000, between which
    [toISOString] writes the year with four digits. *)
Definition year_0 : Z := -62167219200000.
Definition year_10000 : Z := 253402300800000.

(** The bag of the sales invoice scenario, and the body it should lead to. *)
Definition widget_bag : Value :=
  VObj [("contact_id", VStr "C1");
        ("line_items",
         VArr [VObj [("description", VStr "Widget");
                     ("quantity", VNum 2);
                     ("unit_price", VNum (999 # 100))]])].

Definition widget_body (date : string) : Value :=
  VObj [("sales_invoice",
    VObj [("contact_id", VStr "C1");
          ("date", VStr date);
          ("invoice_lines",
           VArr [VObj [("description", VStr "Widget");
                       ("quantity", VNum 2);
                       ("unit_price", VNum (999 # 100))]])])].

Definition widget_text (date : string) : string :=
  "{" ++ QuoteJSONString "sales_invoice" ++ ":{"
  ++ QuoteJSONString "contact_id" ++ ":" ++ QuoteJSONString "C1" ++ ","
  ++ QuoteJSONString "date" ++ ":" ++ dquote ++ date ++ dquote ++ ","
  ++ QuoteJSONString "invoice_lines" ++ ":[{"
  ++ QuoteJSONString "description" ++ ":" ++ QuoteJSONString "Widget" ++ ","
  ++ QuoteJSONString "quantity" ++ ":2,"
  ++ QuoteJSONString "unit_price" ++ ":9.99}]}}".

(** The names the tool list announces. *)
Definition registered : list string := map name tools.

(** The switch has a case for a name: called with an empty bag, it does not
    end in the default case. *)
Definition handled (tool : string) : bool :=
  match tool_call 0 tool (VObj []) with
  | Throw (Error m) => negb (m =? "Unknown tool: " ++ tool)%string
  | _ => true
  end.

(** One tool invocation: the reading of the clock when it is served, the
    tool name and the argument bag. *)
Record Invocation : Type := {
  at_time : Z;
  tool : string;
  arguments : Value
}.

(** The process serving invocations one after the other. *)
Definition serve (net : Network) (calls : list Invocation) (st : State) : State :=
  fold_left
    (fun st c => snd (CallTool net (at_time c) (tool c) (arguments c) st))
    calls st.

End Spec.

(* ================================================================== *)
(** ** Concrete runs *)
(* ================================================================== *)

Module Scenario.
Import JS Sage.

Definition configured : Bindings := load {|
  env_SAGE_CLIENT_ID := Some "client";
  env_SAGE_CLIENT_SECRET := Some "secret";
  env_SAGE_ACCESS_TOKEN := Some "stale";
  env_SAGE_REFRESH_TOKEN := Some "refresh";
  env_SAGE_REGION := None;
  env_SAGE_API_VERSION := None
|}.

(** Only an access token in the environment. *)
Definition token_only : Bindings := load {|
  env_SAGE_CLIENT_ID := None;
  env_SAGE_CLIENT_SECRET := None;
  env_SAGE_ACCESS_TOKEN := Some "stale";
  env_SAGE_REFRESH_TOKEN := None;
  env_SAGE_REGION := None;
  env_SAGE_API_VERSION := None
|}.

(** Nothing in the environment. *)
Definition unconfigured : Bindings := load {|
  env_SAGE_CLIENT_ID := None;
  env_SAGE_CLIENT_SECRET := None;
  env_SAGE_ACCESS_TOKEN := None;
  env_SAGE_REFRESH_TOKEN := None;
  env_SAGE_REGION := None;
  env_SAGE_API_VERSION := None
|}.

Definition start (b : Bindings) : State :=
  {| bindings := b; sent := []; refreshes := 0 |}.

Definition response (code : Z) (reason body : string) (decoded : Completion Value)
    : Response :=
  {| status := code; statusText := reason; text := body; json := decoded |}.

Definition not_json : Completion Value :=
  Throw (SyntaxError "Unexpected token").

Definition unauthorized : Response :=
  response 401 "Unauthorized" "token expired" not_json.

Definition fresh_token : Response :=
  response 200 "OK" "" (Ok (VObj [("access_token", VStr "fresh")])).

Definition business : Value := VObj [("name", VStr "Acme Ltd")].

Definition business_ok : Response := response 200 "OK" "" (Ok business).

Definition server_error : Response :=
  response 500 "Internal Server Error" "boom" not_json.

Definition bad_request : Response :=
  response 400 "Bad Request" "invalid_grant" not_json.

(** A service that accepts the bearer token [good] only, and a token endpoint
    that answers every request with [token_response]. *)
Definition service (good : string) (token_response answer : Response) : Network :=
  fun _ r =>
    if (url r =? token_url)%string then Ok token_response
    else match assoc "Authorization" (headers r) with
         | Some v => if (v =? "Bearer " ++ good)%string then Ok answer
                     else Ok unauthorized
         | None => Ok unauthorized
         end.

(** A service that rejects every bearer token. *)
Definition always_unauthorized : Network :=
  fun _ r =>
    if (url r =? token_url)%string then Ok fresh_token else Ok unauthorized.

(** No request ever gets an answer. *)
Definition offline : Network :=
  fun _ _ => Throw (TypeError "fetch failed").

End Scenario.

(* ================================================================== *)
(** ** Further vocabulary: runs, argument bags and the receiving side *)
(* ================================================================== *)

Module Terms.
Import JS Sage Spec.

(** *** The runs of [sageRequest] *)

Section Runs.

Variable net : Network.

(** The ways through [sageRequest] once the access token is there, each with
    the answers of the network along it: the outcome of the call and the
    state it ends in. *)
Inductive run (endpoint : string) (m : Method) (payload : Value) (st : State)
  : Completion Value -> State -> Prop :=
| first_rejected x :
    let first := resource_request (bindings st) endpoint m payload in
    net (sent st) first = Throw x ->
    run endpoint m payload st (Throw x) (push st first)
| first_answered r :
    let first := resource_request (bindings st) endpoint m payload in
    net (sent st) first = Ok r -> status r <> 401%Z ->
    run endpoint m payload st
      (if ok r then json r else Throw (Error (ApiError_on_first r)))
      (push st first)
| refresh_failed r x st1 :
    let first := resource_request (bindings st) endpoint m payload in
    net (sent st) first = Ok r -> status r = 401%Z ->
    refreshAccessToken net (push st first) = (Throw x, st1) ->
    run endpoint m payload st (Throw x) st1
| retried r st1 :
    let first := resource_request (bindings st) endpoint m payload in
    let retry := resource_request (bindings st1) endpoint m payload in
    net (sent st) first = Ok r -> status r = 401%Z ->
    refreshAccessToken net (push st first) = (Ok tt, st1) ->
    run endpoint m payload st
      match net (sent st1) retry with
      | Throw x => Throw x
      | Ok r2 => if ok r2 then json r2 else Throw (Error (ApiError_on_retry r2))
      end
      (push st1 retry).

End Runs.

(** Where a request of the process comes from: the refresh procedure, or the
    case of a tool that went through, under bindings with the constants of
    [b]. *)
Inductive sent_for (b : Bindings) : Request -> Prop :=
| for_refresh : sent_for b (token_request b)
| for_tool b' now name args c :
    same_constants b b' ->
    tool_call now name args = Ok c ->
    sent_for b (resource_request b' (endpoint c) (verb c) (payload c)).

(** *** Argument bags *)

(** [null] and [undefined], the values whose properties cannot be read. *)
Definition nullish (v : Value) : bool :=
  match v with
  | VUndefined | VNull => true
  | _ => false
  end.

(** An array none of whose elements is [null] or [undefined]. *)
Definition mappable (v : Value) : bool :=
  match v with
  | VArr items => forallb (fun x => negb (nullish x)) items
  | _ => false
  end.

(** A computation that throws nothing but a [TypeError]. *)
Definition fails_by_TypeError {A} (c : Completion A) : Prop :=
  forall e, c = Throw e -> exists m, e = TypeError m.


(** The tools that create a record. *)
Definition is_create_tool (tool : string) : bool :=
  String.prefix "sage_create_" tool.

(** The arguments a create tool does not copy as they are. *)
Definition reshaped (field : string) : bool :=
  one_of ["sales_price"; "line_items"; "invoice_allocations"] field.

(** The parameter name a list tool sends a field under. *)
Definition query_key (tool field : string) : string :=
  match place_of tool field with
  | Query k => k
  | Body _ => field
  end.

(** The test a list tool puts a field to before it sends it. *)
Definition is_sent (tool field : string) (v : Value) : bool :=
  if ((tool =? "sage_list_products") && (field =? "active"))%string
  then negb (is_undefined v)
  else if ((tool =? "sage_list_contacts") && (field =? "contact_type"))%string
  then truthy v && negb (strict_eq_str v "all")
  else truthy v.

(** *** The receiving side of a query string *)

Definition hex_value (c : ascii) : option nat :=
  let n := nat_of_ascii c in
  if ((48 <=? n) && (n <=? 57))%nat then Some (n - 48)%nat
  else if ((65 <=? n) && (n <=? 70))%nat then Some (n - 55)%nat
  else if ((97 <=? n) && (n <=? 102))%nat then Some (n - 87)%nat
  else None.

(** The application/x-www-form-urlencoded decoding of a name or a value:
    a plus sign is a space, a percent sign with two hexadecimal digits is a
    byte. *)
Fixpoint percent_decode (s : string) : string :=
  match s with
  | EmptyString => EmptyString
  | String c r =>
      if Ascii.eqb c "+" then String " " (percent_decode r)
      else if Ascii.eqb c "%" then
        match r with
        | String h (String l r') =>
            match hex_value h, hex_value l with
            | Some a, Some b =>
                String (ascii_of_nat (16 * a + b)) (percent_decode r')
            | _, _ => String c (percent_decode r)
            end
        | _ => String c (percent_decode r)
        end
      else String c (percent_decode r)
  end.

(** The parameters of an endpoint as the receiver decodes them. *)
Definition decoded_query (endpoint : string) : list (string * string) :=
  map (fun kv => (percent_decode (fst kv), percent_decode (snd kv)))
      (query_pairs endpoint).

(** *** Reading a date back *)

Definition digit_value (c : ascii) : Z := Z.of_nat (nat_of_ascii c) - 48.

(** The number a string of decimal digits denotes. *)
Definition decimal (s : string) : Z :=
  (fix go (acc : Z) (s : string) : Z :=
     match s with
     | EmptyString => acc
     | String c r => go (acc * 10 + digit_value c) r
     end) 0 s.

(** The year, month and day of a text of the form [YYYY-MM-DD]. *)
Definition parse_date (s : string) : option (Z * Z * Z) :=
  if date_form s
  then Some (decimal (substring 0 4 s), decimal (substring 5 2 s),
             decimal (substring 8 2 s))
  else None.

(** *** Regions *)

(** The regions [API_BASE_URLS] has an entry for. *)
Definition regions : list string := map fst API_BASE_URLS.

(** The property names every object inherits from [Object.prototype]. *)
Definition inherited : list string :=
  ["constructor"; "__proto__"; "hasOwnProperty"; "isPrototypeOf";
   "propertyIsEnumerable"; "toLocaleString"; "toString"; "valueOf";
   "__defineGetter__"; "__defineSetter__"; "__lookupGetter__";
   "__lookupSetter__"].

End Terms.

(* ================================================================== *)
(** ** Properties of the gateway *)
(* ================================================================== *)

Import JS Sage Spec.

Section Gateway.

Variable net : Network.

Local Open Scope nat_scope.

Ltac run_monad :=
  unfold sageRequest, refreshAccessToken, bind, read, fetch, lift, throw, ret,
    enter_refresh, assign_currentAccessToken; cbn [bindings sent refreshes fst snd].

Lemma issued_app st st' l :
  sent st' = (sent st ++ l)%list -> issued st st' = l.
Proof.
  intros H. unfold issued. rewrite H.
  rewrite skipn_app, skipn_all, Nat.sub_diag. reflexivity.
Qed.

Lemma same_constants_refl b : same_constants b b.
Proof. repeat split. Qed.

Lemma same_constants_set b v : same_constants b (set_currentAccessToken b v).
Proof. repeat split. Qed.

Lemma same_constants_trans b1 b2 b3 :
  same_constants b1 b2 -> same_constants b2 b3 -> same_constants b1 b3.
Proof.
  unfold same_constants. intros (?&?&?&?&?&?) (?&?&?&?&?&?).
  repeat split; congruence.
Qed.

Lemma same_constants_BASE_URL b b' : same_constants b b' -> BASE_URL b' = BASE_URL b.
Proof. intros (?&?&?&?&Hr&Hv). unfold BASE_URL. now rewrite Hr, Hv. Qed.

Lemma same_constants_token_request b b' :
  same_constants b b' -> token_request b' = token_request b.
Proof. intros (Hi&Hs&?&Hr&?&?). unfold token_request. now rewrite Hi, Hs, Hr. Qed.

(** What a run of [refreshAccessToken] can do, whatever its outcome. *)
Lemma refresh_effect st res st' :
  refreshAccessToken net st = (res, st') ->
  refreshes st' = S (refreshes st) /\
  same_constants (bindings st) (bindings st') /\
  (sent st' = sent st \/
   sent st' = (sent st ++ [token_request (bindings st)])%list).
Proof.
  run_monad.
  destruct (_ || _).
  - intros [= <- <-]. cbn. auto using same_constants_refl.
  - destruct (net _ _) as [r|e]; cbn.
    + destruct (negb (ok r)); cbn.
      * intros [= <- <-]. cbn. auto using same_constants_refl.
      * destruct (json r) as [data|e]; cbn.
        -- destruct (get data _) as [tok|e]; cbn;
             intros [= <- <-]; cbn; auto using same_constants_refl, same_constants_set.
        -- intros [= <- <-]. cbn. auto using same_constants_refl.
    + intros [= <- <-]. cbn. auto using same_constants_refl.
Qed.

(** A run of [refreshAccessToken] that returns normally. *)
Lemma refresh_success st st' :
  refreshAccessToken net st = (Ok tt, st') ->
  credentials_missing (bindings st) = false /\
  exists r data tok,
    net (sent st) (token_request (bindings st)) = Ok r /\
    ok r = true /\ json r = Ok data /\ get data "access_token" = Ok tok /\
    st' = {| bindings := set_currentAccessToken (bindings st) tok;
             sent := (sent st ++ [token_request (bindings st)])%list;
             refreshes := S (refreshes st) |}.
Proof.
  run_monad. unfold credentials_missing.
  destruct (_ || _); [discriminate|].
  destruct (net _ _) as [r|e] eqn:Hnet; cbn; [|discriminate].
  destruct (ok r) eqn:Hok; cbn; [|discriminate].
  destruct (json r) as [data|e] eqn:Hjson; cbn; [|discriminate].
  destruct (get data _) as [tok|e] eqn:Hget; cbn; [|discriminate].
  intros [= <-]. split; [reflexivity|].
  exists r, data, tok. repeat split; auto.
Qed.

(** The refresh is not attempted when a credential is missing. *)
Lemma refresh_not_attempted st :
  credentials_missing (bindings st) = true ->
  refreshAccessToken net st =
    (Throw (Error RefreshError_not_attempted),
     {| bindings := bindings st; sent := sent st; refreshes := S (refreshes st) |}).
Proof.
  unfold credentials_missing. run_monad. intros ->. reflexivity.
Qed.

(** The token endpoint turns the refresh down. *)
Lemma refresh_rejected st r :
  credentials_missing (bindings st) = false ->
  net (sent st) (token_request (bindings st)) = Ok r ->
  ok r = false ->
  refreshAccessToken net st =
    (Throw (Error (RefreshError_rejected r)),
     {| bindings := bindings st;
        sent := (sent st ++ [token_request (bindings st)])%list;
        refreshes := S (refreshes st) |}).
Proof.
  unfold credentials_missing. intros Hc Hn Hok. run_monad.
  rewrite Hc. cbn [sent]. rewrite Hn. cbn. rewrite Hok. reflexivity.
Qed.

(** [sageRequest], step by step. *)
Lemma sageRequest_no_token endpoint m payload st :
  truthy (currentAccessToken (bindings st)) = false ->
  sageRequest net endpoint m payload st = (Throw (Error AuthError), st).
Proof. run_monad. intros ->. reflexivity. Qed.

Lemma sageRequest_first endpoint m payload st :
  truthy (currentAccessToken (bindings st)) = true ->
  sageRequest net endpoint m payload st =
    let first := resource_request (bindings st) endpoint m payload in
    match net (sent st) first with
    | Throw e => (Throw e, push st first)
    | Ok response =>
        if (status response =? 401)%Z then
          match refreshAccessToken net (push st first) with
          | (Throw e, st1) => (Throw e, st1)
          | (Ok _, st1) =>
              let retry := resource_request (bindings st1) endpoint m payload in
              match net (sent st1) retry with
              | Throw e => (Throw e, push st1 retry)
              | Ok retryResponse =>
                  if ok retryResponse
                  then (json retryResponse, push st1 retry)
                  else (Throw (Error (ApiError_on_retry retryResponse)),
                        push st1 retry)
              end
          end
        else if ok response then (json response, push st first)
        else (Throw (Error (ApiError_on_first response)), push st first)
    end.
Proof.
  intros Htok. unfold sageRequest, bind at 1 2, read. cbn [bindings].
  rewrite Htok. cbn [negb]. unfold bind at 1, fetch at 1. cbn zeta.
  destruct (net _ _) as [r|e]; [|reflexivity].
  destruct (status r =? 401)%Z.
  - unfold bind at 1. fold (refreshAccessToken net).
    destruct (refreshAccessToken net _) as [[[]|e] st1]; [|reflexivity].
    unfold bind, read, fetch, throw, lift. cbn [bindings].
    destruct (net _ _) as [r2|e]; [|reflexivity].
    destruct (ok r2); reflexivity.
  - destruct (ok r); reflexivity.
Qed.

(** The two endpoints are told apart by the URL. *)
Lemma base_url_shape b :
  BASE_URL b = "https://api.accounting.sage.com/" ++ SAGE_API_VERSION b \/
  BASE_URL b = "undefined/" ++ SAGE_API_VERSION b.
Proof.
  unfold BASE_URL, own, API_BASE_URLS, assoc.
  repeat match goal with
         | |- context [if ?c then _ else _] => destruct c; [left; reflexivity|]
         end.
  right. reflexivity.
Qed.

Lemma append_assoc (s t u : string) : (s ++ t) ++ u = s ++ (t ++ u).
Proof. induction s as [|c s IH]; cbn; [reflexivity | now rewrite IH]. Qed.

(** The body of the token request on the wire. *)
Lemma token_request_body b :
  body (token_request b)
  = Some ("grant_type=refresh_token&refresh_token="
          ++ urlencode (SAGE_REFRESH_TOKEN b)
          ++ "&client_id=" ++ urlencode (SAGE_CLIENT_ID b)
          ++ "&client_secret=" ++ urlencode (SAGE_CLIENT_SECRET b)).
Proof.
  unfold token_request, URLSearchParams_toString.
  cbn [body map String.concat].
  change (urlencode "grant_type") with "grant_type".
  change (urlencode "refresh_token") with "refresh_token".
  change (urlencode "client_id") with "client_id".
  change (urlencode "client_secret") with "client_secret".
  rewrite !append_assoc. reflexivity.
Qed.

Lemma prefix_app s t : String.prefix s (s ++ t) = true.
Proof.
  induction s as [|c s IH]; cbn.
  - now destruct t.
  - destruct (ascii_dec c c); [exact IH | congruence].
Qed.

Lemma resource_to_resource b b' endpoint m payload :
  same_constants b b' ->
  to_resource_endpoint b (resource_request b' endpoint m payload) = true.
Proof.
  intros H. unfold to_resource_endpoint, resource_request. cbn [url].
  rewrite (same_constants_BASE_URL _ _ H). apply prefix_app.
Qed.

Lemma resource_not_token b endpoint m payload :
  to_token_endpoint (resource_request b endpoint m payload) = false.
Proof.
  unfold to_token_endpoint, resource_request. cbn [url].
  destruct (base_url_shape b) as [-> | ->]; reflexivity.
Qed.

Lemma token_to_token b : to_token_endpoint (token_request b) = true.
Proof. reflexivity. Qed.

Lemma token_not_resource b b' :
  to_resource_endpoint b (token_request b') = false.
Proof.
  unfold to_resource_endpoint, token_request. cbn [url].
  destruct (base_url_shape b) as [-> | ->]; reflexivity.
Qed.

(** A token request of the process is the one built from its constants. *)
Lemma origin_token b r :
  origin b r -> to_token_endpoint r = true -> r = token_request b.
Proof.
  intros [|b' e m p _] H; [reflexivity|].
  now rewrite resource_not_token in H.
Qed.

Lemma origin_weaken b b' r :
  same_constants b b' -> origin b' r -> origin b r.
Proof.
  intros Hb [|b'' e m p H].
  - rewrite (same_constants_token_request _ _ Hb). constructor.
  - constructor. eauto using same_constants_trans.
Qed.

(** What one call of [sageRequest] can do, whatever the network answers. *)
Lemma sageRequest_effect endpoint m payload st res st' :
  sageRequest net endpoint m payload st = (res, st') ->
  same_constants (bindings st) (bindings st') /\
  refreshes st' <= S (refreshes st) /\
  exists new,
    sent st' = (sent st ++ new)%list /\
    Forall (origin (bindings st)) new /\
    count to_token_endpoint new <= 1 /\
    count (to_resource_endpoint (bindings st)) new <= 2.
Proof.
  assert (Hfirst : origin (bindings st)
            (resource_request (bindings st) endpoint m payload))
    by (constructor; apply same_constants_refl).
  assert (Hc1 : count to_token_endpoint
            [resource_request (bindings st) endpoint m payload] <= 1)
    by (intros; unfold count; cbn [filter]; rewrite resource_not_token; cbn; lia).
  destruct (truthy (currentAccessToken (bindings st))) eqn:Htok.
  2:{ rewrite sageRequest_no_token by assumption. intros [= <- <-].
      split; [apply same_constants_refl|]. split; [lia|].
      exists []. rewrite app_nil_r. repeat split; auto; cbn; lia. }
  rewrite sageRequest_first by assumption. cbn zeta.
  set (first := resource_request (bindings st) endpoint m payload) in *.
  assert (Hone : same_constants (bindings st) (bindings (push st first)) /\
                 refreshes (push st first) <= S (refreshes st) /\
                 exists new, sent (push st first) = (sent st ++ new)%list /\
                   Forall (origin (bindings st)) new /\
                   count to_token_endpoint new <= 1 /\
                   count (to_resource_endpoint (bindings st)) new <= 2).
  { split; [apply same_constants_refl|]. split; [cbn; lia|].
    exists [first]. repeat split; auto.
    unfold count. cbn [filter]. destruct (to_resource_endpoint _ _); cbn; lia. }
  destruct (net (sent st) first) as [r|e]; [|intros [= <- <-]; exact Hone].
  destruct (status r =? 401)%Z.
  2:{ destruct (ok r); intros [= <- <-]; exact Hone. }
  destruct (refreshAccessToken net (push st first)) as [[[]|e] st1] eqn:Href.
  - destruct (refresh_success _ _ Href) as (_ & rt & data & tok & _ & _ & _ & _ & ->).
    cbn [bindings sent push].
    set (b1 := set_currentAccessToken (bindings st) tok).
    set (retry := resource_request b1 endpoint m payload).
    assert (Hall : same_constants (bindings st) b1 /\
                   Forall (origin (bindings st))
                     [first; token_request (bindings st); retry] /\
                   count to_token_endpoint
                     [first; token_request (bindings st); retry] <= 1 /\
                   count (to_resource_endpoint (bindings st))
                     [first; token_request (bindings st); retry] <= 2).
    { split; [apply same_constants_set|]. split.
      - repeat constructor; auto using same_constants_set.
      - unfold count. cbn [filter]. subst first retry.
        rewrite !resource_not_token, token_to_token, token_not_resource.
        rewrite (resource_to_resource (bindings st) (bindings st))
          by apply same_constants_refl.
        rewrite (resource_to_resource (bindings st) b1)
          by apply same_constants_set.
        cbn. lia. }
    destruct Hall as (Hb & Hor & Hct & Hcr).
    assert (Hres : forall res0 st0,
              st0 = {| bindings := b1;
                       sent := ((sent st ++ [first]) ++
                                [token_request (bindings st)]) ++ [retry];
                       refreshes := S (refreshes st) |} ->
              (res0, st0) = (res, st') ->
              same_constants (bindings st) (bindings st') /\
              refreshes st' <= S (refreshes st) /\
              exists new, sent st' = (sent st ++ new)%list /\
                Forall (origin (bindings st)) new /\
                count to_token_endpoint new <= 1 /\
                count (to_resource_endpoint (bindings st)) new <= 2).
    { intros res0 st0 -> [= <- <-]. cbn [bindings sent refreshes].
      split; [exact Hb|]. split; [lia|].
      exists [first; token_request (bindings st); retry].
      rewrite <- !app_assoc. cbn [app]. auto. }
    destruct (net _ retry) as [r2|e]; [destruct (ok r2)|];
      intros H; eapply Hres; try exact H; reflexivity.
  - intros [= <- <-].
    destruct (refresh_effect _ _ _ Href) as (Hn & Hb & Hs).
    cbn [bindings sent refreshes push] in Hn, Hb, Hs.
    split; [exact Hb|]. split; [lia|].
    destruct Hs as [-> | ->].
    + destruct Hone as (_ & _ & Hnew). exact Hnew.
    + exists [first; token_request (bindings st)].
      rewrite <- !app_assoc. cbn [app]. split; [reflexivity|]. split.
      * repeat constructor; auto.
      * unfold count. cbn [filter]. subst first.
        rewrite !resource_not_token, token_to_token, token_not_resource.
        rewrite !resource_to_resource by auto using same_constants_refl.
        cbn. lia.
Qed.

End Gateway.

(** The facts about constants and endpoints that later proofs lean on. *)
Create HintDb sage.
#[global] Hint Resolve same_constants_refl same_constants_set : sage.
Create Rewrite HintDb endpoints.
#[global] Hint Rewrite resource_not_token token_to_token token_not_resource
  : endpoints.

(* ================================================================== *)
(** ** Properties of the handler *)
(* ================================================================== *)

Section HandlerFacts.

Variable net : Network.

(** The handler, by the outcome of the case of the tool. *)
Lemma CallTool_unfold now name args st :
  CallTool net now name args st =
    match tool_call now name args with
    | Throw e => (error_result (message e), st)
    | Ok c =>
        match sageRequest net (endpoint c) (verb c) (payload c) st with
        | (Ok result, st') =>
            ({| content_text := JSON_stringify_2 result; isError := false |}, st')
        | (Throw e, st') => (error_result (message e), st')
        end
    end.
Proof.
  unfold CallTool, bind, lift.
  destruct (tool_call now name args) as [c|e]; reflexivity.
Qed.

Lemma CallTool_effect now name args st :
  let st' := snd (CallTool net now name args st) in
  same_constants (bindings st) (bindings st') /\
  exists new,
    sent st' = (sent st ++ new)%list /\ Forall (origin (bindings st)) new.
Proof.
  rewrite CallTool_unfold.
  destruct (tool_call now name args) as [c|e]; cbn zeta.
  - destruct (sageRequest net _ _ _ st) as [res st'] eqn:Hreq.
    destruct (sageRequest_effect _ _ _ _ _ _ _ Hreq)
      as (Hb & _ & new & Hs & Ho & _).
    assert (snd (match res with
                 | Ok result =>
                     ({| content_text := JSON_stringify_2 result;
                         isError := false |}, st')
                 | Throw e => (error_result (message e), st')
                 end) = st') as -> by now destruct res.
    eauto.
  - cbn. split; [auto with sage|].
    exists []. now rewrite app_nil_r.
Qed.

Lemma serve_effect calls st :
  same_constants (bindings st) (bindings (serve net calls st)) /\
  exists new,
    sent (serve net calls st) = (sent st ++ new)%list /\
    Forall (origin (bindings st)) new.
Proof.
  revert st. induction calls as [|c calls IH]; intros st; cbn.
  - split; [auto with sage|]. exists []. now rewrite app_nil_r.
  - destruct (CallTool_effect (at_time c) (tool c) (arguments c) st)
      as (Hb & new & Hs & Ho).
    destruct (IH (snd (CallTool net (at_time c) (tool c) (arguments c) st)))
      as (Hb' & new' & Hs' & Ho').
    split; [eauto using same_constants_trans|].
    exists (new ++ new')%list. split.
    + unfold serve in Hs'. rewrite Hs', Hs. now rewrite app_assoc.
    + apply Forall_app. split; [exact Ho|].
      eapply Forall_impl; [|exact Ho']. intros r. now apply origin_weaken.
Qed.

End HandlerFacts.

(** A name outside the tool list reaches the default case of the switch. *)
Lemma tool_call_unknown now name args :
  ~ In name registered ->
  tool_call now name args = Throw (Error ("Unknown tool: " ++ name)).
Proof.
  intros Hout. unfold tool_call.
  repeat match goal with
         | |- context [if (name =? ?lit)%string then _ else _] =>
             destruct (String.eqb_spec name lit) as [Heq|_];
             [exfalso; apply Hout; rewrite Heq; cbn; tauto|]
         end.
  reflexivity.
Qed.

(** The tool list and the switch know the same nineteen names. *)
Lemma registered_handled : forallb handled registered = true.
Proof. reflexivity. Qed.

Lemma registered_count : length registered = 19%nat /\ distinct registered = true.
Proof. split; reflexivity. Qed.

(** The scenario of the specification for a list tool: a search term only. *)
Example list_contacts_search now :
  tool_call now "sage_list_contacts" (VObj [("search", VStr "acme")])
  = Ok (call_get "/contacts?search=acme").
Proof. reflexivity. Qed.

(* ================================================================== *)
(** ** Properties of the projection *)
(* ================================================================== *)

Section Projection.

(** Reading one property without a throw means reading any does not throw. *)
Lemma get_prop params k0 v0 :
  get params k0 = Ok v0 -> forall k, get params k = Ok (prop params k).
Proof. destruct params; cbn; intros H k; solve [discriminate H | reflexivity]. Qed.

Lemma get_prop_eq params k v : get params k = Ok v -> prop params k = v.
Proof. destruct params; cbn; intros H; congruence. Qed.

(** *** Query strings *)

Lemma mentions_app c s t : mentions c (s ++ t) = mentions c s || mentions c t.
Proof.
  induction s as [|a s IH]; cbn; [reflexivity|].
  now rewrite IH, orb_assoc.
Qed.

Lemma urlencode_byte_clean a c :
  delimiter c -> mentions c (urlencode_byte a) = false.
Proof.
  intros [-> | [-> | ->]];
    destruct a as [[] [] [] [] [] [] [] []]; reflexivity.
Qed.

Lemma urlencode_clean s c : delimiter c -> mentions c (urlencode s) = false.
Proof.
  intros Hc. induction s as [|a s IH]; cbn; [reflexivity|].
  now rewrite mentions_app, urlencode_byte_clean, IH.
Qed.

Lemma after_first_skip c s t :
  mentions c s = false -> after_first c (s ++ t) = after_first c t.
Proof.
  induction s as [|a s IH]; cbn; [reflexivity|].
  destruct (Ascii.eqb a c); cbn; [discriminate | exact IH].
Qed.

Lemma after_first_none c s : mentions c s = false -> after_first c s = None.
Proof.
  induction s as [|a s IH]; cbn; [reflexivity|].
  destruct (Ascii.eqb a c); cbn; [discriminate | exact IH].
Qed.

Lemma after_first_here c t : after_first c (String c t) = Some t.
Proof. cbn. now rewrite Ascii.eqb_refl. Qed.

Lemma split_first_stop c s t :
  mentions c s = false -> split_first c (s ++ String c t) = s.
Proof.
  induction s as [|a s IH]; cbn.
  - now rewrite Ascii.eqb_refl.
  - destruct (Ascii.eqb a c); cbn; [discriminate|].
    intros H. now rewrite IH.
Qed.

Lemma split_on_clean c s : mentions c s = false -> split_on c s = [s].
Proof.
  induction s as [|a s IH]; cbn; [reflexivity|].
  destruct (Ascii.eqb a c); cbn; [discriminate|].
  intros H. now rewrite IH.
Qed.

Lemma split_on_app c s t :
  mentions c s = false -> split_on c (s ++ String c t) = s :: split_on c t.
Proof.
  induction s as [|a s IH]; cbn.
  - now rewrite Ascii.eqb_refl.
  - destruct (Ascii.eqb a c); cbn; [discriminate|].
    intros H. now rewrite IH.
Qed.

Lemma split_on_concat c piece pieces :
  Forall (fun p => mentions c p = false) (piece :: pieces) ->
  split_on c (String.concat (String c "") (piece :: pieces)) = piece :: pieces.
Proof.
  revert piece. induction pieces as [|p ps IH]; intros piece H.
  - cbn. apply split_on_clean. now inversion H.
  - change (String.concat (String c "") (piece :: p :: ps))
      with (piece ++ String c (String.concat (String c "") (p :: ps))).
    inversion H as [|? ? Hp Hps]; subst.
    rewrite split_on_app by assumption. now rewrite IH.
Qed.

Lemma URLSearchParams_toString_encoded q :
  URLSearchParams_toString q = String.concat "&" (map encoded q).
Proof.
  unfold URLSearchParams_toString. f_equal.
  apply map_ext. now intros [k v].
Qed.

Lemma encoded_clean kv : mentions "&" (encoded kv) = false.
Proof.
  unfold encoded. rewrite !mentions_app, !urlencode_clean by (unfold delimiter; auto).
  reflexivity.
Qed.

Lemma concat_nonempty sep p ps :
  p <> "" -> String.concat sep (p :: ps) <> "".
Proof.
  intros Hp. destruct ps; cbn; [exact Hp|].
  destruct p; [congruence | discriminate].
Qed.

Lemma encoded_nonempty kv : encoded kv <> "".
Proof. unfold encoded. destruct (urlencode (fst kv)); discriminate. Qed.

(** The receiver reads back the parameters that were appended, in order. *)
Lemma query_pairs_with_query path q :
  mentions "?" path = false ->
  query_pairs (with_query path q)
  = map (fun kv => (urlencode (fst kv), urlencode (snd kv))) q.
Proof.
  intros Hpath. unfold with_query, query_pairs.
  rewrite URLSearchParams_toString_encoded.
  destruct q as [|kv q].
  - cbn [map String.concat truthy String.eqb negb].
    rewrite after_first_skip by assumption. reflexivity.
  - assert (Hne : String.concat "&" (map encoded (kv :: q)) <> "")
      by apply concat_nonempty, encoded_nonempty.
    cbn [truthy]. apply String.eqb_neq in Hne. rewrite Hne. cbn [negb].
    rewrite after_first_skip by assumption.
    change ("?" ++ String.concat "&" (map encoded (kv :: q)))
      with (String "?" (String.concat "&" (map encoded (kv :: q)))).
    rewrite after_first_here.
    change (map encoded (kv :: q)) with (encoded kv :: map encoded q).
    rewrite split_on_concat.
    + change (encoded kv :: map encoded q) with (map encoded (kv :: q)).
      rewrite map_map. apply map_ext. intros [k v]. unfold encoded. cbn [fst snd].
      change ("=" ++ urlencode v) with (String "=" (urlencode v)).
      rewrite split_first_stop by (apply urlencode_clean; unfold delimiter; auto).
      rewrite after_first_skip by (apply urlencode_clean; unfold delimiter; auto).
      now rewrite after_first_here.
    + change (encoded kv :: map encoded q) with (map encoded (kv :: q)).
      apply Forall_map, Forall_forall. intros x _. apply encoded_clean.
Qed.

Lemma query_names_with_query path q :
  mentions "?" path = false ->
  query_names (with_query path q) = map (fun kv => urlencode (fst kv)) q.
Proof.
  intros H. unfold query_names. rewrite query_pairs_with_query by assumption.
  now rewrite map_map.
Qed.

(** *** JSON bodies *)

(** Induction on a value and, inside it, on its elements and properties. *)
Lemma Value_induction (P : Value -> Prop) :
  P VUndefined -> P VNull ->
  (forall b, P (VBool b)) -> (forall n, P (VNum n)) -> (forall s, P (VStr s)) ->
  (forall items, Forall P items -> P (VArr items)) ->
  (forall props, Forall (fun kv => P (snd kv)) props -> P (VObj props)) ->
  forall v, P v.
Proof.
  intros Hu Hn Hb Hq Hs Ha Ho. fix IH 1.
  intros [| |b|n|s|items|props];
    [exact Hu | exact Hn | apply Hb | apply Hq | apply Hs | |].
  - apply Ha. induction items as [|x r IHr]; constructor; [apply IH | exact IHr].
  - apply Ho. induction props as [|[k x] r IHr]; constructor; [apply IH | exact IHr].
Qed.

(** [json_tree] is the document [JSON.stringify] writes: printing the tree
    gives the text that printing the value gives, whatever the indentation. *)
Lemma is_undefined_true v : is_undefined v = true -> v = VUndefined.
Proof. now destruct v. Qed.

Lemma stringify_json_tree v :
  forall gap indent,
    SerializeJSONProperty gap indent (json_tree v)
    = SerializeJSONProperty gap indent v.
Proof.
  induction v as [| | | | |items IH|props IH] using Value_induction;
    intros gap indent; try reflexivity.
  - cbn [json_tree SerializeJSONProperty]. rewrite map_map.
    erewrite (map_ext_in _
                (fun x => match SerializeJSONProperty gap (indent ++ gap) x with
                          | Some t => t
                          | None => "null"
                          end)); [reflexivity|].
    intros x Hx. rewrite Forall_forall in IH. specialize (IH x Hx).
    destruct (is_undefined x) eqn:E; [|now rewrite IH].
    now rewrite (is_undefined_true _ E).
  - cbn [json_tree SerializeJSONProperty].
    match goal with
    | |- Some (match ?l with _ => _ end) = Some (match ?r with _ => _ end) =>
        assert (Hparts : l = r); [|now rewrite Hparts]
    end.
    induction props as [|[k x] r IHr]; [reflexivity|].
    inversion IH as [|? ? Hx Hr]; subst. cbn [snd] in Hx.
    specialize (IHr Hr). specialize (Hx gap (indent ++ gap)).
    destruct (is_undefined x) eqn:E.
    + rewrite (is_undefined_true _ E). exact IHr.
    + rewrite Hx, IHr. reflexivity.
Qed.

Lemma at_path_cons_key k p props :
  at_path (Key k :: p) (json_tree (VObj props))
  = match at_path [Key k] (json_tree (VObj props)) with
    | Some y => at_path p y
    | None => None
    end.
Proof.
  cbn [json_tree at_path].
  destruct (assoc k _); reflexivity.
Qed.

Lemma at_key_missing k props :
  one_of (map fst props) k = false ->
  at_path [Key k] (json_tree (VObj props)) = None.
Proof.
  induction props as [|[k0 x] r IH]; [reflexivity|].
  cbn [map fst one_of existsb]. intros H.
  apply orb_false_iff in H. destruct H as [Hk Hr].
  specialize (IH Hr). cbn [json_tree at_path] in IH |- *.
  rewrite String.eqb_sym in Hk.
  destruct (is_undefined x); cbn [assoc]; rewrite ?Hk; exact IH.
Qed.

(** A property of the body is in the document unless it holds [undefined]. *)
Lemma at_key k props :
  distinct (map fst props) = true ->
  at_path [Key k] (json_tree (VObj props))
  = match assoc k props with
    | Some x => if is_undefined x then None else Some (json_tree x)
    | None => None
    end.
Proof.
  induction props as [|[k0 x] r IH]; [reflexivity|].
  cbn [map fst distinct]. intros H.
  apply andb_true_iff in H. destruct H as [Hk0 Hr].
  apply negb_true_iff in Hk0.
  specialize (IH Hr). cbn [assoc].
  destruct (String.eqb_spec k0 k) as [->|Hne].
  - pose proof (at_key_missing _ _ Hk0) as Hmiss.
    cbn [json_tree at_path] in Hmiss |- *.
    destruct (is_undefined x); cbn [assoc]; rewrite ?String.eqb_refl;
      solve [exact Hmiss | reflexivity].
  - apply String.eqb_neq in Hne.
    cbn [json_tree at_path] in IH |- *.
    destruct (is_undefined x); cbn [assoc]; rewrite ?Hne; exact IH.
Qed.

Lemma at_path_key k p props :
  distinct (map fst props) = true ->
  at_path (Key k :: p) (json_tree (VObj props))
  = match assoc k props with
    | Some x => if is_undefined x then None else at_path p (json_tree x)
    | None => None
    end.
Proof.
  intros H. rewrite at_path_cons_key, at_key by assumption.
  destruct (assoc k props) as [x|]; [|reflexivity].
  destruct (is_undefined x); reflexivity.
Qed.

Lemma at_path_index i p items :
  at_path (Index i :: p) (json_tree (VArr items))
  = match nth_error items i with
    | Some x => at_path p (if is_undefined x then VNull else json_tree x)
    | None => None
    end.
Proof.
  cbn [json_tree at_path]. rewrite nth_error_map.
  destruct (nth_error items i) as [x|]; reflexivity.
Qed.

End Projection.

(* ================================================================== *)
(** ** Properties of the tool cases *)
(* ================================================================== *)

Lemma own_without f props k :
  own (without f props) k = if (k =? f)%string then VUndefined else own props k.
Proof.
  unfold own, without. induction props as [|[k0 x] r IH]; cbn [filter assoc fst].
  - now destruct (k =? f)%string.
  - destruct (k0 =? f)%string eqn:E0; cbn [negb assoc].
    + rewrite IH. apply String.eqb_eq in E0. subst k0.
      rewrite (String.eqb_sym f k). now destruct (k =? f)%string.
    + destruct (k0 =? k)%string eqn:E1; [|exact IH].
      apply String.eqb_eq in E1. subst k0. now rewrite E0.
Qed.

Lemma own_present k props v : assoc k props = Some v -> own props k = v.
Proof. unfold own. now intros ->. Qed.

(** Selects the case of a tool whose name is a literal. *)
Ltac pick_case :=
  unfold tool_call, append_if, invoice_body, other_payment_body;
  cbn [name String.eqb Ascii.eqb Bool.eqb andb].

(** Decides the comparisons of literal names left in the goal. *)
Ltac literal_names := cbn [String.eqb Ascii.eqb Bool.eqb andb orb negb].

Ltac split_cases H :=
  repeat (destruct H as [H|H]; [try subst|]); try contradiction.

Lemma falsy_same_call now (t : Tool) field props v :
  In t tools ->
  is_list_tool (name t) = true ->
  In field (fields (inputSchema t)) ->
  (name t, field) <> ("sage_list_products", "active") ->
  assoc field props = Some v ->
  truthy v = false ->
  tool_call now (name t) (VObj props)
  = tool_call now (name t) (VObj (without field props)).
Proof.
  intros Ht Hlist Hfield Hnot Hpresent Hfalsy.
  apply own_present in Hpresent.
  unfold tools in Ht. cbn [In] in Ht.
  repeat (destruct Ht as [Ht|Ht]; [subst t; try discriminate Hlist|]);
    try contradiction;
    cbn [name inputSchema fields map fst In] in Hfield, Hnot |- *;
    split_cases Hfield;
    try (exfalso; apply Hnot; reflexivity);
    pick_case; cbn [get bindC]; rewrite ?own_without; literal_names;
    rewrite ?Hpresent, ?Hfalsy; cbn [truthy andb is_undefined];
    reflexivity.
Qed.

Lemma in_names_step (b : bool) (q : URLSearchParams) k v n :
  In n (map (fun kv => urlencode (fst kv)) (if b then append q k v else q)) ->
  n = urlencode k \/ In n (map (fun kv => urlencode (fst kv)) q).
Proof.
  destruct b; [|now right].
  unfold append. rewrite map_app, in_app_iff. cbn.
  intros [H|[H|[]]]; auto.
Qed.

Lemma in_names_append (q : URLSearchParams) k v n :
  In n (map (fun kv => urlencode (fst kv)) (append q k v)) ->
  n = urlencode k \/ In n (map (fun kv => urlencode (fst kv)) q).
Proof. apply (in_names_step true). Qed.

Ltac names_apart H :=
  repeat (first [apply in_names_step in H | apply in_names_append in H];
          destruct H as [H|H]; [discriminate H|]);
  try solve [destruct H].

(** A list tool sends no parameter for a field whose value is falsy, be it
    there or not; the [active] flag of [sage_list_products] is compared with
    [undefined] instead. *)
Lemma list_tool_vacant now (t : Tool) field params v c :
  In t tools ->
  is_list_tool (name t) = true ->
  In field (fields (inputSchema t)) ->
  get params field = Ok v ->
  (if ((name t =? "sage_list_products") && (field =? "active"))%string
   then v = VUndefined else truthy v = false) ->
  tool_call now (name t) params = Ok c ->
  vacant (place_of (name t) field) c.
Proof.
  intros Ht Hlist Hfield Hget Hfalsy Hcall.
  pose proof (get_prop _ _ _ Hget) as Hall.
  apply get_prop_eq in Hget. subst v.
  unfold tools in Ht. cbn [In] in Ht.
  repeat (destruct Ht as [Ht|Ht]; [subst t; try discriminate Hlist|]);
    try contradiction;
    cbn [name inputSchema fields map fst In] in Hfield, Hfalsy, Hcall |- *;
    split_cases Hfield;
    cbn [String.eqb Ascii.eqb Bool.eqb andb] in Hfalsy;
    unfold tool_call, append_if in Hcall;
    cbn [String.eqb Ascii.eqb Bool.eqb andb] in Hcall;
    rewrite ?Hall in Hcall; cbn [bindC] in Hcall;
    rewrite ?Hfalsy in Hcall; cbn [andb] in Hcall;
    injection Hcall as <-;
    unfold place_of, vacant; cbn [one_of existsb String.eqb Ascii.eqb Bool.eqb orb];
    cbn [endpoint call_get]; rewrite query_names_with_query by reflexivity;
    intros Hin;
    try (destruct (prop params "active"));
    names_apart Hin.
Qed.

Ltac walk_body :=
  repeat first
    [ rewrite at_path_key by reflexivity;
      cbn [assoc String.eqb Ascii.eqb Bool.eqb andb is_undefined truthy]
    | rewrite at_path_index; cbn [nth_error is_undefined] ].

(** A create tool sends nothing at the place of an optional field that the
    bag lacks, the defaulted fields apart. *)
Lemma create_tool_vacant now (t : Tool) field params c :
  In t tools ->
  is_list_tool (name t) = false ->
  In field (optional_fields (inputSchema t)) ->
  defaulted (name t) field = false ->
  get params field = Ok VUndefined ->
  tool_call now (name t) params = Ok c ->
  vacant (place_of (name t) field) c.
Proof.
  intros Ht Hlist Hfield Hdef Hget Hcall.
  pose proof (get_prop _ _ _ Hget) as Hall.
  apply get_prop_eq in Hget.
  unfold tools in Ht. cbn [In] in Ht.
  repeat (destruct Ht as [Ht|Ht]; [subst t; try discriminate Hlist|]);
    try contradiction;
    cbn in Hfield; split_cases Hfield; try discriminate Hdef;
    cbn [name] in Hcall |- *;
    unfold tool_call, invoice_body, other_payment_body in Hcall;
    cbn [String.eqb Ascii.eqb Bool.eqb andb] in Hcall;
    rewrite ?Hall in Hcall; cbn [bindC] in Hcall;
    try (destruct (array_map _ _ _) as [lines|e]; [|discriminate Hcall];
         cbn [bindC] in Hcall);
    injection Hcall as <-;
    unfold place_of, vacant;
    cbn [one_of existsb String.eqb Ascii.eqb Bool.eqb orb andb payload call_post];
    rewrite ?Hget; walk_body; rewrite ?Hget; reflexivity.
Qed.

Lemma mapC_nth {A B} (f : A -> Completion B) l ys i x :
  mapC f l = Ok ys -> nth_error l i = Some x ->
  exists y, f x = Ok y /\ nth_error ys i = Some y.
Proof.
  revert ys i. induction l as [|a l IH]; intros ys i Hmap Hnth.
  - now destruct i.
  - cbn in Hmap. destruct (f a) as [b|e] eqn:Hfa; [|discriminate].
    cbn in Hmap. destruct (mapC f l) as [bs|e]; [|discriminate].
    cbn in Hmap. injection Hmap as <-.
    destruct i as [|i]; cbn in Hnth |- *.
    + injection Hnth as <-. eauto.
    + eauto.
Qed.

(** An invoice line carries no key for an optional field its item lacks. *)
Lemma invoice_line_vacant now tool envelope params c items i item field :
  In (tool, envelope) [("sage_create_sales_invoice", "sales_invoice");
                       ("sage_create_purchase_invoice", "purchase_invoice")] ->
  In field (optional_fields line_item_schema) ->
  get params "line_items" = Ok (VArr items) ->
  nth_error items i = Some item ->
  get item field = Ok VUndefined ->
  tool_call now tool params = Ok c ->
  at_path [Key envelope; Key "invoice_lines"; Index i; Key field]
          (json_tree (payload c)) = None.
Proof.
  intros Htool Hfield Hitems Hnth Hget Hcall.
  pose proof (get_prop _ _ _ Hitems) as Hall.
  apply get_prop_eq in Hitems.
  pose proof (get_prop _ _ _ Hget) as Hitem.
  apply get_prop_eq in Hget.
  cbn in Hfield.
  split_cases Htool; injection Htool as <- <-; split_cases Hfield;
    unfold tool_call, invoice_body in Hcall;
    cbn [String.eqb Ascii.eqb Bool.eqb andb] in Hcall;
    rewrite ?Hall in Hcall; cbn [bindC] in Hcall;
    rewrite Hitems in Hcall; cbn [array_map] in Hcall;
    (destruct (mapC invoice_line items) as [lines|e] eqn:Hmap;
       [|discriminate Hcall]);
    cbn [bindC] in Hcall; injection Hcall as <-;
    destruct (mapC_nth _ _ _ _ _ Hmap Hnth) as (line & Hline & Hnth');
    unfold invoice_line in Hline; rewrite ?Hitem in Hline;
    cbn [bindC] in Hline; injection Hline as <-;
    cbn [payload call_post]; walk_body;
    rewrite Hnth'; cbn [is_undefined]; walk_body;
    rewrite ?Hget; reflexivity.
Qed.

Lemma optional_is_field s field :
  In field (optional_fields s) -> In field (fields s).
Proof.
  destruct s; cbn; try contradiction.
  intros H. now apply filter_In in H.
Qed.

(* ================================================================== *)
(** ** The calendar of [toISOString] *)
(* ================================================================== *)

Section Calendar.

Local Open Scope Z_scope.

(** A year has 365 days, or 366 when it is a leap year. *)
Lemma year_length y :
  DayFromYear (y + 1) - DayFromYear y = if is_leap y then 366 else 365.
Proof.
  unfold DayFromYear, is_leap.
  destruct (y mod 4 =? 0) eqn:E4, (y mod 100 =? 0) eqn:E100,
           (y mod 400 =? 0) eqn:E400; cbn [andb orb negb];
    rewrite ?Z.eqb_eq, ?Z.eqb_neq in *; Z.div_mod_to_equations; lia.
Qed.

(** The years up to 0 and from 10000 on, in day numbers. *)
Lemma DayFromYear_10000 y : 10000 <= y -> 2932897 <= DayFromYear y.
Proof. unfold DayFromYear. Z.div_mod_to_equations. lia. Qed.

Lemma DayFromYear_0 y : y <= 0 -> DayFromYear y <= -719528.
Proof. unfold DayFromYear. Z.div_mod_to_equations. lia. Qed.

(** The days of a year before each of its months. *)
Lemma days_before_leap y k :
  days_before y k
  = nth k [0; 31; 59; 90; 120; 151; 181; 212; 243; 273; 304; 334; 365]
        (days_before y k)
    + (if (2 <=? k)%nat && (k <=? 12)%nat && is_leap y then 1 else 0).
Proof.
  do 13 (destruct k as [|k];
         [cbn; unfold days_in_month; cbn; destruct (is_leap y); reflexivity|]).
  cbn [nth Nat.leb andb]. destruct k; lia.
Qed.

(** The day number of a valid date lies within its year. *)
Lemma within_year y m d :
  valid_date y m d = true ->
  DayFromYear y <= day_number y m d < DayFromYear (y + 1).
Proof.
  unfold valid_date. rewrite !andb_true_iff, !Z.leb_le.
  intros [[[Hm1 Hm12] Hd1] Hd].
  pose proof (year_length y) as Hlen.
  unfold day_number.
  assert (Hm : m = 1 \/ m = 2 \/ m = 3 \/ m = 4 \/ m = 5 \/ m = 6 \/ m = 7
               \/ m = 8 \/ m = 9 \/ m = 10 \/ m = 11 \/ m = 12) by lia.
  unfold days_in_month in Hd.
  repeat (destruct Hm as [Hm|Hm]; [subst m|]); try subst m;
    match goal with
    | |- context [Z.to_nat ?e] =>
        let n := eval vm_compute in (Z.to_nat e) in change (Z.to_nat e) with n
    end;
    rewrite days_before_leap; cbn [nth Nat.leb andb];
    cbn [Z.eqb Pos.eqb orb] in Hd;
    destruct (is_leap y); lia.
Qed.

Lemma is_leap_true y :
  is_leap y = true <-> y mod 4 = 0 /\ (y mod 100 <> 0 \/ y mod 400 = 0).
Proof.
  unfold is_leap.
  rewrite andb_true_iff, orb_true_iff, negb_true_iff, !Z.eqb_eq, Z.eqb_neq.
  reflexivity.
Qed.

Lemma is_leap_false y :
  is_leap y = false <-> y mod 4 <> 0 \/ (y mod 100 = 0 /\ y mod 400 <> 0).
Proof.
  unfold is_leap.
  rewrite andb_false_iff, orb_false_iff, negb_false_iff, !Z.eqb_eq, !Z.eqb_neq.
  reflexivity.
Qed.

(** [civil_from_days] inverts [day_number], on every day. *)
Lemma civil_from_days_correct day :
  let '(y, m, d) := civil_from_days day in
  valid_date y m d = true /\ day_number y m d = day.
Proof.
  unfold civil_from_days.
  remember (day + 719468) as z eqn:Hz.
  remember (z / 146097) as era eqn:Hera.
  remember (z - era * 146097) as doe eqn:Hdoe.
  assert (Hdoe_range : 0 <= doe <= 146096)
    by (subst doe era; Z.div_mod_to_equations; lia).
  remember ((doe - doe / 1460 + doe / 36524 - doe / 146096) / 365) as yoe eqn:Hyoe.
  assert (Hyoe_range : 0 <= yoe <= 399)
    by (subst yoe; Z.div_mod_to_equations; lia).
  remember (doe - (365 * yoe + yoe / 4 - yoe / 100)) as doy eqn:Hdoy.
  assert (Hdoy_range : 0 <= doy <= 365)
    by (subst doy yoe; Z.div_mod_to_equations; lia).
  assert (Hleap : doy = 365 ->
            (yoe + 1) mod 4 = 0 /\
            ((yoe + 1) mod 100 <> 0 \/ (yoe + 1) mod 400 = 0))
    by (subst doy yoe; intros ?; Z.div_mod_to_equations; lia).
  clear Hyoe.
  remember ((5 * doy + 2) / 153) as mp eqn:Hmp.
  assert (Hcases : mp = 0 \/ mp = 1 \/ mp = 2 \/ mp = 3 \/ mp = 4 \/ mp = 5
                   \/ mp = 6 \/ mp = 7 \/ mp = 8 \/ mp = 9 \/ mp = 10 \/ mp = 11)
    by (subst mp; Z.div_mod_to_equations; lia).
  cbv zeta.
  repeat (destruct Hcases as [Hcases|Hcases]; [rewrite Hcases in *|]);
    try rewrite Hcases in *;
    cbn [Z.ltb Z.leb Z.compare Pos.compare Pos.compare_cont Z.add Z.sub Z.opp
         Z.pos_sub Pos.add Pos.succ Pos.pred_double Pos.add_carry Z.succ_double
         Z.pred_double Z.double];
    unfold valid_date, day_number;
    match goal with
    | |- context [Z.to_nat ?e] =>
        let n := eval vm_compute in (Z.to_nat e) in change (Z.to_nat e) with n
    end;
    rewrite days_before_leap; cbn [nth Nat.leb andb];
    unfold days_in_month; cbn [Z.eqb Pos.eqb orb];
    rewrite !andb_true_iff, !Z.leb_le;
    unfold DayFromYear;
    try match goal with
        | |- context [is_leap ?yy] =>
            destruct (is_leap yy) eqn:HL;
            [apply is_leap_true in HL | apply is_leap_false in HL]
        end;
    Z.div_mod_to_equations; lia.
Qed.

(** From the year 0 to the year 9999 the year has four digits. *)
Lemma year_of_day day :
  -719528 <= day < 2932897 ->
  0 <= fst (fst (civil_from_days day)) <= 9999.
Proof.
  intros Hday. pose proof (civil_from_days_correct day) as H.
  destruct (civil_from_days day) as [[y m] d]. cbn [fst].
  destruct H as [Hv Hn]. pose proof (within_year _ _ _ Hv) as Hw.
  rewrite Hn in Hw.
  destruct (Z_lt_ge_dec y 0) as [Hlo|Hlo].
  - pose proof (DayFromYear_0 (y + 1)). lia.
  - destruct (Z_le_gt_dec y 9999) as [Hhi|Hhi]; [lia|].
    pose proof (DayFromYear_10000 y). lia.
Qed.

End Calendar.

(* ================================================================== *)
(** ** The date of an invoice *)
(* ================================================================== *)

Section Invoice.

Local Open Scope Z_scope.

(** What a decimal digit of a number is as a character. *)
Lemma digit_props z :
  is_digit (digit (z mod 10)) = true /\
  Ascii.eqb (digit (z mod 10)) "T" = false /\
  json_escape (digit (z mod 10)) = String (digit (z mod 10)) "".
Proof.
  pose proof (Z.mod_pos_bound z 10 ltac:(lia)) as Hb.
  assert (H : z mod 10 = 0 \/ z mod 10 = 1 \/ z mod 10 = 2 \/ z mod 10 = 3
              \/ z mod 10 = 4 \/ z mod 10 = 5 \/ z mod 10 = 6 \/ z mod 10 = 7
              \/ z mod 10 = 8 \/ z mod 10 = 9) by lia.
  repeat (destruct H as [H|H]; [rewrite H; repeat split; reflexivity|]).
  rewrite H. repeat split; reflexivity.
Qed.

Lemma digit_not_T z : Ascii.eqb (digit (z mod 10)) "T" = false.
Proof. apply digit_props. Qed.

Lemma digit_is_digit z : is_digit (digit (z mod 10)) = true.
Proof. apply digit_props. Qed.

Lemma digit_unescaped z :
  json_escape (digit (z mod 10)) = String (digit (z mod 10)) "".
Proof. apply digit_props. Qed.

(** The date has the form [YYYY-MM-DD] whatever the numbers. *)
Lemma YYYY_MM_DD_form date : date_form (YYYY_MM_DD date) = true.
Proof.
  destruct date as [[y m] d]. unfold YYYY_MM_DD, pad.
  cbn [pad_digits String.append date_form forallb].
  rewrite !digit_is_digit. reflexivity.
Qed.

Lemma YYYY_MM_DD_unescaped date :
  json_escape_all (YYYY_MM_DD date) = YYYY_MM_DD date.
Proof.
  destruct date as [[y m] d]. unfold YYYY_MM_DD, pad.
  cbn [pad_digits String.append json_escape_all].
  rewrite !digit_unescaped. reflexivity.
Qed.

(** While the year has four digits, the text before the [T] of
    [toISOString] is the UTC date in the form [YYYY-MM-DD]. *)
Lemma today_form now :
  0 <= fst (fst (utc_date now)) <= 9999 ->
  today now = YYYY_MM_DD (utc_date now).
Proof.
  unfold today, toISOString, utc_date, YYYY_MM_DD.
  destruct (civil_from_days (now / msPerDay)) as [[y m] d]. cbn [fst].
  intros Hy.
  replace ((0 <=? y) && (y <=? 9999))%Z with true
    by (symmetry; apply andb_true_iff; split; apply Z.leb_le; lia).
  unfold pad. cbn [pad_digits String.append split_first].
  repeat (rewrite digit_not_T; cbn [split_first Ascii.eqb Bool.eqb andb]).
  reflexivity.
Qed.

(** The UTC date of a clock between the years 0 and 10000. *)
Lemma utc_date_correct now :
  year_0 <= now < year_10000 ->
  let '(y, m, d) := utc_date now in
  0 <= y <= 9999 /\
  valid_date y m d = true /\
  day_number y m d = now / msPerDay.
Proof.
  intros Hnow. unfold utc_date.
  assert (Hday : -719528 <= now / msPerDay < 2932897).
  { unfold year_0, year_10000, msPerDay in *. Z.div_mod_to_equations. lia. }
  pose proof (year_of_day _ Hday) as Hy.
  pose proof (civil_from_days_correct (now / msPerDay)) as Hc.
  destruct (civil_from_days (now / msPerDay)) as [[y m] d].
  cbn [fst] in Hy. tauto.
Qed.

End Invoice.

(** The call that the sales invoice scenario leads to. *)
Lemma widget_call now :
  tool_call now "sage_create_sales_invoice" widget_bag
  = Ok (call_post "/sales_invoices"
         (VObj [("sales_invoice",
           VObj [("contact_id", VStr "C1");
                 ("date", VStr (today now));
                 ("due_date", VUndefined);
                 ("reference", VUndefined);
                 ("notes", VUndefined);
                 ("invoice_lines",
                  VArr [VObj [("description", VStr "Widget");
                              ("quantity", VNum 2);
                              ("unit_price", VNum (999 # 100));
                              ("tax_rate_id", VUndefined);
                              ("ledger_account_id", VUndefined)]])])])).
Proof. reflexivity. Qed.

Lemma QuoteJSONString_plain s :
  json_escape_all s = s -> QuoteJSONString s = dquote ++ s ++ dquote.
Proof. unfold QuoteJSONString. now intros ->. Qed.

(** The text of the body on the wire. *)
Lemma widget_stringify date :
  JSON_stringify
    (VObj [("sales_invoice",
      VObj [("contact_id", VStr "C1");
            ("date", VStr (YYYY_MM_DD date));
            ("due_date", VUndefined);
            ("reference", VUndefined);
            ("notes", VUndefined);
            ("invoice_lines",
             VArr [VObj [("description", VStr "Widget");
                         ("quantity", VNum 2);
                         ("unit_price", VNum (999 # 100));
                         ("tax_rate_id", VUndefined);
                         ("ledger_account_id", VUndefined)]])])])
  = Some (widget_text (YYYY_MM_DD date)).
Proof.
  unfold JSON_stringify. cbn [SerializeJSONProperty].
  rewrite (QuoteJSONString_plain (YYYY_MM_DD date))
    by apply YYYY_MM_DD_unescaped.
  destruct date as [[y m] d]. vm_compute. reflexivity.
Qed.

(* ================================================================== *)
(** ** The claims *)
(* ================================================================== *)

(** C1.  A call whose first response has status 401, whose refresh then
    returns normally and whose reissued request gets a 2xx response, returns
    what decoding the body of that second response gives ([json r2]); during
    the call exactly two requests went to the resource endpoint and exactly
    one to the token endpoint. *)
Theorem C1_refresh_then_retry :
  forall (net : Network) (st st1 : State) endpoint m payload (r1 r2 : Response),
    let first := resource_request (bindings st) endpoint m payload in
    let retry := resource_request (bindings st1) endpoint m payload in
    truthy (currentAccessToken (bindings st)) = true ->
    net (sent st) first = Ok r1 ->
    status r1 = 401 ->
    refreshAccessToken net (push st first) = (Ok tt, st1) ->
    net (sent st1) retry = Ok r2 ->
    ok r2 = true ->
    sageRequest net endpoint m payload st = (json r2, push st1 retry) /\
    issued st (push st1 retry) = [first; token_request (bindings st); retry] /\
    count (to_resource_endpoint (bindings st)) (issued st (push st1 retry)) = 2%nat /\
    count to_token_endpoint (issued st (push st1 retry)) = 1%nat.
Proof.
  intros net st st1 endpoint m payload r1 r2 first retry Htok H1 H401 Href H2 Hok.
  assert (Hcall : sageRequest net endpoint m payload st = (json r2, push st1 retry)).
  { rewrite sageRequest_first by assumption. cbn zeta. fold first.
    rewrite H1, H401. cbn [Z.eqb Pos.eqb]. rewrite Href. fold retry.
    rewrite H2, Hok. reflexivity. }
  destruct (refresh_success _ _ _ Href) as (_ & rt & data & tok & _ & _ & _ & _ & Hst1).
  cbn [bindings sent push] in Hst1.
  assert (Hiss : issued st (push st1 retry)
                 = [first; token_request (bindings st); retry]).
  { apply issued_app. rewrite Hst1. cbn [sent push].
    rewrite <- !app_assoc. reflexivity. }
  split; [exact Hcall|]. split; [exact Hiss|].
  rewrite Hiss. unfold count. cbn [filter]. subst first retry.
  autorewrite with endpoints.
  rewrite (resource_to_resource (bindings st) (bindings st))
    by auto with sage.
  rewrite (resource_to_resource (bindings st) (bindings st1))
    by (rewrite Hst1; cbn [bindings]; auto with sage).
  split; reflexivity.
Qed.

(** C1 on a run: a stale token, a token endpoint that hands out a fresh one,
    and a service that accepts it. *)
Lemma C1_refresh_then_retry_witness :
  exists st2,
    sageRequest (Scenario.service "fresh" Scenario.fresh_token Scenario.business_ok)
      "/business" GET VUndefined (Scenario.start Scenario.configured)
    = (Ok Scenario.business, st2) /\
    count (to_resource_endpoint Scenario.configured) (sent st2) = 2%nat /\
    count to_token_endpoint (sent st2) = 1%nat.
Proof.
  destruct (C1_refresh_then_retry
              (Scenario.service "fresh" Scenario.fresh_token Scenario.business_ok)
              (Scenario.start Scenario.configured)
              {| bindings := set_currentAccessToken Scenario.configured (VStr "fresh");
                 sent := [resource_request Scenario.configured "/business" GET VUndefined;
                          token_request Scenario.configured];
                 refreshes := 1 |}
              "/business" GET VUndefined Scenario.unauthorized Scenario.business_ok
              eq_refl eq_refl eq_refl eq_refl eq_refl eq_refl)
    as (Hcall & _ & Hres & Htok).
  eexists. split; [exact Hcall|]. split; [exact Hres | exact Htok].
Defined.

(** C2.  One call enters the refresh procedure at most once, sends at most
    one request to the token endpoint and at most two to the resource
    endpoint.  In particular, when the reissued request is answered 401 too,
    the call throws the error of a failed retry: after the one refresh and
    the two requests nothing more is sent. *)
Theorem C2_at_most_one_refresh :
  forall (net : Network) endpoint m payload (st : State),
    let st' := snd (sageRequest net endpoint m payload st) in
    (refreshes st' <= S (refreshes st))%nat /\
    (count to_token_endpoint (issued st st') <= 1)%nat /\
    (count (to_resource_endpoint (bindings st)) (issued st st') <= 2)%nat /\
    forall (st1 : State) (r1 r2 : Response),
      let first := resource_request (bindings st) endpoint m payload in
      let retry := resource_request (bindings st1) endpoint m payload in
      truthy (currentAccessToken (bindings st)) = true ->
      net (sent st) first = Ok r1 ->
      status r1 = 401 ->
      refreshAccessToken net (push st first) = (Ok tt, st1) ->
      net (sent st1) retry = Ok r2 ->
      status r2 = 401 ->
      sageRequest net endpoint m payload st
      = (Throw (Error (ApiError_on_retry r2)), push st1 retry) /\
      refreshes (push st1 retry) = S (refreshes st) /\
      issued st (push st1 retry) = [first; token_request (bindings st); retry].
Proof.
  intros net endpoint m payload st st'.
  destruct (sageRequest net endpoint m payload st) as [res st0] eqn:Hreq.
  destruct (sageRequest_effect _ _ _ _ _ _ _ Hreq)
    as (_ & Hn & new & Hs & _ & Ht & Hr).
  subst st'. cbn [snd]. rewrite (issued_app _ _ _ Hs).
  split; [exact Hn|]. split; [exact Ht|]. split; [exact Hr|].
  intros st1 r1 r2. cbn zeta.
  set (first := resource_request (bindings st) endpoint m payload).
  set (retry := resource_request (bindings st1) endpoint m payload).
  intros Htok H1 H401 Href H2 H401'.
  rewrite sageRequest_first in Hreq by assumption. cbn zeta in Hreq.
  fold first in Hreq. rewrite H1, H401 in Hreq. cbn [Z.eqb Pos.eqb] in Hreq.
  rewrite Href in Hreq. fold retry in Hreq. rewrite H2 in Hreq.
  assert (Hnok : ok r2 = false) by (unfold ok; rewrite H401'; reflexivity).
  rewrite Hnok in Hreq. split; [now rewrite Hreq|].
  destruct (refresh_success _ _ _ Href) as (_ & rt & data & tok & _ & _ & _ & _ & Hst1).
  cbn [bindings sent refreshes push] in Hst1. split.
  - rewrite Hst1. reflexivity.
  - apply issued_app. rewrite Hst1. cbn [sent push].
    rewrite <- !app_assoc. reflexivity.
Qed.

(** C2 on a run: the service rejects the fresh token as well. *)
Lemma C2_at_most_one_refresh_witness :
  exists st2,
    sageRequest Scenario.always_unauthorized "/business" GET VUndefined
      (Scenario.start Scenario.configured)
    = (Throw (Error "Sage API error: 401 Unauthorized"), st2) /\
    refreshes st2 = 1%nat /\ length (sent st2) = 3%nat.
Proof.
  destruct (C2_at_most_one_refresh Scenario.always_unauthorized
              "/business" GET VUndefined (Scenario.start Scenario.configured))
    as (_ & _ & _ & H).
  destruct (H {| bindings := set_currentAccessToken Scenario.configured (VStr "fresh");
                 sent := [resource_request Scenario.configured "/business" GET VUndefined;
                          token_request Scenario.configured];
                 refreshes := 1 |}
              Scenario.unauthorized Scenario.unauthorized
              eq_refl eq_refl eq_refl eq_refl eq_refl eq_refl)
    as (Hcall & Hn & _).
  eexists. split; [exact Hcall|]. split; [exact Hn | reflexivity].
Defined.

(** C3.  When the first response of a tool invocation is 401 and the refresh
    cannot be attempted (a credential is the empty string) or the token
    endpoint answers it with a status that is not 2xx, the invocation yields
    the error-flagged result of that refresh failure, and the only request
    sent to the resource endpoint is the first one. *)
Theorem C3_refresh_failure :
  forall (net : Network) now name args (c : Call) (st : State) (r1 : Response),
    let first := resource_request (bindings st) (endpoint c) (verb c) (payload c) in
    tool_call now name args = Ok c ->
    truthy (currentAccessToken (bindings st)) = true ->
    net (sent st) first = Ok r1 ->
    status r1 = 401 ->
    (credentials_missing (bindings st) = true ->
     let '(result, st') := CallTool net now name args st in
     result = error_result RefreshError_not_attempted /\
     issued st st' = [first] /\
     bindings st' = bindings st) /\
    (forall rt : Response,
       credentials_missing (bindings st) = false ->
       net (sent st ++ [first])%list (token_request (bindings st)) = Ok rt ->
       ok rt = false ->
       let '(result, st') := CallTool net now name args st in
       result = error_result (RefreshError_rejected rt) /\
       issued st st' = [first; token_request (bindings st)] /\
       filter (to_resource_endpoint (bindings st)) (issued st st') = [first] /\
       bindings st' = bindings st).
Proof.
  intros net now name args c st r1 first Hcall Htok H1 H401.
  rewrite CallTool_unfold, Hcall.
  rewrite sageRequest_first by assumption. cbn zeta. fold first.
  rewrite H1, H401. cbn [Z.eqb Pos.eqb]. split.
  - intros Hmiss.
    rewrite refresh_not_attempted by exact Hmiss. cbn [push bindings sent refreshes].
    split; [reflexivity|]. split; [|reflexivity].
    apply issued_app. reflexivity.
  - intros rt Hcred Hnet Hnok.
    rewrite (refresh_rejected net (push st first) rt) by assumption.
    cbn [push bindings sent refreshes message].
    assert (Hiss : issued st
              {| bindings := bindings st;
                 sent := ((sent st ++ [first]) ++ [token_request (bindings st)])%list;
                 refreshes := S (refreshes st) |}
            = [first; token_request (bindings st)]).
    { apply issued_app. cbn [sent]. rewrite <- app_assoc. reflexivity. }
    split; [reflexivity|]. split; [exact Hiss|]. split; [|reflexivity].
    rewrite Hiss. cbn [filter]. subst first.
    autorewrite with endpoints.
    rewrite resource_to_resource by auto with sage. reflexivity.
Qed.

(** C3 on two runs: no refresh token in the environment, and a token
    endpoint that answers 400. *)
Lemma C3_refresh_failure_witness :
  (exists st',
     CallTool (Scenario.service "fresh" Scenario.fresh_token Scenario.business_ok)
       0 "sage_get_business" (VObj []) (Scenario.start Scenario.token_only)
     = (error_result RefreshError_not_attempted, st') /\
     length (sent st') = 1%nat) /\
  (exists st',
     CallTool (Scenario.service "fresh" Scenario.bad_request Scenario.business_ok)
       0 "sage_get_business" (VObj []) (Scenario.start Scenario.configured)
     = (error_result "Token refresh failed: 400 Bad Request", st') /\
     length (sent st') = 2%nat).
Proof.
  split.
  - destruct (C3_refresh_failure
                (Scenario.service "fresh" Scenario.fresh_token Scenario.business_ok)
                0 "sage_get_business" (VObj []) (call_get "/business")
                (Scenario.start Scenario.token_only) Scenario.unauthorized
                eq_refl eq_refl eq_refl eq_refl) as (H & _).
    specialize (H eq_refl).
    destruct (CallTool _ _ _ _ _) as [result st'].
    destruct H as (-> & Hiss & _).
    exists st'. split; [reflexivity|].
    change (sent st') with (issued (Scenario.start Scenario.token_only) st').
    rewrite Hiss. reflexivity.
  - destruct (C3_refresh_failure
                (Scenario.service "fresh" Scenario.bad_request Scenario.business_ok)
                0 "sage_get_business" (VObj []) (call_get "/business")
                (Scenario.start Scenario.configured) Scenario.unauthorized
                eq_refl eq_refl eq_refl eq_refl) as (_ & H).
    specialize (H Scenario.bad_request eq_refl eq_refl eq_refl).
    destruct (CallTool _ _ _ _ _) as [result st'].
    destruct H as (-> & Hiss & _).
    exists st'. split; [reflexivity|].
    change (sent st') with (issued (Scenario.start Scenario.configured) st').
    rewrite Hiss. reflexivity.
Defined.

(** C4 as stated fails where the case of the tool throws before the gateway
    is reached: an unregistered name, or a create-invoice call without
    [line_items].  The result is error-flagged, its text is not the message
    of the missing access token. *)
Lemma C4_counterexample :
  let st := Scenario.start Scenario.unconfigured in
  truthy (currentAccessToken (bindings st)) = false /\
  (let result := fst (CallTool Scenario.offline 0 "sage_frobnicate" (VObj []) st) in
   content_text result = Some "Error: Unknown tool: sage_frobnicate" /\
   contains AuthError "Error: Unknown tool: sage_frobnicate" = false) /\
  (let result :=
     fst (CallTool Scenario.offline 0 "sage_create_sales_invoice"
            (VObj [("contact_id", VStr "C1")]) st) in
   content_text result
   = Some "Error: Cannot read properties of undefined (reading 'map')" /\
   contains AuthError "Error: Cannot read properties of undefined (reading 'map')"
   = false).
Proof. repeat split. Qed.

(** C4, amended.  While [currentAccessToken] is falsy (the empty string of an
    unconfigured process), every tool invocation yields an error-flagged
    result and leaves the state as it was, so that no request is sent; and
    whenever the case of the tool gets as far as calling the gateway, the
    text of the result is the message of the missing access token. *)
Theorem C4_no_token :
  forall (net : Network) now name args (st : State),
    truthy (currentAccessToken (bindings st)) = false ->
    let '(result, st') := CallTool net now name args st in
    isError result = true /\
    st' = st /\
    issued st st' = [] /\
    forall c, tool_call now name args = Ok c ->
              result = error_result AuthError.
Proof.
  intros net now name args st Htok. rewrite CallTool_unfold.
  assert (Hiss : issued st st = []) by (apply issued_app; now rewrite app_nil_r).
  destruct (tool_call now name args) as [c|e].
  - rewrite sageRequest_no_token by assumption. cbn [message]. auto.
  - repeat split; auto. discriminate.
Qed.

(** C4 on a run: a registered tool in an unconfigured process. *)
Lemma C4_no_token_witness :
  CallTool Scenario.offline 0 "sage_list_contacts" (VObj [("search", VStr "acme")])
    (Scenario.start Scenario.unconfigured)
  = ({| content_text :=
          Some "Error: No access token configured. Please set SAGE_ACCESS_TOKEN in environment.";
        isError := true |}, Scenario.start Scenario.unconfigured).
Proof.
  pose proof (C4_no_token Scenario.offline 0 "sage_list_contacts"
                (VObj [("search", VStr "acme")])
                (Scenario.start Scenario.unconfigured) eq_refl) as H.
  destruct (CallTool _ _ _ _ _) as [result st'].
  destruct H as (_ & -> & _ & H).
  now rewrite (H (call_get "/contacts?search=acme") eq_refl).
Defined.

(** C5 as stated fails for [sage_create_contact]: with nothing but a name in
    the bag, the body carries an empty array under [contact_type_ids] and an
    empty object under [main_address]. *)
Lemma C5_counterexample :
  let bag := VObj [("name", VStr "Acme Ltd")] in
  let c := call_post "/contacts"
             (VObj [("contact",
               VObj [("name", VStr "Acme Ltd");
                     ("contact_type_ids", VArr []);
                     ("reference", VUndefined);
                     ("main_address",
                      VObj [("address_line_1", VUndefined); ("city", VUndefined);
                            ("postal_code", VUndefined);
                            ("country_id", VUndefined)]);
                     ("email", VUndefined);
                     ("telephone", VUndefined)])]) in
  In "contact_type_ids"
     (optional_fields
        (SObject [("name", SString); ("contact_type_ids", SArray SString);
                  ("reference", SString); ("email", SString);
                  ("telephone", SString); ("address_line_1", SString);
                  ("city", SString); ("postal_code", SString);
                  ("country_id", SString)] ["name"])) /\
  get bag "contact_type_ids" = Ok VUndefined /\
  tool_call 0 "sage_create_contact" bag = Ok c /\
  ~ vacant (place_of "sage_create_contact" "contact_type_ids") c /\
  at_path [Key "contact"; Key "contact_type_ids"] (json_tree (payload c))
  = Some (VArr []) /\
  at_path [Key "contact"; Key "main_address"] (json_tree (payload c))
  = Some (VObj []) /\
  JSON_stringify (payload c)
  = Some ("{" ++ QuoteJSONString "contact" ++ ":{"
          ++ QuoteJSONString "name" ++ ":" ++ QuoteJSONString "Acme Ltd" ++ ","
          ++ QuoteJSONString "contact_type_ids" ++ ":[],"
          ++ QuoteJSONString "main_address" ++ ":{}}}").
Proof.
  cbn zeta. repeat split; try reflexivity.
  - cbn. tauto.
  - cbn. discriminate.
Qed.

(** C5, amended.  For every tool and every bag, an optional field that the
    bag lacks has no query parameter and no key in the JSON body, with three
    exceptions that the code fills in: [contact_type_ids] of
    [sage_create_contact] (an empty array) and [date] of the two
    create-invoice tools (the current date).  The same holds of the optional
    fields of each line item.  Envelope objects such as [main_address] are
    sent whether or not a field inside them is there.  Every optional field
    does have the place spoken of: a bag that has it fills it.  The body is
    read as the document [JSON.stringify] writes, [json_tree], whose text is
    the text of the body. *)
Theorem C5_absent_stays_absent :
  (forall now (t : Tool) field params c,
     In t tools ->
     In field (optional_fields (inputSchema t)) ->
     defaulted (name t) field = false ->
     get params field = Ok VUndefined ->
     tool_call now (name t) params = Ok c ->
     vacant (place_of (name t) field) c) /\
  (forall now tool envelope params c items i item field,
     In (tool, envelope) [("sage_create_sales_invoice", "sales_invoice");
                          ("sage_create_purchase_invoice", "purchase_invoice")] ->
     In field (optional_fields line_item_schema) ->
     get params "line_items" = Ok (VArr items) ->
     nth_error items i = Some item ->
     get item field = Ok VUndefined ->
     tool_call now tool params = Ok c ->
     at_path [Key envelope; Key "invoice_lines"; Index i; Key field]
             (json_tree (payload c)) = None) /\
  places_filled = true /\
  (forall body, JSON_stringify (json_tree body) = JSON_stringify body).
Proof.
  split; [|split; [exact invoice_line_vacant|split; [reflexivity|]]].
  2:{ intros body. apply stringify_json_tree. }
  intros now t field params c Ht Hfield Hdef Hget Hcall.
  destruct (is_list_tool (name t)) eqn:Hlist.
  - apply (list_tool_vacant now t field params VUndefined c);
      auto using optional_is_field.
    now destruct (_ && _)%bool.
  - now apply (create_tool_vacant now t field params c).
Qed.

(** C5 on a bag: a product with a description and a sales price only. *)
Lemma C5_absent_stays_absent_witness :
  JSON_stringify
    (VObj [("product",
      VObj [("description", VStr "Widget");
            ("item_code", VUndefined);
            ("sales_ledger_account_id", VUndefined);
            ("purchase_ledger_account_id", VUndefined);
            ("sales_tax_rate_id", VUndefined);
            ("purchase_tax_rate_id", VUndefined);
            ("sales_prices", VArr [VObj [("price", VNum 5)]]);
            ("purchase_price", VUndefined)])])
  = Some ("{" ++ QuoteJSONString "product" ++ ":{"
          ++ QuoteJSONString "description" ++ ":" ++ QuoteJSONString "Widget" ++ ","
          ++ QuoteJSONString "sales_prices" ++ ":[{"
          ++ QuoteJSONString "price" ++ ":5}]}}") /\
  vacant (place_of "sage_create_product" "item_code")
    (call_post "/products"
      (VObj [("product",
        VObj [("description", VStr "Widget");
              ("item_code", VUndefined);
              ("sales_ledger_account_id", VUndefined);
              ("purchase_ledger_account_id", VUndefined);
              ("sales_tax_rate_id", VUndefined);
              ("purchase_tax_rate_id", VUndefined);
              ("sales_prices", VArr [VObj [("price", VNum 5)]]);
              ("purchase_price", VUndefined)])])).
Proof.
  split; [reflexivity|].
  refine (proj1 C5_absent_stays_absent 0
            {| name := "sage_create_product";
               inputSchema :=
                 SObject [("description", SString);
                          ("sales_ledger_account_id", SString);
                          ("purchase_ledger_account_id", SString);
                          ("sales_tax_rate_id", SString);
                          ("purchase_tax_rate_id", SString);
                          ("item_code", SString);
                          ("sales_price", SNumber); ("purchase_price", SNumber)]
                         ["description"] |}
            "item_code"
            (VObj [("description", VStr "Widget"); ("sales_price", VNum 5)])
            _ _ _ eq_refl eq_refl eq_refl).
  - cbn. tauto.
  - cbn. tauto.
Defined.

(** C6.  For a clock from the year 0 to the year 9999, invoking
    [sage_create_sales_invoice] with contact [C1], one line item (Widget, 2,
    9.99) and no date posts to [/sales_invoices] a body whose
    [sales_invoice.date] is the UTC date of the clock in the form
    [YYYY-MM-DD], and whose [invoice_lines] is the one entry with exactly
    [description], [quantity] and [unit_price]: no [tax_rate_id], no
    [ledger_account_id], on the wire as in the document. *)
Theorem C6_sales_invoice_today :
  forall now : Z,
    (year_0 <= now < year_10000)%Z ->
    let date := utc_date now in
    (let '(y, m, d) := date in
     (0 <= y <= 9999)%Z /\
     valid_date y m d = true /\
     day_number y m d = (now / msPerDay)%Z) /\
    date_form (YYYY_MM_DD date) = true /\
    exists c,
      tool_call now "sage_create_sales_invoice" widget_bag = Ok c /\
      endpoint c = "/sales_invoices" /\
      verb c = POST /\
      json_tree (payload c) = widget_body (YYYY_MM_DD date) /\
      JSON_stringify (payload c) = Some (widget_text (YYYY_MM_DD date)).
Proof.
  intros now Hnow date.
  pose proof (utc_date_correct now Hnow) as Hdate. fold date in Hdate.
  split; [exact Hdate|]. split; [apply YYYY_MM_DD_form|].
  assert (Htoday : today now = YYYY_MM_DD date).
  { apply today_form. fold date. destruct date as [[y m] d]. cbn [fst]. lia. }
  eexists. split; [apply widget_call|].
  cbn [endpoint verb payload call_post]. rewrite Htoday.
  split; [reflexivity|]. split; [reflexivity|]. split; [reflexivity|].
  apply widget_stringify.
Qed.

(** C6 on the evening of 2 November 2026. *)
Lemma C6_sales_invoice_today_witness :
  utc_date 1793654321123 = (2026, 11, 2)%Z /\
  exists c,
    tool_call 1793654321123 "sage_create_sales_invoice" widget_bag = Ok c /\
    json_tree (payload c) = widget_body "2026-11-02" /\
    JSON_stringify (payload c) = Some (widget_text "2026-11-02").
Proof.
  split; [reflexivity|].
  destruct (C6_sales_invoice_today 1793654321123
              ltac:(unfold year_0, year_10000; lia))
    as (_ & _ & c & Hcall & _ & _ & Htree & Htext).
  exists c. split; [exact Hcall|]. split; [exact Htree | exact Htext].
Defined.

(** A first response that is neither 2xx nor 401 is thrown with its status
    and the text of its body. *)
Lemma first_error_carries_body (net : Network) endpoint m payload st r :
  truthy (currentAccessToken (bindings st)) = true ->
  net (sent st) (resource_request (bindings st) endpoint m payload) = Ok r ->
  ok r = false ->
  status r <> 401 ->
  fst (sageRequest net endpoint m payload st)
  = Throw (Error ("Sage API error: " ++ Z_toString (status r) ++ " "
                  ++ statusText r ++ " - " ++ text r)).
Proof.
  intros Htok Hnet Hnok H401.
  rewrite sageRequest_first by assumption. cbn zeta. rewrite Hnet.
  apply Z.eqb_neq in H401. rewrite H401, Hnok. reflexivity.
Qed.

(** C7, where the code departs from it.  The first request is answered 401,
    the refresh succeeds, and the reissued request is answered 500 with the
    body [boom]: the error thrown names the status and the reason phrase, and
    nothing of the body. *)
Theorem C7_retry_error_without_body :
  let net := Scenario.service "fresh" Scenario.fresh_token Scenario.server_error in
  let outcome :=
    fst (sageRequest net "/business" GET VUndefined
           (Scenario.start Scenario.configured)) in
  outcome = Throw (Error "Sage API error: 500 Internal Server Error") /\
  text Scenario.server_error = "boom" /\
  contains "500" "Sage API error: 500 Internal Server Error" = true /\
  contains "boom" "Sage API error: 500 Internal Server Error" = false.
Proof. repeat split. Qed.

(** C8.  A run of the refresh procedure that returns normally replaces
    [currentAccessToken] and nothing else: refresh token, client id, client
    secret, region, API version and hence the base URL are as before.
    Whatever invocations the process serves afterwards, every request it
    sends to the token endpoint is the one built from the original refresh
    token and client credentials. *)
Theorem C8_refresh_frame :
  forall (net : Network) (st st' : State),
    refreshAccessToken net st = (Ok tt, st') ->
    (exists token, bindings st' = set_currentAccessToken (bindings st) token) /\
    same_constants (bindings st) (bindings st') /\
    BASE_URL (bindings st') = BASE_URL (bindings st) /\
    forall calls : list Invocation,
      let later := serve net calls st' in
      same_constants (bindings st) (bindings later) /\
      forall r, In r (issued st' later) -> to_token_endpoint r = true ->
        r = token_request (bindings st) /\
        body r = Some ("grant_type=refresh_token&refresh_token="
                       ++ urlencode (SAGE_REFRESH_TOKEN (bindings st))
                       ++ "&client_id=" ++ urlencode (SAGE_CLIENT_ID (bindings st))
                       ++ "&client_secret="
                       ++ urlencode (SAGE_CLIENT_SECRET (bindings st))).
Proof.
  intros net st st' Href.
  destruct (refresh_success _ _ _ Href) as (_ & rt & data & tok & _ & _ & _ & _ & Hst').
  assert (Hb : same_constants (bindings st) (bindings st'))
    by (rewrite Hst'; cbn [bindings]; auto with sage).
  split; [exists tok; now rewrite Hst'|]. split; [exact Hb|].
  split; [now apply same_constants_BASE_URL|].
  intros calls later.
  destruct (serve_effect net calls st') as (Hb' & new & Hs & Ho).
  fold later in Hb', Hs.
  split; [eauto using same_constants_trans|].
  intros r Hin Htoken. rewrite (issued_app _ _ _ Hs) in Hin.
  rewrite Forall_forall in Ho. specialize (Ho r Hin).
  apply (origin_weaken _ _ _ Hb) in Ho.
  rewrite (origin_token _ _ Ho Htoken).
  split; [reflexivity | apply token_request_body].
Qed.

(** C8 on a run: after a refresh, an invocation that is answered 401 makes
    the process refresh again, with the refresh token of the environment. *)
Lemma C8_refresh_frame_witness :
  let st := Scenario.start Scenario.configured in
  let st' := snd (refreshAccessToken Scenario.always_unauthorized st) in
  let later :=
    serve Scenario.always_unauthorized
      [{| at_time := 0; tool := "sage_get_business"; arguments := VObj [] |}] st' in
  currentAccessToken (bindings st') = VStr "fresh" /\
  SAGE_REFRESH_TOKEN (bindings later) = "refresh" /\
  filter to_token_endpoint (issued st' later) = [token_request Scenario.configured] /\
  body (token_request Scenario.configured)
  = Some "grant_type=refresh_token&refresh_token=refresh&client_id=client&client_secret=secret".
Proof.
  intros st st' later.
  destruct (C8_refresh_frame Scenario.always_unauthorized st st' eq_refl)
    as (_ & _ & _ & H).
  destruct (H [{| at_time := 0; tool := "sage_get_business"; arguments := VObj [] |}])
    as ((_ & _ & _ & Hr & _) & Hreq).
  split; [reflexivity|]. split; [exact Hr|]. split; [reflexivity|].
  exact (proj2 (Hreq (token_request Scenario.configured)
                     (or_intror (or_introl eq_refl)) eq_refl)).
Defined.

(** C9.  Invoking a name that is not in the tool list yields the
    error-flagged result whose text names the unknown tool, and leaves the
    state as it was: no request is sent. *)
Theorem C9_unknown_tool :
  forall (net : Network) now name args (st : State),
    ~ In name registered ->
    CallTool net now name args st
    = ({| content_text := Some ("Error: Unknown tool: " ++ name);
          isError := true |}, st) /\
    issued st (snd (CallTool net now name args st)) = [].
Proof.
  intros net now name args st Hout.
  rewrite CallTool_unfold, (tool_call_unknown _ _ _ Hout). cbn [snd message].
  split; [reflexivity|]. apply issued_app. now rewrite app_nil_r.
Qed.

(** C9 on a run. *)
Lemma C9_unknown_tool_witness :
  CallTool Scenario.offline 0 "sage_delete_everything" (VObj [])
    (Scenario.start Scenario.configured)
  = ({| content_text := Some "Error: Unknown tool: sage_delete_everything";
        isError := true |}, Scenario.start Scenario.configured).
Proof.
  refine (proj1 (C9_unknown_tool Scenario.offline 0 "sage_delete_everything"
                   (VObj []) (Scenario.start Scenario.configured) _)).
  cbn. intros H.
  repeat (destruct H as [H|H]; [discriminate H|]). exact H.
Defined.

(** C10.  In a list tool, an argument that is present with a falsy value
    (zero, the empty string, [false], [null]) leads to the very call that the
    bag without it leads to, and to no query parameter of its own; so for
    [sage_list_contacts] with [search] empty and [page] and [items_per_page]
    zero.  The one exception is [active] of [sage_list_products]: present and
    [false], it is sent as [active=false]. *)
Theorem C10_falsy_is_absent :
  (forall now (t : Tool) field props v,
     In t tools ->
     is_list_tool (name t) = true ->
     In field (fields (inputSchema t)) ->
     (name t, field) <> ("sage_list_products", "active") ->
     assoc field props = Some v ->
     truthy v = false ->
     tool_call now (name t) (VObj props)
     = tool_call now (name t) (VObj (without field props)) /\
     forall c, tool_call now (name t) (VObj props) = Ok c ->
               vacant (place_of (name t) field) c) /\
  (forall now,
     tool_call now "sage_list_contacts"
       (VObj [("search", VStr ""); ("page", VNum 0); ("items_per_page", VNum 0)])
     = Ok (call_get "/contacts")) /\
  (forall now props c,
     assoc "active" props = Some (VBool false) ->
     tool_call now "sage_list_products" (VObj props) = Ok c ->
     In ("active", "false") (query_pairs (endpoint c))).
Proof.
  split; [|split].
  - intros now t field props v Ht Hlist Hfield Hnot Hpresent Hfalsy.
    split; [eapply falsy_same_call; eassumption|].
    intros c Hcall.
    apply (list_tool_vacant now t field (VObj props) v c); try assumption.
    + cbn [get]. now rewrite (own_present _ _ _ Hpresent).
    + destruct (String.eqb_spec (name t) "sage_list_products") as [Hn|_];
        [|exact Hfalsy].
      destruct (String.eqb_spec field "active") as [Hf|_]; [|exact Hfalsy].
      exfalso. apply Hnot. now rewrite Hn, Hf.
  - reflexivity.
  - intros now props c Hactive Hcall.
    apply own_present in Hactive.
    unfold tool_call, append_if in Hcall.
    cbn [String.eqb Ascii.eqb Bool.eqb andb get bindC] in Hcall.
    rewrite Hactive in Hcall. injection Hcall as <-.
    cbn [endpoint call_get]. rewrite query_pairs_with_query by reflexivity.
    destruct (truthy (own props "search")), (truthy (own props "page"));
      unfold append; rewrite ?map_app, ?in_app_iff; cbn; auto.
Qed.

(** C10 on a bag: a zero page next to a search term. *)
Lemma C10_falsy_is_absent_witness :
  tool_call 0 "sage_list_sales_invoices"
    (VObj [("contact_id", VStr "C1"); ("page", VNum 0)])
  = tool_call 0 "sage_list_sales_invoices" (VObj [("contact_id", VStr "C1")]) /\
  In ("active", "false")
     (query_pairs (endpoint (call_get "/products?active=false"))).
Proof.
  destruct C10_falsy_is_absent as (Hfalsy & _ & Hactive).
  split.
  - refine (proj1 (Hfalsy 0
             {| name := "sage_list_sales_invoices";
                inputSchema :=
                  SObject [("status", SEnum ["draft"; "sent"; "paid"; "part_paid";
                                             "overdue"; "void"]);
                           ("contact_id", SString); ("from_date", SString);
                           ("to_date", SString); ("page", SNumber);
                           ("items_per_page", SNumber)] [] |}
             "page" [("contact_id", VStr "C1"); ("page", VNum 0)] (VNum 0)
             _ eq_refl _ _ eq_refl eq_refl)).
    + cbn. tauto.
    + cbn. tauto.
    + discriminate.
  - exact (Hactive 0 [("active", VBool false)] _ eq_refl eq_refl).
Defined.

(* ================================================================== *)
(** ** Further properties of the gateway *)
(* ================================================================== *)

Import Terms.

Section Traffic.

Variable net : Network.

Local Open Scope nat_scope.

(** A request of the process goes to exactly one of the two endpoints. *)
Lemma origin_one_endpoint b r :
  origin b r -> to_token_endpoint r = negb (to_resource_endpoint b r).
Proof.
  intros [|b' e m p Hb].
  - now rewrite token_to_token, token_not_resource.
  - now rewrite resource_not_token, resource_to_resource.
Qed.

Lemma count_app {A} (f : A -> bool) l l' :
  count f (l ++ l') = count f l + count f l'.
Proof. unfold count. now rewrite filter_app, length_app. Qed.

Lemma count_split {A} (f g : A -> bool) l :
  Forall (fun x => f x = negb (g x)) l ->
  length l = count f l + count g l.
Proof.
  unfold count. induction 1 as [|x l Hx _ IH]; [reflexivity|].
  cbn [filter length]. rewrite Hx. destruct (g x); cbn [negb length]; lia.
Qed.

Lemma same_constants_resource b b' r :
  same_constants b b' -> to_resource_endpoint b' r = to_resource_endpoint b r.
Proof.
  intros H. unfold to_resource_endpoint.
  now rewrite (same_constants_BASE_URL _ _ H).
Qed.

Lemma same_constants_count b b' l :
  same_constants b b' ->
  count (to_resource_endpoint b') l = count (to_resource_endpoint b) l.
Proof.
  intros H. unfold count. f_equal. apply filter_ext.
  intros r. now apply same_constants_resource.
Qed.

(** One invocation: at most one refresh, one token request and two resource
    requests. *)
Lemma CallTool_budget now name args st :
  let st' := snd (CallTool net now name args st) in
  same_constants (bindings st) (bindings st') /\
  refreshes st' <= S (refreshes st) /\
  exists new,
    sent st' = (sent st ++ new)%list /\
    Forall (origin (bindings st)) new /\
    count to_token_endpoint new <= 1 /\
    count (to_resource_endpoint (bindings st)) new <= 2.
Proof.
  rewrite CallTool_unfold.
  destruct (tool_call now name args) as [c|e]; cbn zeta.
  - destruct (sageRequest net _ _ _ st) as [res st'] eqn:Hreq.
    pose proof (sageRequest_effect _ _ _ _ _ _ _ Hreq) as H.
    now destruct res.
  - cbn [snd]. split; [apply same_constants_refl|]. split; [lia|].
    exists []. rewrite app_nil_r. repeat split; auto; cbn; lia.
Qed.


(** The process over a sequence of invocations. *)
Lemma serve_budget calls st :
  refreshes (serve net calls st) <= refreshes st + length calls /\
  exists new,
    sent (serve net calls st) = (sent st ++ new)%list /\
    Forall (origin (bindings st)) new /\
    count to_token_endpoint new <= length calls /\
    count (to_resource_endpoint (bindings st)) new <= 2 * length calls.
Proof.
  revert st. induction calls as [|c calls IH]; intros st.
  - cbn. split; [lia|]. exists []. rewrite app_nil_r. repeat split; auto.
  - change (serve net (c :: calls) st)
      with (serve net calls (snd (CallTool net (at_time c) (tool c) (arguments c) st))).
    destruct (CallTool_budget (at_time c) (tool c) (arguments c) st)
      as (Hb & Hn & new & Hs & Ho & Ht & Hr).
    destruct (IH (snd (CallTool net (at_time c) (tool c) (arguments c) st)))
      as (Hn' & new' & Hs' & Ho' & Ht' & Hr').
    rewrite (same_constants_count _ _ _ Hb) in Hr'.
    cbn [length]. split; [lia|].
    exists (new ++ new')%list. split; [|split; [|split]].
    + rewrite Hs', Hs. now rewrite app_assoc.
    + apply Forall_app. split; [exact Ho|].
      eapply Forall_impl; [|exact Ho']. intros r. now apply origin_weaken.
    + rewrite count_app. lia.
    + rewrite count_app. lia.
Qed.

(** The state after a refresh that returned normally. *)
Lemma refresh_accepts st rt data tok :
  credentials_missing (bindings st) = false ->
  net (sent st) (token_request (bindings st)) = Ok rt ->
  ok rt = true -> json rt = Ok data -> get data "access_token" = Ok tok ->
  refreshAccessToken net st =
    (Ok tt, {| bindings := set_currentAccessToken (bindings st) tok;
               sent := (sent st ++ [token_request (bindings st)])%list;
               refreshes := S (refreshes st) |}).
Proof.
  unfold credentials_missing. intros Hc Hn Hok Hj Hg.
  unfold refreshAccessToken, bind, read, fetch, lift, throw, enter_refresh,
    assign_currentAccessToken.
  cbn [bindings sent refreshes]. rewrite Hc. cbn [sent]. rewrite Hn. cbn [push sent].
  rewrite Hok. cbn [negb]. rewrite Hj, Hg. reflexivity.
Qed.

(** A refresh that throws leaves the bindings as they were. *)
Lemma refresh_throws st e st' :
  refreshAccessToken net st = (Throw e, st') -> bindings st' = bindings st.
Proof.
  unfold refreshAccessToken, bind, read, fetch, lift, throw, enter_refresh,
    assign_currentAccessToken.
  cbn [bindings sent refreshes].
  destruct (_ || _); [now intros [= _ <-]|].
  destruct (net _ _) as [r|x]; [|now intros [= _ <-]].
  destruct (negb (ok r)); [now intros [= _ <-]|].
  destruct (json r) as [data|x]; [|now intros [= _ <-]].
  destruct (get data _) as [tok|x]; [discriminate | now intros [= _ <-]].
Qed.

End Traffic.


(** X1.  Over any sequence of invocations and any network, the process sends
    at most one token request and two resource requests per invocation,
    enters the refresh procedure at most once per invocation, and every
    request it sends goes to one of the two endpoints. *)
Theorem X1_requests_per_invocation :
  forall (net : Network) (calls : list Invocation) (st : State),
    let st' := serve net calls st in
    let new := issued st st' in
    (count to_token_endpoint new <= length calls)%nat /\
    (count (to_resource_endpoint (bindings st)) new <= 2 * length calls)%nat /\
    (length new = count to_token_endpoint new
                  + count (to_resource_endpoint (bindings st)) new)%nat /\
    (refreshes st' <= refreshes st + length calls)%nat.
Proof.
  intros net calls st st' new.
  destruct (serve_budget net calls st) as (Hn & l & Hs & Ho & Ht & Hr).
  subst new st'. rewrite (issued_app _ _ _ Hs).
  split; [exact Ht|]. split; [exact Hr|]. split; [|exact Hn].
  apply count_split. eapply Forall_impl; [|exact Ho].
  intros r. apply origin_one_endpoint.
Qed.

(** X2.  The refresh procedure is entered exactly when the access token is
    truthy and the first response has status 401.  A call that does not
    enter it leaves the bindings as they were, sends no token request and
    sends at most one request. *)
Theorem X2_refresh_only_on_401 :
  forall (net : Network) endpoint m payload (st : State),
    let first := resource_request (bindings st) endpoint m payload in
    let st' := snd (sageRequest net endpoint m payload st) in
    (refreshes st' = S (refreshes st) <->
       truthy (currentAccessToken (bindings st)) = true /\
       exists r1, net (sent st) first = Ok r1 /\ status r1 = 401) /\
    (refreshes st' <> S (refreshes st) ->
       refreshes st' = refreshes st /\
       bindings st' = bindings st /\
       (issued st st' = [] \/ issued st st' = [first])).
Proof.
  intros net endpoint m payload st first st'.
  assert (Hnil : issued st st = []) by (apply issued_app; now rewrite app_nil_r).
  assert (Hone : issued st (push st first) = [first]) by now apply issued_app.
  destruct (truthy (currentAccessToken (bindings st))) eqn:Htok.
  2:{ subst st'. rewrite sageRequest_no_token by assumption. cbn [snd].
      split; [split; [intros H; exfalso; lia | intros [H _]; discriminate H]|].
      auto. }
  subst st'. rewrite sageRequest_first by assumption. cbn zeta. fold first.
  destruct (net (sent st) first) as [r|e] eqn:Hnet.
  2:{ cbn [snd push refreshes bindings].
      split; [split; [intros H; exfalso; lia | intros [_ (r1 & H & _)]; discriminate H]|].
      auto. }
  destruct (status r =? 401)%Z eqn:H401.
  - apply Z.eqb_eq in H401.
    destruct (refreshAccessToken net (push st first)) as [[[]|e] st1] eqn:Href.
    + destruct (refresh_effect _ _ _ _ Href) as (Hn & _ & _).
      cbn [push refreshes] in Hn.
      assert (Hsnd : refreshes
                (snd match net (sent st1)
                             (resource_request (bindings st1) endpoint m payload) with
                     | Ok retryResponse =>
                         if ok retryResponse
                         then (json retryResponse,
                               push st1 (resource_request (bindings st1) endpoint m payload))
                         else (Throw (Error (ApiError_on_retry retryResponse)),
                               push st1 (resource_request (bindings st1) endpoint m payload))
                     | Throw e =>
                         (Throw e,
                          push st1 (resource_request (bindings st1) endpoint m payload))
                     end) = S (refreshes st)).
      { destruct (net (sent st1) _) as [r2|e]; [destruct (ok r2)|]; exact Hn. }
      split; [split; [eauto | intros _; exact Hsnd]|].
      intros H. contradiction.
    + destruct (refresh_effect _ _ _ _ Href) as (Hn & _ & _).
      cbn [push refreshes snd] in Hn |- *.
      split; [split; [eauto | intros _; exact Hn]|].
      intros H. contradiction.
  - assert (Hsnd : snd (if ok r then (json r, push st first)
                        else (Throw (Error (ApiError_on_first r)), push st first))
                   = push st first) by now destruct (ok r).
    rewrite Hsnd. cbn [push refreshes bindings].
    split; [split; [intros H; exfalso; lia|]|auto].
    intros [_ (r1 & [= <-] & H)]. apply Z.eqb_neq in H401. contradiction.
Qed.

Section Outcomes.

Variable net : Network.

Lemma sageRequest_path endpoint m payload st :
  truthy (currentAccessToken (bindings st)) = true ->
  run net endpoint m payload st
    (fst (sageRequest net endpoint m payload st))
    (snd (sageRequest net endpoint m payload st)).
Proof.
  intros Htok. rewrite sageRequest_first by assumption. cbn zeta.
  destruct (net (sent st) _) as [r|x] eqn:Hnet.
  2:{ now apply first_rejected. }
  destruct (status r =? 401)%Z eqn:H401.
  - apply Z.eqb_eq in H401.
    destruct (refreshAccessToken net _) as [[[]|x] st1] eqn:Href.
    + pose proof (retried net endpoint m payload st r st1 Hnet H401 Href) as H.
      cbn zeta in H.
      destruct (net (sent st1) _) as [r2|x]; [destruct (ok r2)|]; exact H.
    + now apply (refresh_failed net endpoint m payload st r x st1).
  - apply Z.eqb_neq in H401.
    pose proof (first_answered net endpoint m payload st r Hnet H401) as H.
    cbn zeta in H. destruct (ok r); exact H.
Qed.

End Outcomes.

(** X3.  The handler reports success only for an answered request: when the
    result is not error-flagged, the last request sent was the request of the
    tool to the resource endpoint, the network answered it with a 2xx
    response whose body decoded as JSON, and the text of the result is that
    value printed with an indentation of two. *)
Theorem X3_success_is_a_2xx_answer :
  forall (net : Network) now name args (st : State),
    let result := fst (CallTool net now name args st) in
    let st' := snd (CallTool net now name args st) in
    isError result = false ->
    exists c before req r v,
      tool_call now name args = Ok c /\
      sent st' = (before ++ [req])%list /\
      url req = BASE_URL (bindings st) ++ endpoint c /\
      method req = verb c /\
      net before req = Ok r /\ ok r = true /\ json r = Ok v /\
      content_text result = JSON_stringify_2 v.
Proof.
  intros net now name args st result st'. subst result st'.
  rewrite CallTool_unfold.
  destruct (tool_call now name args) as [c|e]; [|discriminate].
  destruct (truthy (currentAccessToken (bindings st))) eqn:Htok.
  2:{ rewrite sageRequest_no_token by assumption. discriminate. }
  pose proof (sageRequest_path net (endpoint c) (verb c) (payload c) st Htok) as Hp.
  destruct (sageRequest net _ _ _ st) as [res st']. cbn [fst snd] in Hp.
  destruct Hp as [x first Hnet | r first Hnet H401 | r x st1 first Hnet H401 Href
                 | r st1 first retry Hnet H401 Href].
  - discriminate.
  - destruct (ok r) eqn:Hok; [|discriminate].
    destruct (json r) as [v|x] eqn:Hjson; [|discriminate].
    intros _. exists c, (sent st), first, r, v. cbn [fst snd push sent].
    repeat split; assumption.
  - discriminate.
  - destruct (refresh_success _ _ _ Href) as (_ & rt & data & tok & _ & _ & _ & _ & Hst1).
    destruct (net (sent st1) retry) as [r2|x] eqn:Hnet2; [|discriminate].
    destruct (ok r2) eqn:Hok; [|discriminate].
    destruct (json r2) as [v|x] eqn:Hjson; [|discriminate].
    intros _. exists c, (sent st1), retry, r2, v. cbn [fst snd push sent].
    repeat split; try assumption.
    subst retry. rewrite Hst1. reflexivity.
Qed.

(** On a run: a service that accepts the configured token. *)
Lemma X3_success_is_a_2xx_answer_witness :
  exists c before req r,
    tool_call 0 "sage_get_business" (VObj []) = Ok c /\
    sent (snd (CallTool (Scenario.service "stale" Scenario.fresh_token
                           Scenario.business_ok)
                 0 "sage_get_business" (VObj [])
                 (Scenario.start Scenario.configured)))
    = (before ++ [req])%list /\
    url req = "https://api.accounting.sage.com/v3.1/business" /\
    Scenario.service "stale" Scenario.fresh_token Scenario.business_ok before req
    = Ok r /\
    ok r = true.
Proof.
  destruct (X3_success_is_a_2xx_answer
              (Scenario.service "stale" Scenario.fresh_token Scenario.business_ok)
              0 "sage_get_business" (VObj []) (Scenario.start Scenario.configured)
              eq_refl)
    as (c & before & req & r & v & Hc & Hs & Hu & _ & Hn & Hok & _).
  exists c, before, req, r.
  split; [exact Hc|]. split; [exact Hs|].
  split; [rewrite Hu; injection Hc as <-; reflexivity|].
  split; [exact Hn | exact Hok].
Defined.

(** X4.  A first response that is neither 2xx nor 401 ends the invocation:
    the result is the error-flagged text with the status, the reason phrase
    and the body of the response; the request is not repeated, no refresh is
    attempted and the bindings stay as they were. *)
Theorem X4_api_error_is_final :
  forall (net : Network) now name args (c : Call) (st : State) (r : Response),
    let first := resource_request (bindings st) (endpoint c) (verb c) (payload c) in
    tool_call now name args = Ok c ->
    truthy (currentAccessToken (bindings st)) = true ->
    net (sent st) first = Ok r ->
    ok r = false ->
    status r <> 401%Z ->
    CallTool net now name args st
    = ({| content_text :=
            Some ("Error: Sage API error: " ++ Z_toString (status r) ++ " "
                  ++ statusText r ++ " - " ++ text r);
          isError := true |},
       {| bindings := bindings st;
          sent := (sent st ++ [first])%list;
          refreshes := refreshes st |}).
Proof.
  intros net now name args c st r first Hcall Htok Hnet Hnok H401.
  rewrite CallTool_unfold, Hcall.
  rewrite sageRequest_first by assumption. cbn zeta. fold first.
  rewrite Hnet. apply Z.eqb_neq in H401. rewrite H401, Hnok. reflexivity.
Qed.

Lemma X4_api_error_is_final_witness :
  CallTool (Scenario.service "stale" Scenario.fresh_token Scenario.server_error)
    0 "sage_get_business" (VObj []) (Scenario.start Scenario.configured)
  = ({| content_text := Some "Error: Sage API error: 500 Internal Server Error - boom";
        isError := true |},
     {| bindings := Scenario.configured;
        sent := [resource_request Scenario.configured "/business" GET VUndefined];
        refreshes := 0 |}).
Proof.
  exact (X4_api_error_is_final
           (Scenario.service "stale" Scenario.fresh_token Scenario.server_error)
           0 "sage_get_business" (VObj []) (call_get "/business")
           (Scenario.start Scenario.configured) Scenario.server_error
           eq_refl eq_refl eq_refl eq_refl ltac:(discriminate)).
Defined.

Lemma cut_list {A} (l new pre post : list A) (x : A) :
  (l ++ new = pre ++ x :: post)%list ->
  (length l <= length pre)%nat ->
  exists mid, pre = (l ++ mid)%list /\ new = (mid ++ x :: post)%list.
Proof.
  revert pre. induction l as [|a l IH]; intros pre H Hlen.
  - exists pre. auto.
  - destruct pre as [|b pre]; [cbn in Hlen; lia|].
    cbn in H. injection H as <- H. cbn in Hlen.
    destruct (IH pre H ltac:(lia)) as (mid & -> & ->).
    exists mid. auto.
Qed.

(** X5.  A rejection of [fetch] is never swallowed: whichever request of an
    invocation is rejected (the first request, the token request or the
    retry), the invocation ends there with the error-flagged result that
    carries the message of the rejection, and the rejected request is the
    last one sent. *)
Theorem X5_rejection_ends_the_invocation :
  forall (net : Network) now name args (st : State) before req after x,
    let result := fst (CallTool net now name args st) in
    let st' := snd (CallTool net now name args st) in
    (length (sent st) <= length before)%nat ->
    sent st' = (before ++ req :: after)%list ->
    net before req = Throw x ->
    after = [] /\ result = error_result (message x).
Proof.
  intros net now name args st before req after x result st' Hlen Hsent Hrej.
  subst result st'. rewrite CallTool_unfold in *.
  destruct (tool_call now name args) as [c|e].
  2:{ cbn [snd] in Hsent. exfalso.
      apply (f_equal (@length _)) in Hsent.
      rewrite length_app in Hsent. cbn in Hsent. lia. }
  destruct (truthy (currentAccessToken (bindings st))) eqn:Htok.
  2:{ rewrite sageRequest_no_token in * by assumption.
      cbn [snd] in Hsent. exfalso.
      apply (f_equal (@length _)) in Hsent.
      rewrite length_app in Hsent. cbn in Hsent. lia. }
  pose proof (sageRequest_path net (endpoint c) (verb c) (payload c) st Htok) as Hp.
  destruct (sageRequest net _ _ _ st) as [res st']. cbn [fst snd] in Hp.
  assert (Hst : snd match res with
                    | Ok result =>
                        ({| content_text := JSON_stringify_2 result;
                            isError := false |}, st')
                    | Throw e => (error_result (message e), st')
                    end = st') by now destruct res.
  rewrite Hst in Hsent. clear Hst.
  assert (Hgoal : after = [] /\ res = Throw x -> 
          after = [] /\
          fst match res with
              | Ok result =>
                  ({| content_text := JSON_stringify_2 result;
                      isError := false |}, st')
              | Throw e => (error_result (message e), st')
              end = error_result (message x))
    by (intros [-> ->]; auto).
  apply Hgoal. clear Hgoal.
  destruct Hp as [y first Hnet | r first Hnet H401 | r y st1 first Hnet H401 Href
                 | r st1 first retry Hnet H401 Href].
  - cbn [push sent] in Hsent.
    destruct (cut_list _ _ _ _ _ Hsent Hlen) as (mid & -> & Hnew).
    destruct mid as [|? [|? ?]]; try discriminate Hnew.
    injection Hnew as <- <-. rewrite app_nil_r in Hrej. split; congruence.
  - cbn [push sent] in Hsent.
    destruct (cut_list _ _ _ _ _ Hsent Hlen) as (mid & -> & Hnew).
    destruct mid as [|? [|? ?]]; try discriminate Hnew.
    injection Hnew as <- <-. rewrite app_nil_r in Hrej. congruence.
  - destruct (refresh_effect _ _ _ _ Href) as (_ & _ & [Hs | Hs]);
      cbn [push sent bindings] in Hs; rewrite Hs in Hsent.
    + destruct (cut_list _ _ _ _ _ Hsent Hlen) as (mid & -> & Hnew).
      destruct mid as [|? [|? ?]]; try discriminate Hnew.
      injection Hnew as <- <-. rewrite app_nil_r in Hrej. congruence.
    + rewrite <- app_assoc in Hsent. cbn [app] in Hsent.
      destruct (cut_list _ _ _ _ _ Hsent Hlen) as (mid & -> & Hnew).
      destruct mid as [|? [|? [|? ?]]]; try discriminate Hnew.
      * injection Hnew as <- <-. rewrite app_nil_r in Hrej. congruence.
      * injection Hnew as <- <- <-.
        revert Href. unfold refreshAccessToken, bind, read, fetch, lift, throw,
          enter_refresh, assign_currentAccessToken.
        cbn [bindings sent refreshes push].
        destruct (_ || _); [intros [= _ <-]; cbn [sent] in Hs;
                            apply (f_equal (@length _)) in Hs;
                            rewrite !length_app in Hs; cbn in Hs; lia|].
        cbn [sent]. rewrite Hrej. intros [= <- _]. auto.
  - destruct (refresh_success _ _ _ Href)
      as (_ & rt & data & tok & Hnet1 & _ & _ & _ & Hst1).
    cbn [push sent bindings] in Hst1, Hnet1.
    assert (Hs1 : sent st1 = (sent st ++ [first; token_request (bindings st)])%list)
      by (rewrite Hst1; cbn [sent]; now rewrite <- app_assoc).
    cbn [push sent] in Hsent. rewrite Hs1, <- app_assoc in Hsent.
    cbn [app] in Hsent.
    destruct (cut_list _ _ _ _ _ Hsent Hlen) as (mid & -> & Hnew).
    destruct mid as [|? [|? [|? [|? ?]]]]; try discriminate Hnew.
    + injection Hnew as <- <-. rewrite app_nil_r in Hrej. congruence.
    + injection Hnew as <- <- <-. congruence.
    + injection Hnew as <- <- <- <-. rewrite <- Hs1 in Hrej.
      fold retry. rewrite Hrej. auto.
Qed.

Lemma X5_rejection_ends_the_invocation_witness :
  CallTool Scenario.offline 0 "sage_get_business" (VObj [])
    (Scenario.start Scenario.configured)
  = (error_result "fetch failed",
     {| bindings := Scenario.configured;
        sent := [resource_request Scenario.configured "/business" GET VUndefined];
        refreshes := 0 |}).
Proof.
  pose proof (X5_rejection_ends_the_invocation Scenario.offline 0 "sage_get_business"
                (VObj []) (Scenario.start Scenario.configured) []
                (resource_request Scenario.configured "/business" GET VUndefined)
                [] (TypeError "fetch failed")
                (le_n 0) eq_refl eq_refl) as [_ H].
  cbn zeta in H.
  destruct (CallTool _ _ _ _ _) as [result st'] eqn:Hrun.
  cbn [fst] in H. rewrite H. f_equal.
  apply (f_equal snd) in Hrun. cbn [snd] in Hrun. rewrite <- Hrun. reflexivity.
Defined.

(** X6.  An invocation replaces the access token only with what a 2xx answer
    of the token endpoint carries under [access_token]: either the bindings
    are as before, or the token request was sent, was answered with a 2xx
    response whose body decoded as JSON, and [currentAccessToken] is now the
    value of its [access_token] property (the other bindings are as before).
    In particular a refresh that fails leaves the old token in place. *)
Theorem X6_token_set_only_by_token_response :
  forall (net : Network) now name args (st : State),
    let st' := snd (CallTool net now name args st) in
    bindings st' = bindings st \/
    exists before rt data tok,
      In (token_request (bindings st)) (issued st st') /\
      net before (token_request (bindings st)) = Ok rt /\
      ok rt = true /\
      json rt = Ok data /\
      get data "access_token" = Ok tok /\
      bindings st' = set_currentAccessToken (bindings st) tok.
Proof.
  intros net now name args st st'. subst st'. rewrite CallTool_unfold.
  destruct (tool_call now name args) as [c|e]; [|now left].
  destruct (truthy (currentAccessToken (bindings st))) eqn:Htok.
  2:{ rewrite sageRequest_no_token by assumption. now left. }
  pose proof (sageRequest_path net (endpoint c) (verb c) (payload c) st Htok) as Hp.
  destruct (sageRequest net _ _ _ st) as [res st']. cbn [fst snd] in Hp.
  assert (Hst : snd match res with
                    | Ok result =>
                        ({| content_text := JSON_stringify_2 result;
                            isError := false |}, st')
                    | Throw e => (error_result (message e), st')
                    end = st') by now destruct res.
  rewrite Hst. clear Hst.
  destruct Hp as [y first Hnet | r first Hnet H401 | r y st1 first Hnet H401 Href
                 | r st1 first retry Hnet H401 Href].
  - now left.
  - now left.
  - left. now rewrite (refresh_throws _ _ _ _ Href).
  - right.
    destruct (refresh_success _ _ _ Href)
      as (_ & rt & data & tok & Hnet1 & Hok & Hjson & Hget & Hst1).
    cbn [push sent bindings] in Hst1, Hnet1.
    exists (sent st ++ [first])%list, rt, data, tok.
    repeat split; try assumption.
    + erewrite issued_app.
      2:{ cbn [push sent]. rewrite Hst1. cbn [sent]. rewrite <- !app_assoc.
          reflexivity. }
      cbn. auto.
    + cbn [push bindings]. now rewrite Hst1.
Qed.



(** Without an access token an invocation changes nothing. *)
Lemma CallTool_no_token (net : Network) now name args st :
  truthy (currentAccessToken (bindings st)) = false ->
  snd (CallTool net now name args st) = st /\
  forall c, tool_call now name args = Ok c ->
            fst (CallTool net now name args st) = error_result AuthError.
Proof.
  intros Htok. rewrite CallTool_unfold.
  destruct (tool_call now name args) as [c|e].
  - rewrite sageRequest_no_token by assumption. auto.
  - split; [reflexivity | discriminate].
Qed.

Lemma serve_no_token (net : Network) calls st :
  truthy (currentAccessToken (bindings st)) = false ->
  serve net calls st = st.
Proof.
  intros Htok. induction calls as [|c calls IH]; [reflexivity|].
  change (serve net (c :: calls) st)
    with (serve net calls (snd (CallTool net (at_time c) (tool c) (arguments c) st))).
  now rewrite (proj1 (CallTool_no_token net _ _ _ st Htok)).
Qed.

(** X8.  The refresh procedure does not check what it reads from the token
    response.  When a 2xx token response decodes to a value whose
    [access_token] is falsy (missing, [null], the empty string), the refresh
    counts as done: the retry is sent with the text of that value after
    [Bearer], the value becomes [currentAccessToken], and from then on every
    invocation fails without sending a request; where the case of the tool
    reaches the gateway, with the message of the missing access token. *)
Theorem X8_refresh_without_access_token :
  forall (net : Network) endpoint m payload (st : State) (r1 rt : Response) data tok,
    let first := resource_request (bindings st) endpoint m payload in
    truthy (currentAccessToken (bindings st)) = true ->
    net (sent st) first = Ok r1 ->
    status r1 = 401%Z ->
    credentials_missing (bindings st) = false ->
    net (sent st ++ [first])%list (token_request (bindings st)) = Ok rt ->
    ok rt = true ->
    json rt = Ok data ->
    get data "access_token" = Ok tok ->
    truthy tok = false ->
    let st' := snd (sageRequest net endpoint m payload st) in
    (exists retry,
       issued st st' = [first; token_request (bindings st); retry] /\
       assoc "Authorization" (headers retry) = Some ("Bearer " ++ ToString tok)) /\
    currentAccessToken (bindings st') = tok /\
    (forall calls : list Invocation, serve net calls st' = st') /\
    (forall now name args c,
       tool_call now name args = Ok c ->
       CallTool net now name args st' = (error_result AuthError, st')).
Proof.
  intros net endpoint m payload st r1 rt data tok first
         Htok Hnet H401 Hcred Hnet1 Hok Hjson Hget Hfalsy st'.
  assert (Hb : (exists retry,
                  issued st st' = [first; token_request (bindings st); retry] /\
                  assoc "Authorization" (headers retry)
                  = Some ("Bearer " ++ ToString tok)) /\
               currentAccessToken (bindings st') = tok).
  { subst st'. rewrite sageRequest_first by assumption. cbn zeta. fold first.
    rewrite Hnet, H401. cbn [Z.eqb Pos.eqb].
    rewrite (refresh_accepts net (push st first) rt data tok) by assumption.
    cbn [push bindings sent refreshes].
    set (b1 := set_currentAccessToken (bindings st) tok).
    destruct (net _ (resource_request b1 endpoint m payload)) as [r2|e];
      [destruct (ok r2)|];
      cbn [snd bindings];
      (split; [exists (resource_request b1 endpoint m payload);
               split; [apply issued_app; cbn [sent push]; rewrite <- !app_assoc;
                       reflexivity
                      | reflexivity]
              | reflexivity]). }
  destruct Hb as (Hretry & Hcur).
  assert (Hdead : truthy (currentAccessToken (bindings st')) = false)
    by now rewrite Hcur.
  split; [exact Hretry|]. split; [exact Hcur|]. split.
  - intros calls. now apply serve_no_token.
  - intros now name args c Hcall.
    destruct (CallTool_no_token net now name args st' Hdead) as [Hs Hr].
    specialize (Hr c Hcall).
    destruct (CallTool net now name args st') as [result st2].
    cbn [fst snd] in Hs, Hr. now rewrite Hs, Hr.
Qed.

(** On a run: the token endpoint answers 200 with an empty object. *)
Lemma X8_refresh_without_access_token_witness :
  let net := Scenario.service "fresh"
               (Scenario.response 200 "OK" "{}" (Ok (VObj [])))
               Scenario.business_ok in
  let st' := snd (sageRequest net "/business" GET VUndefined
                    (Scenario.start Scenario.configured)) in
  (exists retry,
     issued (Scenario.start Scenario.configured) st'
     = [resource_request Scenario.configured "/business" GET VUndefined;
        token_request Scenario.configured; retry] /\
     assoc "Authorization" (headers retry) = Some "Bearer undefined") /\
  CallTool net 0 "sage_get_business" (VObj []) st'
  = (error_result AuthError, st').
Proof.
  intros net st'.
  destruct (X8_refresh_without_access_token net "/business" GET VUndefined
              (Scenario.start Scenario.configured) Scenario.unauthorized
              (Scenario.response 200 "OK" "{}" (Ok (VObj []))) (VObj []) VUndefined
              eq_refl eq_refl eq_refl eq_refl eq_refl eq_refl eq_refl eq_refl eq_refl)
    as (Hretry & _ & _ & Hlater).
  split; [exact Hretry|].
  exact (Hlater 0 "sage_get_business" (VObj []) (call_get "/business") eq_refl).
Defined.

(* ================================================================== *)
(** ** Further properties of the tool cases *)
(* ================================================================== *)

Lemma bindC_Ok {A B} (c : Completion A) (k : A -> Completion B) y :
  bindC c k = Ok y -> exists x, c = Ok x /\ k x = Ok y.
Proof. destruct c as [x|e]; cbn; [eauto | discriminate]. Qed.

Lemma get_nullish base k :
  get base k = if nullish base
               then Throw (TypeError ("Cannot read properties of "
                                      ++ ToString base ++ " (reading '" ++ k ++ "')"))
               else Ok (prop base k).
Proof. destruct base; reflexivity. Qed.

(** The function mapped over [line_items], on an item that can be read. *)
Lemma invoice_line_reads item :
  nullish item = false ->
  invoice_line item
  = Ok (VObj [("description", prop item "description");
              ("quantity", prop item "quantity");
              ("unit_price", prop item "unit_price");
              ("tax_rate_id", prop item "tax_rate_id");
              ("ledger_account_id", prop item "ledger_account_id")]).
Proof.
  intros H. unfold invoice_line. rewrite !get_nullish, H. reflexivity.
Qed.

Lemma allocated_artefact_reads alloc :
  nullish alloc = false ->
  allocated_artefact alloc
  = Ok (VObj [("artefact_id", prop alloc "invoice_id");
              ("amount", prop alloc "amount")]).
Proof.
  intros H. unfold allocated_artefact. rewrite !get_nullish, H. reflexivity.
Qed.

Lemma invoice_line_throws item :
  nullish item = true -> exists m, invoice_line item = Throw (TypeError m).
Proof.
  intros H. unfold invoice_line. rewrite get_nullish, H. cbn. eauto.
Qed.

Lemma allocated_artefact_throws alloc :
  nullish alloc = true -> exists m, allocated_artefact alloc = Throw (TypeError m).
Proof.
  intros H. unfold allocated_artefact. rewrite get_nullish, H. cbn. eauto.
Qed.

(** Mapping a function that reads its argument over a list. *)
Lemma mapC_reads (f : Value -> Completion Value) (g : Value -> Value) items :
  (forall x, nullish x = false -> f x = Ok (g x)) ->
  (forall x, nullish x = true -> exists m, f x = Throw (TypeError m)) ->
  if forallb (fun x => negb (nullish x)) items
  then mapC f items = Ok (map g items)
  else exists m, mapC f items = Throw (TypeError m).
Proof.
  intros Hok Hthrow. induction items as [|x items IH]; [reflexivity|].
  cbn [forallb mapC map]. destruct (nullish x) eqn:Hx; cbn [negb andb].
  - destruct (Hthrow x Hx) as (m & ->). cbn. eauto.
  - rewrite (Hok x Hx). cbn [bindC].
    destruct (forallb _ items).
    + now rewrite IH.
    + destruct IH as (m & ->). cbn. eauto.
Qed.

Lemma array_map_reads what (f : Value -> Completion Value) (g : Value -> Value) v :
  (forall x, nullish x = false -> f x = Ok (g x)) ->
  (forall x, nullish x = true -> exists m, f x = Throw (TypeError m)) ->
  match v with
  | VArr items =>
      if mappable v then array_map what v f = Ok (VArr (map g items))
      else exists m, array_map what v f = Throw (TypeError m)
  | _ => exists m, array_map what v f = Throw (TypeError m)
  end.
Proof.
  intros Hok Hthrow. destruct v as [| | | | |items|]; cbn [array_map mappable]; eauto.
  pose proof (mapC_reads f g items Hok Hthrow) as H.
  destruct (forallb _ items).
  - now rewrite H.
  - destruct H as (m & ->). cbn. eauto.
Qed.

Lemma array_map_mappable what f g v :
  (forall x, nullish x = false -> f x = Ok (g x)) ->
  (forall x, nullish x = true -> exists m, f x = Throw (TypeError m)) ->
  if mappable v then exists items, v = VArr items /\
                                   array_map what v f = Ok (VArr (map g items))
  else exists m, array_map what v f = Throw (TypeError m).
Proof.
  intros Hok Hthrow.
  pose proof (array_map_reads what f g v Hok Hthrow) as H.
  destruct v; cbn [mappable] in *; try exact H.
  destruct (forallb _ items); eauto.
Qed.



(** X10.  An invocation without [arguments].  The tools whose schema has no
    property build the request they build for an empty bag.  Every other
    listed tool fails on the first field it reads: the result is the
    error-flagged [TypeError] message of reading that field of [undefined],
    and the state is as it was, so that no request is sent. *)
Theorem X10_missing_arguments :
  forall (net : Network) now (t : Tool) (st : State),
    In t tools ->
    match fields (inputSchema t) with
    | [] =>
        exists c, tool_call now (name t) VUndefined = Ok c /\
                  tool_call now (name t) (VObj []) = Ok c
    | field :: _ =>
        CallTool net now (name t) VUndefined st
        = (error_result ("Cannot read properties of undefined (reading '"
                         ++ field ++ "')"), st)
    end.
Proof.
  intros net now t st Ht.
  unfold tools in Ht. cbn [In] in Ht.
  repeat (destruct Ht as [Ht|Ht]; [subst t|]); try contradiction;
    cbn [name inputSchema fields map fst create_invoice_schema other_payment_schema];
    try (eexists; split; reflexivity);
    rewrite CallTool_unfold; reflexivity.
Qed.

Lemma X10_missing_arguments_witness :
  CallTool Scenario.offline 0 "sage_list_contacts" VUndefined
    (Scenario.start Scenario.configured)
  = (error_result "Cannot read properties of undefined (reading 'contact_type')",
     Scenario.start Scenario.configured) /\
  exists c, tool_call 0 "sage_get_business" VUndefined = Ok c /\
            tool_call 0 "sage_get_business" (VObj []) = Ok c.
Proof.
  split.
  - refine (X10_missing_arguments Scenario.offline 0
              {| name := "sage_list_contacts";
                 inputSchema :=
                   SObject [("contact_type", SEnum ["customer"; "supplier"; "all"]);
                            ("search", SString); ("page", SNumber);
                            ("items_per_page", SNumber)] [] |}
              (Scenario.start Scenario.configured) _).
    cbn. tauto.
  - refine (X10_missing_arguments Scenario.offline 0
              {| name := "sage_get_business"; inputSchema := SObject [] [] |}
              (Scenario.start Scenario.configured) _).
    cbn. tauto.
Defined.

(** X11.  The case of a tool reads the properties its input schema lists and
    no others: two bags that agree on the fields of the schema lead to the
    same outcome, be it the request or the error.  Whatever else a caller
    puts into the bag is not forwarded. *)
Theorem X11_reads_only_schema_fields :
  forall now (t : Tool) props props',
    In t tools ->
    (forall field, In field (fields (inputSchema t)) ->
                   own props field = own props' field) ->
    tool_call now (name t) (VObj props) = tool_call now (name t) (VObj props').
Proof.
  intros now t props props' Ht Hsame.
  unfold tools in Ht. cbn [In] in Ht.
  repeat (destruct Ht as [Ht|Ht]; [subst t|]); try contradiction;
    cbn [name inputSchema fields map fst create_invoice_schema other_payment_schema]
      in Hsame;
    unfold tool_call, append_if, invoice_body, other_payment_body;
    cbn [name String.eqb Ascii.eqb Bool.eqb andb get bindC];
    repeat match goal with
           | |- context [own props ?k] =>
               rewrite (Hsame k) by (cbn [In]; tauto)
           end;
    reflexivity.
Qed.

Lemma X11_reads_only_schema_fields_witness :
  tool_call 0 "sage_get_contact"
    (VObj [("contact_id", VStr "C1"); ("expand", VStr "all")])
  = tool_call 0 "sage_get_contact" (VObj [("contact_id", VStr "C1")]).
Proof.
  refine (X11_reads_only_schema_fields 0
            {| name := "sage_get_contact";
               inputSchema := SObject [("contact_id", SString)] ["contact_id"] |}
            [("contact_id", VStr "C1"); ("expand", VStr "all")]
            [("contact_id", VStr "C1")] _ _).
  - cbn. tauto.
  - intros field [<-|[]]. reflexivity.
Defined.

(** *** Query strings, as the receiver decodes them *)

Lemma percent_decode_byte a t :
  percent_decode (urlencode_byte a ++ t) = String a (percent_decode t).
Proof. destruct a as [[] [] [] [] [] [] [] []]; reflexivity. Qed.

(** Decoding undoes the encoding of [URLSearchParams]. *)
Lemma percent_decode_urlencode s : percent_decode (urlencode s) = s.
Proof.
  induction s as [|a s IH]; [reflexivity|].
  cbn [urlencode]. now rewrite percent_decode_byte, IH.
Qed.

Lemma decoded_query_with_query path q :
  mentions "?" path = false -> decoded_query (with_query path q) = q.
Proof.
  intros H. unfold decoded_query. rewrite query_pairs_with_query by assumption.
  rewrite map_map. cbn [fst snd].
  rewrite <- (map_id q) at 2. apply map_ext.
  intros [k v]. cbn [fst snd]. now rewrite !percent_decode_urlencode.
Qed.

Lemma append_if_bag props field key q :
  append_if (VObj props) field key q
  = Ok (q ++ (if truthy (own props field)
              then [(key, ToString (own props field))] else []))%list.
Proof.
  unfold append_if, append. cbn [get bindC].
  destruct (truthy _); [reflexivity | now rewrite app_nil_r].
Qed.

Lemma map_filter_cons {A B} (f : A -> B) (g : A -> bool) x l :
  map f (filter g (x :: l))
  = ((if g x then [f x] else []) ++ map f (filter g l))%list.
Proof. cbn [filter]. now destruct (g x). Qed.

(** X12.  The query string of a list tool, read back by the receiver, holds
    exactly the fields of the input schema that pass the test of the tool,
    in the order of the schema, each under its parameter name and with the
    text of its value, whatever characters that text is made of.  The test
    is truthiness, except that [contact_type] must also differ from [all]
    and that [active] only has to be there. *)
Theorem X12_list_query_exact :
  forall now (t : Tool) props c,
    In t tools ->
    is_list_tool (name t) = true ->
    tool_call now (name t) (VObj props) = Ok c ->
    verb c = GET /\
    decoded_query (endpoint c)
    = map (fun field => (query_key (name t) field, ToString (own props field)))
          (filter (fun field => is_sent (name t) field (own props field))
                  (fields (inputSchema t))).
Proof.
  intros now t props c Ht Hlist Hcall.
  unfold tools in Ht. cbn [In] in Ht.
  repeat (destruct Ht as [Ht|Ht]; [subst t; try discriminate Hlist|]);
    try contradiction;
    unfold tool_call in Hcall;
    cbn [name String.eqb Ascii.eqb Bool.eqb andb get bindC] in Hcall;
    repeat (rewrite append_if_bag in Hcall; cbn [bindC] in Hcall);
    injection Hcall as <-;
    (split; [reflexivity|]);
    cbn [endpoint call_get name inputSchema fields map fst];
    try rewrite decoded_query_with_query by reflexivity;
    rewrite ?map_filter_cons; cbn [filter map];
    unfold is_sent, query_key, place_of, append;
    cbn [one_of existsb String.eqb Ascii.eqb Bool.eqb orb andb];
    try destruct (own props "active");
    cbn [is_undefined negb];
    rewrite <- ?app_assoc, ?app_nil_r; cbn [app];
    reflexivity.
Qed.

(** On a bag: a search term with the characters of a query string in it. *)
Lemma X12_list_query_exact_witness :
  tool_call 0 "sage_list_contacts"
    (VObj [("contact_type", VStr "all"); ("search", VStr "a&b=c d");
           ("page", VNum 0)])
  = Ok (call_get "/contacts?search=a%26b%3Dc+d") /\
  decoded_query "/contacts?search=a%26b%3Dc+d" = [("search", "a&b=c d")].
Proof.
  split; [reflexivity|].
  refine (proj2 (X12_list_query_exact 0
            {| name := "sage_list_contacts";
               inputSchema :=
                 SObject [("contact_type", SEnum ["customer"; "supplier"; "all"]);
                          ("search", SString); ("page", SNumber);
                          ("items_per_page", SNumber)] [] |}
            [("contact_type", VStr "all"); ("search", VStr "a&b=c d");
             ("page", VNum 0)]
            (call_get "/contacts?search=a%26b%3Dc+d") _ eq_refl eq_refl)).
  cbn. tauto.
Defined.

(** *** Request bodies *)

(** X13.  A create tool forwards what it is given.  Every field of the input
    schema that the bag holds (any value but [undefined]: zero, the empty
    string, [false] and [null] included) is in the JSON body at the place of
    the field, as it was given.  Set apart are the arguments the code
    reshapes ([sales_price], [line_items], [invoice_allocations]) and, for
    the fields with a default, the falsy values the default replaces. *)
Theorem X13_create_fields_forwarded :
  forall now (t : Tool) field params v c,
    In t tools ->
    is_create_tool (name t) = true ->
    In field (fields (inputSchema t)) ->
    reshaped field = false ->
    get params field = Ok v ->
    is_undefined v = false ->
    (defaulted (name t) field = true -> truthy v = true) ->
    tool_call now (name t) params = Ok c ->
    exists path,
      place_of (name t) field = Body path /\
      at_path path (json_tree (payload c)) = Some (json_tree v).
Proof.
  intros now t field params v c Ht Hcreate Hfield Hshape Hget Hv Hdef Hcall.
  pose proof (get_prop _ _ _ Hget) as Hall.
  apply get_prop_eq in Hget.
  unfold tools in Ht. cbn [In] in Ht.
  repeat (destruct Ht as [Ht|Ht]; [subst t; try discriminate Hcreate|]);
    try contradiction;
    cbn in Hfield; split_cases Hfield; try discriminate Hshape;
    cbn [name] in Hcall, Hdef |- *;
    try (assert (Htruthy := Hdef eq_refl));
    unfold tool_call, invoice_body, other_payment_body in Hcall;
    cbn [String.eqb Ascii.eqb Bool.eqb andb] in Hcall;
    rewrite ?Hall in Hcall; cbn [bindC] in Hcall;
    try (destruct (array_map _ _ _) as [lines|e]; [|discriminate Hcall];
         cbn [bindC] in Hcall);
    injection Hcall as <-;
    unfold place_of;
    cbn [one_of existsb String.eqb Ascii.eqb Bool.eqb orb andb payload call_post];
    (eexists; split; [reflexivity|]);
    rewrite ?Hget, ?Htruthy; walk_body; rewrite ?Hget, ?Hv; reflexivity.
Qed.

(** On a bag: a payment of zero, with an empty reference. *)
Lemma X13_create_fields_forwarded_witness :
  exists c,
    tool_call 0 "sage_create_other_payment"
      (VObj [("bank_account_id", VStr "B1"); ("total_amount", VNum 0);
             ("reference", VStr "")]) = Ok c /\
    at_path [Key "other_payment"; Key "payment_lines"; Index 0; Key "total_amount"]
            (json_tree (payload c)) = Some (VNum 0).
Proof.
  eexists. split; [reflexivity|].
  destruct (X13_create_fields_forwarded 0
              {| name := "sage_create_other_payment";
                 inputSchema := other_payment_schema |}
              "total_amount"
              (VObj [("bank_account_id", VStr "B1"); ("total_amount", VNum 0);
                     ("reference", VStr "")])
              (VNum 0) _
              ltac:(cbn; tauto) eq_refl ltac:(cbn; tauto) eq_refl eq_refl eq_refl
              ltac:(discriminate) eq_refl)
    as (path & Hplace & Hat).
  injection Hplace as <-. exact Hat.
Defined.

(** X14.  [sage_create_product] sends a sales price as a one-element price
    list, and only when it is truthy: a sales price of zero is left out of
    the body like a missing one (while a purchase price of zero is sent).
    The body never has a [sales_price] key. *)
Theorem X14_sales_price_wrapping :
  forall now params v c,
    get params "sales_price" = Ok v ->
    tool_call now "sage_create_product" params = Ok c ->
    endpoint c = "/products" /\
    at_path [Key "product"; Key "sales_prices"] (json_tree (payload c))
    = (if truthy v then Some (VArr [VObj [("price", json_tree v)]]) else None) /\
    at_path [Key "product"; Key "sales_price"] (json_tree (payload c)) = None.
Proof.
  intros now params v c Hget Hcall.
  pose proof (get_prop _ _ _ Hget) as Hall.
  apply get_prop_eq in Hget.
  unfold tool_call in Hcall.
  cbn [String.eqb Ascii.eqb Bool.eqb andb] in Hcall.
  rewrite ?Hall in Hcall. cbn [bindC] in Hcall.
  injection Hcall as <-. cbn [endpoint payload call_post].
  split; [reflexivity|]. rewrite Hget. split.
  - walk_body. destruct (truthy v) eqn:Hv; cbn [is_undefined]; [|reflexivity].
    cbn [at_path json_tree map is_undefined].
    destruct v; try discriminate Hv; reflexivity.
  - walk_body. reflexivity.
Qed.

Lemma X14_sales_price_wrapping_witness :
  exists c,
    tool_call 0 "sage_create_product"
      (VObj [("description", VStr "Widget"); ("sales_price", VNum 0);
             ("purchase_price", VNum 0)]) = Ok c /\
    at_path [Key "product"; Key "sales_prices"] (json_tree (payload c)) = None /\
    at_path [Key "product"; Key "purchase_price"] (json_tree (payload c))
    = Some (VNum 0).
Proof.
  eexists. split; [reflexivity|].
  split; [|reflexivity].
  exact (proj1 (proj2 (X14_sales_price_wrapping 0
                         (VObj [("description", VStr "Widget");
                                ("sales_price", VNum 0);
                                ("purchase_price", VNum 0)])
                         (VNum 0) _ eq_refl eq_refl))).
Defined.

(** The outcome of mapping over an array argument when the case of the tool
    goes through. *)
Lemma array_map_Ok what f g v lines :
  (forall x, nullish x = false -> f x = Ok (g x)) ->
  (forall x, nullish x = true -> exists m, f x = Throw (TypeError m)) ->
  array_map what v f = Ok lines ->
  exists items, v = VArr items /\ lines = VArr (map g items).
Proof.
  intros Hok Hthrow H.
  pose proof (array_map_mappable what f g v Hok Hthrow) as Hm.
  destruct (mappable v).
  - destruct Hm as (items & -> & Hm). rewrite Hm in H. injection H as <-. eauto.
  - destruct Hm as (m & Hm). rewrite Hm in H. discriminate H.
Qed.

(** X15.  The two create-invoice tools turn [line_items] into [invoice_lines]
    item by item: as many lines as items, in the same order, each line made
    of the five properties [description], [quantity], [unit_price],
    [tax_rate_id] and [ledger_account_id] of its item and of nothing else
    that the item holds. *)
Theorem X15_invoice_lines_mapped :
  forall now tool envelope params c,
    In (tool, envelope) [("sage_create_sales_invoice", "sales_invoice");
                         ("sage_create_purchase_invoice", "purchase_invoice")] ->
    tool_call now tool params = Ok c ->
    exists items,
      get params "line_items" = Ok (VArr items) /\
      at_path [Key envelope; Key "invoice_lines"] (payload c)
      = Some (VArr (map (fun item =>
                           VObj [("description", prop item "description");
                                 ("quantity", prop item "quantity");
                                 ("unit_price", prop item "unit_price");
                                 ("tax_rate_id", prop item "tax_rate_id");
                                 ("ledger_account_id",
                                  prop item "ledger_account_id")])
                        items)).
Proof.
  intros now tool envelope params c Htool Hcall.
  split_cases Htool; injection Htool as <- <-;
    unfold tool_call, invoice_body in Hcall;
    cbn [String.eqb Ascii.eqb Bool.eqb andb] in Hcall;
    (destruct (get params "contact_id") as [x|e] eqn:Hfirst;
       [|discriminate Hcall]);
    pose proof (get_prop _ _ _ Hfirst) as Hall;
    rewrite ?Hall in Hcall; cbn [bindC] in Hcall;
    (destruct (array_map _ _ _) as [lines|e] eqn:Hmap; [|discriminate Hcall]);
    cbn [bindC] in Hcall; injection Hcall as <-;
    destruct (array_map_Ok _ _ _ _ _ invoice_line_reads invoice_line_throws Hmap)
      as (items & Hitems & ->);
    exists items; rewrite Hall, Hitems; split; reflexivity.
Qed.

Lemma X15_invoice_lines_mapped_witness :
  exists c items,
    tool_call 0 "sage_create_sales_invoice" widget_bag = Ok c /\
    get widget_bag "line_items" = Ok (VArr items) /\
    at_path [Key "sales_invoice"; Key "invoice_lines"] (payload c)
    = Some (VArr (map (fun item =>
                         VObj [("description", prop item "description");
                               ("quantity", prop item "quantity");
                               ("unit_price", prop item "unit_price");
                               ("tax_rate_id", prop item "tax_rate_id");
                               ("ledger_account_id",
                                prop item "ledger_account_id")])
                      items)).
Proof.
  destruct (X15_invoice_lines_mapped 0 "sage_create_sales_invoice" "sales_invoice"
              widget_bag _ (or_introl eq_refl) eq_refl)
    as (items & Hitems & Hat).
  eexists. exists items. split; [reflexivity|]. split; [exact Hitems | exact Hat].
Defined.

(** X16.  [sage_create_purchase_invoice_payment] turns [invoice_allocations]
    into [allocated_artefacts] entry by entry, in order: the [invoice_id] of
    an allocation is sent as [artefact_id], its [amount] as [amount], and
    nothing else of it. *)
Theorem X16_allocations_renamed :
  forall now params c,
    tool_call now "sage_create_purchase_invoice_payment" params = Ok c ->
    endpoint c = "/contact_payments" /\
    exists allocations,
      get params "invoice_allocations" = Ok (VArr allocations) /\
      at_path [Key "contact_payment"; Key "allocated_artefacts"] (payload c)
      = Some (VArr (map (fun alloc =>
                           VObj [("artefact_id", prop alloc "invoice_id");
                                 ("amount", prop alloc "amount")])
                        allocations)).
Proof.
  intros now params c Hcall.
  unfold tool_call in Hcall.
  cbn [String.eqb Ascii.eqb Bool.eqb andb] in Hcall.
  destruct (get params "contact_id") as [x|e] eqn:Hfirst; [|discriminate Hcall].
  pose proof (get_prop _ _ _ Hfirst) as Hall.
  rewrite ?Hall in Hcall. cbn [bindC] in Hcall.
  destruct (array_map _ _ _) as [lines|e] eqn:Hmap; [|discriminate Hcall].
  cbn [bindC] in Hcall. injection Hcall as <-.
  destruct (array_map_Ok _ _ _ _ _ allocated_artefact_reads
              allocated_artefact_throws Hmap) as (items & Hitems & ->).
  split; [reflexivity|].
  exists items. rewrite Hall, Hitems. split; reflexivity.
Qed.

Lemma X16_allocations_renamed_witness :
  exists c,
    tool_call 0 "sage_create_purchase_invoice_payment"
      (VObj [("contact_id", VStr "S1");
             ("invoice_allocations",
              VArr [VObj [("invoice_id", VStr "I1"); ("amount", VNum 10)];
                    VObj [("invoice_id", VStr "I2"); ("amount", VNum 5)]])])
    = Ok c /\
    at_path [Key "contact_payment"; Key "allocated_artefacts"] (payload c)
    = Some (VArr [VObj [("artefact_id", VStr "I1"); ("amount", VNum 10)];
                  VObj [("artefact_id", VStr "I2"); ("amount", VNum 5)]]).
Proof.
  destruct (X16_allocations_renamed 0
              (VObj [("contact_id", VStr "S1");
                     ("invoice_allocations",
                      VArr [VObj [("invoice_id", VStr "I1"); ("amount", VNum 10)];
                            VObj [("invoice_id", VStr "I2"); ("amount", VNum 5)]])])
              _ eq_refl)
    as (_ & allocations & Hget & Hat).
  eexists. split; [reflexivity|].
  injection Hget as <-. exact Hat.
Defined.

(** X17.  The date of an invoice.  Whatever the bag of a create-invoice tool
    holds, a truthy [date] is sent as it is, and any falsy one (missing,
    [null], the empty string, zero) is replaced by the text before the [T]
    of [toISOString] at the reading of the clock; from the year 0 to the year
    9999 that text is the UTC date of the clock in the form [YYYY-MM-DD]. *)
Theorem X17_invoice_date_default :
  forall now tool envelope params d c,
    In (tool, envelope) [("sage_create_sales_invoice", "sales_invoice");
                         ("sage_create_purchase_invoice", "purchase_invoice")] ->
    get params "date" = Ok d ->
    tool_call now tool params = Ok c ->
    at_path [Key envelope; Key "date"] (json_tree (payload c))
    = Some (if truthy d then json_tree d else VStr (today now)) /\
    ((year_0 <= now < year_10000)%Z ->
     today now = YYYY_MM_DD (utc_date now) /\
     date_form (today now) = true).
Proof.
  intros now tool envelope params d c Htool Hget Hcall.
  split.
  - pose proof (get_prop _ _ _ Hget) as Hall.
    destruct Htool as [Htool|[Htool|[]]]; injection Htool as <- <-;
      apply get_prop_eq in Hget;
      unfold tool_call, invoice_body in Hcall;
      cbn [String.eqb Ascii.eqb Bool.eqb andb] in Hcall;
      rewrite ?Hall in Hcall; cbn [bindC] in Hcall;
      (destruct (array_map _ _ _) as [lines|e]; [|discriminate Hcall]);
      cbn [bindC] in Hcall; injection Hcall as <-;
      cbn [payload call_post]; rewrite Hget; walk_body;
      destruct (truthy d) eqn:Hd; cbn [is_undefined at_path json_tree];
      try reflexivity;
      destruct d; try discriminate Hd; reflexivity.
  - intros Hnow.
    pose proof (utc_date_correct now Hnow) as Hdate.
    assert (Htoday : today now = YYYY_MM_DD (utc_date now)).
    { apply today_form. destruct (utc_date now) as [[y m] dd]. cbn [fst]. lia. }
    split; [exact Htoday|]. rewrite Htoday. apply YYYY_MM_DD_form.
Qed.

Lemma X17_invoice_date_default_witness :
  exists c,
    tool_call 1793654321123 "sage_create_purchase_invoice"
      (VObj [("contact_id", VStr "S1"); ("date", VStr ""); ("line_items", VArr [])])
    = Ok c /\
    at_path [Key "purchase_invoice"; Key "date"] (json_tree (payload c))
    = Some (VStr "2026-11-02").
Proof.
  eexists. split; [reflexivity|].
  exact (proj1 (X17_invoice_date_default 1793654321123 "sage_create_purchase_invoice"
                  "purchase_invoice"
                  (VObj [("contact_id", VStr "S1"); ("date", VStr "");
                         ("line_items", VArr [])])
                  (VStr "") _ (or_intror (or_introl eq_refl)) eq_refl eq_refl)).
Defined.

(** *** The shape of a call *)

(** Takes a chain of bindings that returned normally apart. *)
Ltac invert_binds H :=
  lazymatch type of H with
  | bindC _ _ = Ok _ =>
      let E := fresh "E" in
      apply bindC_Ok in H; destruct H as (? & E & H); cbv beta in H;
      invert_binds E; invert_binds H
  | Ok _ = Ok _ => injection H as <-
  | _ => idtac
  end.

Lemma with_query_slash path q :
  exists rest, with_query (String "/" path) q = String "/" rest.
Proof. unfold with_query. cbn [String.append]. eauto. Qed.

(** Every case of the switch calls [sageRequest] with a path, either to read
    (no method given, no body) or to post an object under one envelope
    key. *)
Lemma tool_call_shape now name params c :
  tool_call now name params = Ok c ->
  (exists rest, endpoint c = String "/" rest) /\
  ((verb c = GET /\ payload c = VUndefined) \/
   (verb c = POST /\ exists envelope members,
                       payload c = VObj [(envelope, VObj members)])).
Proof.
  intros H.
  destruct (in_dec string_dec name registered) as [Hin|Hout].
  2:{ rewrite (tool_call_unknown _ _ _ Hout) in H. discriminate H. }
  unfold registered, tools in Hin. cbn [map Sage.name In] in Hin.
  repeat (destruct Hin as [Hin|Hin]; [subst name|]); try contradiction;
    unfold tool_call, invoice_body, other_payment_body in H;
    cbn [String.eqb Ascii.eqb Bool.eqb andb] in H;
    invert_binds H;
    (split;
     [ first [apply with_query_slash | eexists; reflexivity]
     | first [ left; split; reflexivity
             | right; split; [reflexivity | do 2 eexists; reflexivity] ] ]).
Qed.

(* ================================================================== *)
(** ** The tool list and the switch *)
(* ================================================================== *)

Section Failures.

Lemma fails_Ok {A} (a : A) : fails_by_TypeError (Ok a).
Proof. intros e H. discriminate H. Qed.

Lemma fails_bind {A B} (c : Completion A) (k : A -> Completion B) :
  fails_by_TypeError c -> (forall x, fails_by_TypeError (k x)) ->
  fails_by_TypeError (bindC c k).
Proof.
  intros Hc Hk e H. destruct c as [x|e0]; cbn in H.
  - now apply (Hk x).
  - apply Hc. congruence.
Qed.

Lemma fails_get base k : fails_by_TypeError (get base k).
Proof. intros e H. destruct base; cbn in H; try discriminate H; injection H as <-; eauto. Qed.

Lemma fails_append_if params field key q :
  fails_by_TypeError (append_if params field key q).
Proof.
  unfold append_if. apply fails_bind; [apply fails_get|].
  intros v. apply fails_Ok.
Qed.

Lemma fails_mapC (f : Value -> Completion Value) items :
  (forall x, fails_by_TypeError (f x)) -> fails_by_TypeError (mapC f items).
Proof.
  intros Hf. induction items as [|x items IH]; cbn [mapC]; [apply fails_Ok|].
  apply fails_bind; [apply Hf|]. intros y.
  apply fails_bind; [exact IH|]. intros ys. apply fails_Ok.
Qed.

Lemma fails_array_map what base f :
  (forall x, fails_by_TypeError (f x)) ->
  fails_by_TypeError (array_map what base f).
Proof.
  intros Hf. destruct base; cbn [array_map];
    try (intros e H; injection H as <-; eauto).
  apply fails_bind; [now apply fails_mapC|]. intros ys. apply fails_Ok.
Qed.

Ltac fails :=
  repeat first
    [ apply fails_Ok
    | apply fails_get
    | apply fails_append_if
    | apply fails_array_map; intros ?
    | apply fails_bind; [|intros ?]
    | progress cbv zeta ].

Lemma fails_invoice_line item : fails_by_TypeError (invoice_line item).
Proof. unfold invoice_line. fails. Qed.

Lemma fails_allocated_artefact alloc :
  fails_by_TypeError (allocated_artefact alloc).
Proof. unfold allocated_artefact. fails. Qed.

(** The case of a listed tool throws nothing but a [TypeError]. *)
Lemma fails_tool_call now name args :
  In name registered -> fails_by_TypeError (tool_call now name args).
Proof.
  intros Hin. unfold registered, tools in Hin. cbn [map Sage.name In] in Hin.
  repeat (destruct Hin as [Hin|Hin]; [subst name|]); try contradiction;
    unfold tool_call, invoice_body, other_payment_body;
    cbn [String.eqb Ascii.eqb Bool.eqb andb];
    fails; first [apply fails_invoice_line | apply fails_allocated_artefact].
Qed.

End Failures.

(** X18.  The tool list and the switch know the same names.  A name is in the
    list of [ListToolsRequestSchema] exactly when the switch of
    [CallToolRequestSchema] has a case for it, that is when no invocation of
    it ends in the default case; and the case of a listed tool, when it
    fails before the gateway, fails with a [TypeError] of the argument
    projection and with nothing else. *)
Theorem X18_listed_tools_are_handled :
  forall name : string,
    (In name registered <->
     forall now args,
       tool_call now name args <> Throw (Error ("Unknown tool: " ++ name))) /\
    (In name registered ->
     forall now args e,
       tool_call now name args = Throw e -> exists m, e = TypeError m).
Proof.
  intros name. split; [split|].
  - intros Hin now args H.
    destruct (fails_tool_call now name args Hin _ H) as (m & Hm). discriminate Hm.
  - intros H. destruct (in_dec string_dec name registered) as [Hin|Hout];
      [exact Hin|].
    exfalso. apply (H 0 VUndefined). now apply tool_call_unknown.
  - intros Hin now args e. apply fails_tool_call, Hin.
Qed.

(* ================================================================== *)
(** ** What goes on the wire *)
(* ================================================================== *)

Section Wire.

Variable net : Network.

Lemma sent_for_weaken b b' r :
  same_constants b b' -> sent_for b' r -> sent_for b r.
Proof.
  intros Hb [|b'' now name args c H Hcall].
  - rewrite (same_constants_token_request _ _ Hb). constructor.
  - econstructor; eauto using same_constants_trans.
Qed.

(** The requests of one invocation. *)
Lemma CallTool_trace now name args st :
  exists new,
    sent (snd (CallTool net now name args st)) = (sent st ++ new)%list /\
    Forall (sent_for (bindings st)) new.
Proof.
  rewrite CallTool_unfold.
  destruct (tool_call now name args) as [c|e] eqn:Hcall.
  2:{ exists []. cbn [snd]. now rewrite app_nil_r. }
  assert (Hfor : forall b', same_constants (bindings st) b' ->
            sent_for (bindings st)
              (resource_request b' (endpoint c) (verb c) (payload c)))
    by (intros b' Hb; econstructor; eauto).
  destruct (truthy (currentAccessToken (bindings st))) eqn:Htok.
  2:{ rewrite sageRequest_no_token by assumption.
      exists []. cbn [snd]. now rewrite app_nil_r. }
  pose proof (sageRequest_path net (endpoint c) (verb c) (payload c) st Htok) as Hp.
  destruct (sageRequest net _ _ _ st) as [res st']. cbn [fst snd] in Hp.
  assert (Hst : snd match res with
                    | Ok result =>
                        ({| content_text := JSON_stringify_2 result;
                            isError := false |}, st')
                    | Throw e => (error_result (message e), st')
                    end = st') by now destruct res.
  rewrite Hst. clear Hst.
  destruct Hp as [y first Hnet | r first Hnet H401 | r y st1 first Hnet H401 Href
                 | r st1 first retry Hnet H401 Href].
  - exists [first]. split; [reflexivity|].
    repeat constructor. apply Hfor, same_constants_refl.
  - exists [first]. split; [reflexivity|].
    repeat constructor. apply Hfor, same_constants_refl.
  - destruct (refresh_effect _ _ _ _ Href) as (_ & _ & [Hs | Hs]);
      cbn [push sent bindings] in Hs; rewrite Hs.
    + exists [first]. split; [reflexivity|].
      repeat constructor. apply Hfor, same_constants_refl.
    + exists [first; token_request (bindings st)].
      rewrite <- app_assoc. split; [reflexivity|].
      repeat constructor. apply Hfor, same_constants_refl.
  - destruct (refresh_success _ _ _ Href)
      as (_ & rt & data & tok & _ & _ & _ & _ & Hst1).
    cbn [push sent bindings] in Hst1.
    exists [first; token_request (bindings st); retry].
    split.
    + cbn [push sent]. rewrite Hst1. cbn [sent]. now rewrite <- !app_assoc.
    + repeat constructor.
      * apply Hfor, same_constants_refl.
      * subst retry. rewrite Hst1. cbn [bindings].
        apply Hfor, same_constants_set.
Qed.

Lemma serve_trace calls st :
  exists new,
    sent (serve net calls st) = (sent st ++ new)%list /\
    Forall (sent_for (bindings st)) new.
Proof.
  revert st. induction calls as [|c calls IH]; intros st.
  - exists []. cbn. now rewrite app_nil_r.
  - change (serve net (c :: calls) st)
      with (serve net calls (snd (CallTool net (at_time c) (tool c) (arguments c) st))).
    destruct (CallTool_trace (at_time c) (tool c) (arguments c) st)
      as (new & Hs & Ho).
    destruct (CallTool_effect net (at_time c) (tool c) (arguments c) st)
      as (Hb & _).
    destruct (IH (snd (CallTool net (at_time c) (tool c) (arguments c) st)))
      as (new' & Hs' & Ho').
    exists (new ++ new')%list. split.
    + rewrite Hs', Hs. now rewrite app_assoc.
    + apply Forall_app. split; [exact Ho|].
      eapply Forall_impl; [|exact Ho']. intros r. now apply sent_for_weaken.
Qed.

End Wire.

Lemma stringify_object props :
  exists text, JSON_stringify (VObj props) = Some text.
Proof. unfold JSON_stringify. cbn [SerializeJSONProperty]. eauto. Qed.

(** X19.  What the process puts on the wire, over any sequence of invocations
    and any network.  A request is either the token request: a POST to the
    token URL with the form content type, no [Authorization] header, and the
    refresh token and client credentials of the environment in its body; or
    a request of a tool: to a path under the base URL, with the bearer token
    and the JSON content type in its headers, and either a GET without a body
    or a POST with one.  So the client secret and the refresh token go to the
    token endpoint only, and nothing is ever sent with PUT or DELETE. *)
Theorem X19_wire_discipline :
  forall (net : Network) (calls : list Invocation) (st : State) (r : Request),
    In r (issued st (serve net calls st)) ->
    (url r = "https://oauth.accounting.sage.com/token" /\
     method r = POST /\
     headers r = [("Content-Type", "application/x-www-form-urlencoded")] /\
     body r = Some ("grant_type=refresh_token&refresh_token="
                    ++ urlencode (SAGE_REFRESH_TOKEN (bindings st))
                    ++ "&client_id=" ++ urlencode (SAGE_CLIENT_ID (bindings st))
                    ++ "&client_secret="
                    ++ urlencode (SAGE_CLIENT_SECRET (bindings st)))) \/
    ((exists path, url r = BASE_URL (bindings st) ++ String "/" path) /\
     (exists token,
        headers r = [("Authorization", "Bearer " ++ token);
                     ("Content-Type", "application/json");
                     ("Accept", "application/json")]) /\
     ((method r = GET /\ body r = None) \/
      (method r = POST /\ exists text, body r = Some text))).
Proof.
  intros net calls st r Hin.
  destruct (serve_trace net calls st) as (new & Hs & Ho).
  rewrite (issued_app _ _ _ Hs) in Hin.
  rewrite Forall_forall in Ho.
  destruct (Ho r Hin) as [|b' now name args c Hb Hcall].
  - left. split; [reflexivity|]. split; [reflexivity|]. split; [reflexivity|].
    apply token_request_body.
  - right.
    destruct (tool_call_shape _ _ _ _ Hcall) as ((rest & Hpath) & Hshape).
    unfold resource_request. cbn [url method headers body].
    split; [|split].
    + exists rest. now rewrite (same_constants_BASE_URL _ _ Hb), Hpath.
    + eexists. reflexivity.
    + destruct Hshape as [[-> ->] | (-> & envelope & members & ->)].
      * left. split; reflexivity.
      * right. split; [reflexivity|]. cbn [truthy andb]. apply stringify_object.
Qed.

(** On a run: a 401, a refresh and a retry. *)
Lemma X19_wire_discipline_witness :
  let st := Scenario.start Scenario.configured in
  let later :=
    serve (Scenario.service "fresh" Scenario.fresh_token Scenario.business_ok)
      [{| at_time := 0; tool := "sage_get_business"; arguments := VObj [] |}] st in
  length (issued st later) = 3%nat /\
  body (token_request Scenario.configured)
  = Some "grant_type=refresh_token&refresh_token=refresh&client_id=client&client_secret=secret".
Proof.
  intros st later. split; [reflexivity|].
  destruct (X19_wire_discipline
              (Scenario.service "fresh" Scenario.fresh_token Scenario.business_ok)
              [{| at_time := 0; tool := "sage_get_business"; arguments := VObj [] |}]
              st (token_request Scenario.configured)
              (or_intror (or_introl eq_refl)))
    as [(_ & _ & _ & H) | ((path & H) & _)].
  - exact H.
  - discriminate H.
Defined.

(* ================================================================== *)
(** ** A session with a well-behaved service *)
(* ================================================================== *)

Section Session.

(** The service accepts the bearer token [good] and answers [answer]; the
    token endpoint answers [rt], which carries [good]. *)
Variables (good : string) (rt answer : Response) (data : Value).
Hypothesis good_not_empty : good <> "".
Hypothesis rt_ok : ok rt = true.
Hypothesis rt_json : json rt = Ok data.
Hypothesis rt_token : get data "access_token" = Ok (VStr good).
Hypothesis answer_ok : ok answer = true.

Let net : Network := Scenario.service good rt answer.

Local Open Scope nat_scope.



Lemma service_token_request history b :
  net history (token_request b) = Ok rt.
Proof. reflexivity. Qed.






End Session.



(* ================================================================== *)
(** ** Reading the date back *)
(* ================================================================== *)

Section ReadingBack.

Local Open Scope Z_scope.

Lemma digit_value_digit z : digit_value (digit (z mod 10)) = z mod 10.
Proof.
  pose proof (Z.mod_pos_bound z 10 ltac:(lia)) as Hb.
  assert (H : z mod 10 = 0 \/ z mod 10 = 1 \/ z mod 10 = 2 \/ z mod 10 = 3
              \/ z mod 10 = 4 \/ z mod 10 = 5 \/ z mod 10 = 6 \/ z mod 10 = 7
              \/ z mod 10 = 8 \/ z mod 10 = 9) by lia.
  repeat (destruct H as [H|H]; [rewrite H; reflexivity|]).
  rewrite H. reflexivity.
Qed.

Lemma days_in_month_bound y m : 28 <= days_in_month y m <= 31.
Proof.
  unfold days_in_month.
  destruct (m =? 2); [destruct (is_leap y); lia|].
  destruct (_ || _)%bool; lia.
Qed.

(** The text of a date denotes the date. *)
Lemma parse_date_YYYY_MM_DD y m d :
  0 <= y <= 9999 -> 0 <= m <= 99 -> 0 <= d <= 99 ->
  parse_date (YYYY_MM_DD (y, m, d)) = Some (y, m, d).
Proof.
  intros Hy Hm Hd. unfold parse_date.
  rewrite YYYY_MM_DD_form.
  unfold YYYY_MM_DD, pad. cbn [pad_digits String.append substring decimal].
  rewrite !digit_value_digit.
  f_equal. f_equal; [f_equal|]; Z.div_mod_to_equations; lia.
Qed.

End ReadingBack.

(** X21.  The default date of an invoice reads back as the UTC date of the
    clock.  For a clock from the year 0 to the year 9999, the text that the
    create-invoice tools compute denotes, digit by digit, the year, month and
    day of the UTC date; so two readings of the clock give the same text
    exactly when they fall on the same UTC day, whatever the time of day. *)
Theorem X21_today_reads_back :
  forall now : Z,
    (year_0 <= now < year_10000)%Z ->
    parse_date (today now) = Some (utc_date now) /\
    forall now' : Z,
      (year_0 <= now' < year_10000)%Z ->
      (today now = today now' <-> (now / msPerDay = now' / msPerDay)%Z).
Proof.
  assert (Hparse : forall now, (year_0 <= now < year_10000)%Z ->
            today now = YYYY_MM_DD (utc_date now) /\
            parse_date (today now) = Some (utc_date now)).
  { intros now Hnow.
    pose proof (utc_date_correct now Hnow) as Hdate.
    assert (Htoday : today now = YYYY_MM_DD (utc_date now)).
    { apply today_form. destruct (utc_date now) as [[y m] d]. cbn [fst]. lia. }
    split; [exact Htoday|]. rewrite Htoday.
    destruct (utc_date now) as [[y m] d].
    destruct Hdate as (Hy & Hvalid & _).
    unfold valid_date in Hvalid.
    rewrite !andb_true_iff, !Z.leb_le in Hvalid.
    pose proof (days_in_month_bound y m).
    apply parse_date_YYYY_MM_DD; lia. }
  intros now Hnow. split; [apply (Hparse now Hnow)|].
  intros now' Hnow'. split.
  - intros Heq.
    destruct (Hparse now Hnow) as [_ H1].
    destruct (Hparse now' Hnow') as [_ H2].
    rewrite Heq, H2 in H1.
    pose proof (utc_date_correct now Hnow) as Hd.
    pose proof (utc_date_correct now' Hnow') as Hd'.
    destruct (utc_date now) as [[y m] d].
    destruct (utc_date now') as [[y' m'] d'].
    injection H1 as -> -> ->.
    destruct Hd as (_ & _ & <-). destruct Hd' as (_ & _ & <-). reflexivity.
  - intros Heq.
    destruct (Hparse now Hnow) as [-> _].
    destruct (Hparse now' Hnow') as [-> _].
    unfold utc_date. now rewrite Heq.
Qed.

(** Late in the evening of 2 November 2026 and just after the midnight that
    follows. *)
Lemma X21_today_reads_back_witness :
  parse_date (today 1793663999999) = Some (2026, 11, 2)%Z /\
  today 1793664000000 = "2026-11-03".
Proof.
  split; [|reflexivity].
  exact (proj1 (X21_today_reads_back 1793663999999
                  ltac:(unfold year_0, year_10000; lia))).
Defined.

(* ================================================================== *)
(** ** The region *)
(* ================================================================== *)

(** X22.  The base URL by region.  With [SAGE_REGION] unset or empty the
    region is [uk]; for each of the seven regions of [API_BASE_URLS] the base
    URL is the one API host followed by the API version ([v3.1] unless set).
    Any other region, [UK] in capitals for one, is not refused: the table has
    no entry for it and the base URL starts with the text [undefined].  (The
    names that every object inherits are set apart: there the lookup finds
    the inherited property.) *)
Theorem X22_region_selects_host :
  forall e : ProcessEnv,
    let b := load e in
    (In (or_else (env_SAGE_REGION e) "uk") regions ->
     BASE_URL b = "https://api.accounting.sage.com/"
                  ++ or_else (env_SAGE_API_VERSION e) "v3.1") /\
    (~ In (or_else (env_SAGE_REGION e) "uk") regions ->
     ~ In (or_else (env_SAGE_REGION e) "uk") inherited ->
     BASE_URL b = "undefined/" ++ or_else (env_SAGE_API_VERSION e) "v3.1") /\
    (env_SAGE_REGION e = None \/ env_SAGE_REGION e = Some "" ->
     BASE_URL b = "https://api.accounting.sage.com/"
                  ++ or_else (env_SAGE_API_VERSION e) "v3.1").
Proof.
  intros e b. subst b. unfold BASE_URL, load.
  cbn [SAGE_REGION SAGE_API_VERSION].
  split; [|split].
  - unfold regions. cbn [map fst API_BASE_URLS In].
    intros H. repeat (destruct H as [<-|H]; [reflexivity|]). contradiction.
  - intros Hout _. unfold regions in Hout. cbn [map fst API_BASE_URLS In] in Hout.
    unfold own, API_BASE_URLS, assoc.
    repeat match goal with
           | |- context [if (?a =? ?r)%string then _ else _] =>
               destruct (String.eqb_spec a r) as [Heq|_];
               [exfalso; apply Hout; rewrite Heq; tauto|]
           end.
    reflexivity.
  - intros [-> | ->]; reflexivity.
Qed.
